(** * Powerlifting dashboard: percentile, projection, filter and goal logic

    A shallow embedding of the analytic code of the two dashboards,
    [app.py] (BigQuery version) and [app_parquet.py] (Parquet version).

    Conventions of the embedding.
    - A pandas float is a rational [Q]; a missing value (NaN, None, NaT) is
      [None].  Arithmetic is exact, so statements about sums and quotients
      are statements of rational arithmetic, compared with [==].
    - A data frame is the list of its rows, in index order; a boolean-mask
      selection [df[mask]] is [filter].
    - The schema is the one the loaders select: every column named in the
      code is present, so the tests ['X' in df.columns] are true. *)

From Stdlib Require Import List Sorted ZArith QArith Qround Qabs Bool Ascii String Lia Lqa.
From Stdlib Require Import DecimalString DecimalPos DecimalZ Permutation.
Import ListNotations.
Open Scope Q_scope.

(** ** Python, pandas and numpy operations used by the dashboards *)

Module Py.

(** [a < b] on floats. *)
Definition Qltb (a b : Q) : bool := negb (Qle_bool b a).

(** Builtin [max(a, b)]: [b] replaces [a] only when [b > a]. *)
Definition max2 (a b : Q) : Q := if Qltb a b then b else a.

(** [len(x)] as a number one can divide by. *)
Definition len {A : Type} (l : list A) : Q := inject_Z (Z.of_nat (List.length l)).

(** *** Calendar dates: [datetime.toordinal] and [pd.DateOffset(months=k)] *)

Record date : Type := mkdate { year : Z; month : Z; day : Z }.

Definition is_leap (y : Z) : bool :=
  ((y mod 4 =? 0) && (negb (y mod 100 =? 0) || (y mod 400 =? 0)))%Z.

Definition days_before_year (y : Z) : Z :=
  (let p := y - 1 in p * 365 + p / 4 - p / 100 + p / 400)%Z.

Definition days_in_month (y m : Z) : Z :=
  (if (m =? 2) && is_leap y then 29
   else nth (Z.to_nat m) [0; 31; 28; 31; 30; 31; 30; 31; 31; 30; 31; 30; 31] 0)%Z.

Definition days_before_month (y m : Z) : Z :=
  (nth (Z.to_nat m) [0; 0; 31; 59; 90; 120; 151; 181; 212; 243; 273; 304; 334] 0
   + (if (2 <? m) && is_leap y then 1 else 0))%Z.

Definition toordinal (d : date) : Z :=
  (days_before_year (year d) + days_before_month (year d) (month d) + day d)%Z.

(** [d + pd.DateOffset(months=k)]: the month is shifted, the year carried,
    and the day clipped to the length of the target month. *)
Definition add_months (d : date) (k : Z) : date :=
  (let t := month d - 1 + k in
   let y := year d + t / 12 in
   let m := t mod 12 + 1 in
   mkdate y m (Z.min (day d) (days_in_month y m)))%Z.

Definition date_leb (a b : date) : bool := (toordinal a <=? toordinal b)%Z.

(** [Series.max()] of a date column without missing values. *)
Definition date_max (l : list date) : date :=
  match l with
  | [] => mkdate 1 1 1
  | d :: r => fold_left (fun acc x => if date_leb acc x then x else acc) r d
  end.

(** *** Float series *)

(** [Series.sum()], [Series.max()], [Series.mean()] of a series without
    missing values.  On the empty series pandas answers NaN for the last
    two; every call below is behind a guard that excludes it. *)
Definition sum (l : list Q) : Q := fold_right Qplus 0 l.

Definition series_max (l : list Q) : Q :=
  match l with
  | [] => 0
  | v :: r => fold_left (fun acc x => if Qltb acc x then x else acc) r v
  end.

Definition mean (l : list Q) : Q := sum l / len l.

(** [Series.iloc[-1]]. *)
Definition iloc_last (l : list Q) : Q := last l 0.

(** [Series.dropna()] on a float column. *)
Definition dropna (s : list (option Q)) : list Q :=
  flat_map (fun c => match c with Some v => [v] | None => [] end) s.

Definition notna {A : Type} (c : option A) : bool :=
  match c with Some _ => true | None => false end.

(** [Series.min()] and [Series.max()] skip missing values and answer NaN
    when nothing is left. *)
Definition series_min (l : list Q) : Q :=
  match l with
  | [] => 0
  | v :: r => fold_left (fun acc x => if Qltb x acc then x else acc) r v
  end.

Definition skipna_min (s : list (option Q)) : option Q :=
  match dropna s with [] => None | l => Some (series_min l) end.

Definition skipna_max (s : list (option Q)) : option Q :=
  match dropna s with [] => None | l => Some (series_max l) end.

(** Comparisons of a cell with a scalar: false on a missing value. *)
Definition cell_lt (c : option Q) (v : Q) : bool :=
  match c with Some x => Qltb x v | None => false end.
Definition cell_ge (c : option Q) (v : Q) : bool :=
  match c with Some x => Qle_bool v x | None => false end.
Definition cell_le (c : option Q) (v : Q) : bool :=
  match c with Some x => Qle_bool x v | None => false end.

Definition zmin_list (l : list Z) : option Z :=
  match l with [] => None | v :: r => Some (fold_left Z.min r v) end.
Definition zmax_list (l : list Z) : option Z :=
  match l with [] => None | v :: r => Some (fold_left Z.max r v) end.

Definition zdropna (s : list (option Z)) : list Z :=
  flat_map (fun c => match c with Some v => [v] | None => [] end) s.

Definition zcell_ge (c : option Z) (v : Z) : bool :=
  match c with Some x => (v <=? x)%Z | None => false end.
Definition zcell_le (c : option Z) (v : Z) : bool :=
  match c with Some x => (x <=? v)%Z | None => false end.

(** [column == value] on a text column: false on a missing value. *)
Definition str_eq (c : option string) (v : string) : bool :=
  match c with Some s => String.eqb s v | None => false end.

(** [column.astype(str)]: a missing value becomes the text [na_text]
    (["nan"] for a float NaN, ["None"] for a Python [None]). *)
Definition astype_str (na_text : string) (c : option string) : string :=
  match c with Some s => s | None => na_text end.

(** [Series.between(lo, hi)], both ends included. *)
Definition between (c : option Q) (lo hi : Q) : bool :=
  cell_ge c lo && cell_le c hi.

(** *** Sorting and [Series.quantile(q)] (linear interpolation) *)

Fixpoint insert_sorted (x : Q) (l : list Q) : list Q :=
  match l with
  | [] => [x]
  | y :: r => if Qle_bool x y then x :: l else y :: insert_sorted x r
  end.

Definition sort_values (l : list Q) : list Q := fold_right insert_sorted [] l.

(** numpy's linear method on the sorted values [s]: the virtual index is
    [(n - 1) * q], the two neighbours are its floor and the next index
    (clipped to the last one), and the result interpolates between them. *)
Definition lerp_at (s : list Q) (h : Q) : Q :=
  let lo := Qfloor h in
  let hi := Z.min (lo + 1) (Z.of_nat (List.length s) - 1) in
  let a := nth (Z.to_nat lo) s 0 in
  let b := nth (Z.to_nat hi) s 0 in
  a + (b - a) * (h - inject_Z lo).

Definition quantile (s : list (option Q)) (q : Q) : Q :=
  let v := sort_values (dropna s) in
  lerp_at v ((len v - 1) * q).

(** *** [np.polyfit(x, y, 1)]: least-squares line, as (slope, intercept)

    With [den = n * sum x^2 - (sum x)^2] non-zero this is the solution of
    the normal equations.  When all abscissas coincide the system has rank
    one; numpy then warns and returns the minimum-norm solution of the
    column-scaled system, which is [(mean y / (2 x0), mean y / 2)]. *)
Definition polyfit1 (x : list Z) (y : list Q) : Q * Q :=
  let xq := map inject_Z x in
  let n := len xq in
  let sx := sum xq in
  let sy := sum y in
  let sxx := sum (map (fun a => a * a) xq) in
  let sxy := sum (map (fun p => fst p * snd p) (combine xq y)) in
  let den := n * sxx - sx * sx in
  if Qeq_bool den 0
  then (sy / n / (2 * hd 0 xq), sy / n / 2)
  else let slope := (n * sxy - sx * sy) / den in
       (slope, (sy - slope * sx) / n).

(** *** Further pandas and Python operations *)

Definition cell_gt (c : option Q) (v : Q) : bool :=
  match c with Some x => Qltb v x | None => false end.

(** [Series.cummax()]: the running maximum; a missing value stays missing
    and does not interrupt the run. *)
Fixpoint cummax_from (best : option Q) (s : list (option Q)) : list (option Q) :=
  match s with
  | [] => []
  | None :: r => None :: cummax_from best r
  | Some v :: r =>
      let m := match best with
               | Some b => if Qltb b v then v else b
               | None => v
               end in
      Some m :: cummax_from (Some m) r
  end.

Definition cummax (s : list (option Q)) : list (option Q) := cummax_from None s.

(** Rounding to the nearest integer, ties to the even one, and
    [round(x, 1)]. *)
Definition round_half_even (q : Q) : Z :=
  let f := Qfloor q in
  let r := q - inject_Z f in
  if Qltb r (1 # 2) then f
  else if Qltb (1 # 2) r then (f + 1)%Z
  else if Z.even f then f else (f + 1)%Z.

Definition round1 (q : Q) : Q := inject_Z (round_half_even (q * 10)) / 10.

(** [Series.unique()]: the distinct values in order of first appearance. *)
Fixpoint unique (l : list string) : list string :=
  match l with
  | [] => []
  | x :: r => x :: filter (fun y => negb (String.eqb x y)) (unique r)
  end.

(** [sorted(list_of_str)]: ascending in the order of the code points,
    which is the order of the UTF-8 bytes. *)
Fixpoint insert_str (x : string) (l : list string) : list string :=
  match l with
  | [] => [x]
  | y :: r => if String.leb x y then x :: l else y :: insert_str x r
  end.

Definition sorted_str (l : list string) : list string := fold_right insert_str [] l.

(** [DataFrame.nlargest(n, column)] on rows whose key is present: the [n]
    rows of largest key, largest first, rows of equal key in their
    original order. *)
Fixpoint insert_desc {A : Type} (key : A -> Q) (x : A) (l : list A) : list A :=
  match l with
  | [] => [x]
  | y :: r => if Qltb (key x) (key y) then y :: insert_desc key x r else x :: l
  end.

Definition nlargest {A : Type} (n : nat) (key : A -> Q) (l : list A) : list A :=
  firstn n (fold_right (insert_desc key) [] l).

(** [str(n)] for an integer. *)
Definition str_of_int (n : Z) : string := NilZero.string_of_int (Z.to_int n).

(** [int(s)] for the text of an integer. *)
Definition int_of_str (s : string) : option Z :=
  option_map Z.of_int (NilZero.int_of_string s).

(** The thousands separators of [f"{n:,}"], on the digits read from the
    right: a comma after every third digit that has a digit after it. *)
Fixpoint group3 (rev_digits : list ascii) : list ascii :=
  match rev_digits with
  | a :: b :: c :: ((_ :: _) as rest) => a :: b :: c :: ","%char :: group3 rest
  | l => l
  end.

(** [f"{n:,}"] for [n >= 0]. *)
Definition format_commas (n : Z) : string :=
  string_of_list_ascii (rev (group3 (rev (list_ascii_of_string (str_of_int n))))).

(** [s.replace(a, b)] for single characters. *)
Definition replace_char (a b : ascii) (s : string) : string :=
  string_of_list_ascii
    (map (fun c => if Ascii.eqb c a then b else c) (list_ascii_of_string s)).

(** [s.replace(a, "")] for a single character. *)
Definition remove_char (a : ascii) (s : string) : string :=
  string_of_list_ascii
    (filter (fun c => negb (Ascii.eqb c a)) (list_ascii_of_string s)).

End Py.

(** ** The data set *)

(** One competition result, with the columns the analytic code reads. *)
Record row : Type := mkrow {
  NameNormalized : option string;
  Sex : option string;
  Equipment : option string;
  Country : option string;
  Year : option Z;
  Date : option Py.date;
  AgeClass : option string;
  BodyweightKg : option Q;
  Best3SquatKg : option Q;
  Best3BenchKg : option Q;
  Best3DeadliftKg : option Q;
  TotalKg : option Q
}.

Definition dataframe : Type := list row.

(** The nine attempt columns, as [success_rate] reads them from a row. *)
Record attempts : Type := mkattempts {
  Squat1Kg : option Q; Squat2Kg : option Q; Squat3Kg : option Q;
  Bench1Kg : option Q; Bench2Kg : option Q; Bench3Kg : option Q;
  Deadlift1Kg : option Q; Deadlift2Kg : option Q; Deadlift3Kg : option Q
}.

(** A result together with its weight class, the fourth column that
    [my_category_mask] compares. *)
Record classed_row : Type := mkclassed {
  result : row;
  WeightClass : option string
}.

(** A value handed to [format_count]: an integer, a float, or NaN. *)
Inductive pynum : Type :=
| PyInt (n : Z)
| PyFloat (x : Q)
| PyNaN.


(** ** app.py *)

Module App.
Import Py.

(** *** Tab 1: the sidebar filters *)

Record sidebar : Type := mksidebar {
  sex_filter : string;
  equip_filter : string;
  country_filter : string;
  year_range : Z * Z;
  age_filter : string;
  total_range : Q * Q
}.

(** The four select boxes are applied only when they differ from
    ["Todos"]; the two sliders are applied always. *)
Definition tab1_filtered (df : dataframe) (w : sidebar) : dataframe :=
  let filtered := df in
  let filtered :=
    if negb (String.eqb (sex_filter w) "Todos")
    then filter (fun r => str_eq (Sex r) (sex_filter w)) filtered
    else filtered in
  let filtered :=
    if negb (String.eqb (equip_filter w) "Todos")
    then filter (fun r => str_eq (Equipment r) (equip_filter w)) filtered
    else filtered in
  let filtered :=
    if negb (String.eqb (country_filter w) "Todos")
    then filter (fun r => str_eq (Country r) (country_filter w)) filtered
    else filtered in
  let filtered :=
    if negb (String.eqb (age_filter w) "Todos")
    then filter (fun r => str_eq (AgeClass r) (age_filter w)) filtered
    else filtered in
  filter (fun r =>
            zcell_ge (Year r) (fst (year_range w)) &&
            zcell_le (Year r) (snd (year_range w)) &&
            cell_ge (TotalKg r) (fst (total_range w)) &&
            cell_le (TotalKg r) (snd (total_range w)))
         filtered.

(** The state of the widgets before the user touches them: first option
    of every select box, both sliders over their whole range
    [(min, max)] of the column.  [None] when a column has no value at
    all, where [int(NaN)] raises. *)
Definition sidebar_initial (df : dataframe) : option sidebar :=
  match zmin_list (zdropna (map Year df)), zmax_list (zdropna (map Year df)),
        skipna_min (map TotalKg df), skipna_max (map TotalKg df) with
  | Some year_min, Some year_max, Some total_min, Some total_max =>
      Some (mksidebar "Todos" "Todos" "Todos" (year_min, year_max)
                      "Todos" (total_min, total_max))
  | _, _, _, _ => None
  end.

(** *** Tab 4: linear projection at six months *)

(** [me[["Date", col]].dropna()]: the rows where both are present. *)
Definition date_col_dropna (me : dataframe) (col : row -> option Q)
  : list (date * Q) :=
  flat_map (fun r => match Date r, col r with
                     | Some t, Some v => [(t, v)]
                     | _, _ => []
                     end) me.

(** The value of the fitted line six months after the last date. *)
Definition y_fut (d : list (date * Q)) : Q :=
  let x := map (fun p => toordinal (fst p)) d in
  let y := map snd d in
  let coef := polyfit1 x y in
  let fut := add_months (date_max (map fst d)) 6 in
  fst coef * inject_Z (toordinal fut) + snd coef.

(** The dashed trace "Proyección 6m" that [plot_with_projection] adds to
    the evolution chart of one lift: two points, from the last value to
    the projected one. *)
Record trace : Type := mktrace { trace_x : Z * Z; trace_y : Q * Q }.

Definition plot_with_projection (me : dataframe) (col : row -> option Q)
  : option trace :=
  let d := date_col_dropna me col in
  if (3 <=? List.length d)%nat
  then let fut := add_months (date_max (map fst d)) 6 in
       Some (mktrace (year (date_max (map fst d)), year fut)
                     (iloc_last (map snd d), y_fut d))
  else None.

(** One line of the table "Proyección de Rendimiento a 6 meses":
    lift, current record, projection. *)
Record proj_row : Type := mkproj {
  Levantamiento : string;
  PR_actual : Q;
  Proyeccion_6m : Q
}.

Definition proj_of (lift : string) (me : dataframe) (col : row -> option Q)
  : list proj_row :=
  let d := date_col_dropna me col in
  if (3 <=? List.length d)%nat
  then [mkproj lift (series_max (map snd d))
               (max2 (y_fut d) (series_max (map snd d)))]
  else [].

Definition proj (me : dataframe) : list proj_row :=
  flat_map (fun lc => proj_of (fst lc) me (snd lc))
           [("Squat", Best3SquatKg); ("Bench", Best3BenchKg);
            ("Deadlift", Best3DeadliftKg); ("Total", TotalKg)]%string.

(** *** Tab 5: level simulator *)

(** The comparable athletes: same sex, body weight within 5 kg, a total
    on record. *)
Definition comp_df (df : dataframe) (sex_in : string) (bw_in : Q) : dataframe :=
  let c := filter (fun r => str_eq (Sex r) sex_in) df in
  let c := filter (fun r => between (BodyweightKg r) (bw_in - 5) (bw_in + 5)) c in
  filter (fun r => notna (TotalKg r)) c.

(** [(comp_df["TotalKg"] < total_in).sum()]. *)
Definition rank (c : dataframe) (total_in : Q) : nat :=
  List.length (filter (fun r => cell_lt (TotalKg r) total_in) c).

(** The percentile shown, or [None] when the warning "No se encontraron
    atletas comparables" is shown instead. *)
Definition percentil (df : dataframe) (sex_in : string) (bw_in : Q)
           (squat_in bench_in dead_in : Q) : option Q :=
  let total_in := squat_in + bench_in + dead_in in
  let c := comp_df df sex_in bw_in in
  match c with
  | [] => None
  | _ => Some (inject_Z (Z.of_nat (rank c total_in)) / len c * 100)
  end.

(** *** Helpers *)

(** [int(num)]: floats are truncated toward zero, NaN raises. *)
Definition py_int (num : pynum) : option Z :=
  match num with
  | PyInt n => Some n
  | PyFloat x => Some (if Qle_bool 0 x then Qfloor x else Qceiling x)
  | PyNaN => None
  end.

(** Counts are written with a dot between groups of three digits. *)
Definition format_count (num : pynum) : string :=
  match py_int num with
  | None => "0"
  | Some n =>
      if (1000 <=? n)%Z
      then replace_char ","%char "."%char (format_commas n)
      else str_of_int n
  end.

(** The first score column the data set has, in the order Dots, Wilks,
    Goodlift, Glossbrenner. *)
Fixpoint first_present (candidates columns : list string) : option string :=
  match candidates with
  | [] => None
  | c :: rest =>
      if existsb (String.eqb c) columns then Some c
      else first_present rest columns
  end.

Definition score_col (columns : list string) : option string :=
  first_present ["Dots"; "Wilks"; "Goodlift"; "Glossbrenner"]%string columns.

Definition running_pr (series : list (option Q)) : list (option Q) :=
  cummax series.

(** An attempt counts when it is on record and positive. *)
Definition made (c : option Q) : bool :=
  match c with Some v => Qltb 0 v | None => false end.

(** Per lift, the share of the three attempts that were made, in percent
    with one decimal. *)
Definition success_rate (row : attempts) : list (string * Q) :=
  map (fun spec =>
         let hit := List.length (filter (fun c => made (c row)) (snd spec)) in
         (fst spec, round1 (100 * inject_Z (Z.of_nat hit) / 3)))
      [("Sentadilla", [Squat1Kg; Squat2Kg; Squat3Kg]);
       ("Banca", [Bench1Kg; Bench2Kg; Bench3Kg]);
       ("Peso Muerto", [Deadlift1Kg; Deadlift2Kg; Deadlift3Kg])]%string.

(** The rows of the same category as [row]: for each of sex, equipment,
    age class and weight class that [row] has, the text of the cell must
    equal the one of [row]. *)
Definition my_category_mask (na_text : string) (df : list classed_row)
           (row : classed_row) : list bool :=
  fold_left
    (fun mask c =>
       match c row with
       | Some v =>
           map (fun p => fst p && snd p)
               (combine mask
                        (map (fun r => String.eqb (astype_str na_text (c r)) v) df))
       | None => mask
       end)
    [(fun r => Sex (result r)); (fun r => Equipment (result r));
     (fun r => AgeClass (result r)); WeightClass]
    (map (fun _ => true) df).

(** *** Tab 3: the same sidebar filters, applied again *)

Definition tab3_filtered_df (df : dataframe) (w : sidebar) : dataframe :=
  let filtered_df := df in
  let filtered_df :=
    if negb (String.eqb (sex_filter w) "Todos")
    then filter (fun r => str_eq (Sex r) (sex_filter w)) filtered_df
    else filtered_df in
  let filtered_df :=
    if negb (String.eqb (equip_filter w) "Todos")
    then filter (fun r => str_eq (Equipment r) (equip_filter w)) filtered_df
    else filtered_df in
  let filtered_df :=
    if negb (String.eqb (country_filter w) "Todos")
    then filter (fun r => str_eq (Country r) (country_filter w)) filtered_df
    else filtered_df in
  let filtered_df :=
    if negb (String.eqb (age_filter w) "Todos")
    then filter (fun r => str_eq (AgeClass r) (age_filter w)) filtered_df
    else filtered_df in
  let filtered_df :=
    filter (fun r => zcell_ge (Year r) (fst (year_range w)) &&
                     zcell_le (Year r) (snd (year_range w))) filtered_df in
  filter (fun r => cell_ge (TotalKg r) (fst (total_range w)) &&
                   cell_le (TotalKg r) (snd (total_range w))) filtered_df.

(** *** Tab 4: the athlete's rows and record cards *)

(** A record card: [me[col].max()], NaN when no value is on record. *)
Definition pr_card (me : dataframe) (col : row -> option Q) : option Q :=
  skipna_max (map col me).

(** *** Tab 5: the closest athlete above *)

(** The total of the first row of
    [comp_df[comp_df["TotalKg"] > total_in].sort_values("TotalKg").head(1)];
    only this total is read from it. *)
Definition superior (c : dataframe) (total_in : Q) : list Q :=
  firstn 1 (sort_values
              (dropna (map TotalKg
                           (filter (fun r => cell_gt (TotalKg r) total_in) c)))).

(** The kilos missing to reach that athlete, when there is one. *)
Definition falta (c : dataframe) (total_in : Q) : option Q :=
  match superior c total_in with
  | [] => None
  | t :: _ => Some (t - total_in)
  end.

End App.

(** ** app_parquet.py *)

Module AppParquet.
Import Py.

(** A cell of a column of unknown type, as [pd.to_numeric] receives it. *)
Inductive cell : Type :=
| Num (v : Q)
| Text (s : string)
| Missing.

(** A float column seen as such cells. *)
Definition float_cell (c : option Q) : cell :=
  match c with Some v => Num v | None => Missing end.

(** The filter settings kept in the session state. *)
Record filters : Type := mkfilters {
  sex : string;
  equipment : string;
  country : string;
  year_range : Z * Z;
  age_class : string;
  total_range : Q * Q
}.

(** The form "Tus Datos". *)
Record personal_data : Type := mkpersonal {
  user_sex : string;
  user_equipment : string;
  user_age_class : string;
  user_bodyweight : Q;
  user_squat : Q;
  user_bench : Q;
  user_deadlift : Q
}.

(** The suggested split of the improvement over the three lifts. *)
Record allocation : Type := mkalloc {
  obj_name : string;
  obj_total : Q;
  improvement_needed : Q;
  squat_impr : Q;
  bench_impr : Q;
  deadlift_impr : Q
}.

(** What the block "Objetivo sugerido" writes: an allocation, or the note
    "Ya estás por sobre el objetivo Top 5% en esta categoría". *)
Inductive suggestion : Type :=
| Suggested (a : allocation)
| AlreadyAboveTop5.

(** The predictive block: the suggestion, or the note that more than 20
    rows with a body weight are required. *)
Inductive predictive : Type :=
| Objective (s : suggestion)
| NotEnoughBodyweight.

Record position : Type := mkposition {
  cohort_size : nat;
  percentile : Q;
  category_avg : Q;
  category_top10 : Q
}.

(** A warning followed by [st.stop()]. *)
Inductive warning : Type :=
| CheckEntries
| NotEnoughData.

Inductive analysis : Type :=
| Stopped (w : warning)
| Report (p : position) (g : predictive).

Section Coercions.

(** The text a missing value turns into under [astype(str)]. *)
Variable na_text : string.

(** The parser [pd.to_numeric] applies to text; [None] when the text is
    not a number. *)
Variable to_float : string -> option Q.

(** *** The sidebar filters *)

Definition filtered_df (df : dataframe) (f : filters) : dataframe :=
  let filtered_df := df in
  let filtered_df :=
    if negb (String.eqb (sex f) "Todos")
    then filter (fun r => String.eqb (astype_str na_text (Sex r)) (sex f))
                filtered_df
    else filtered_df in
  let filtered_df :=
    if negb (String.eqb (equipment f) "Todos")
    then filter (fun r => String.eqb (astype_str na_text (Equipment r))
                                     (equipment f)) filtered_df
    else filtered_df in
  let filtered_df :=
    if negb (String.eqb (country f) "Todos")
    then filter (fun r => String.eqb (astype_str na_text (Country r))
                                     (country f)) filtered_df
    else filtered_df in
  let filtered_df :=
    if negb (String.eqb (age_class f) "Todos")
    then filter (fun r => String.eqb (astype_str na_text (AgeClass r))
                                     (age_class f)) filtered_df
    else filtered_df in
  let filtered_df :=
    filter (fun r => zcell_ge (Year r) (fst (year_range f)) &&
                     zcell_le (Year r) (snd (year_range f))) filtered_df in
  filter (fun r => cell_ge (TotalKg r) (fst (total_range f)) &&
                   cell_le (TotalKg r) (snd (total_range f))) filtered_df.

(** The filters in force before "Aplicar Filtros" is pressed: nothing
    selected, the years from 2010 to the last one, the totals over their
    whole range.  [None] when a column has no value at all. *)
Definition initial_filters (df : dataframe) : option filters :=
  match zmax_list (zdropna (map Year df)),
        skipna_min (map TotalKg df), skipna_max (map TotalKg df) with
  | Some max_year, Some total_min, Some total_max =>
      Some (mkfilters "Todos" "Todos" "Todos" (2010%Z, max_year)
                      "Todos" (total_min, total_max))
  | _, _, _ => None
  end.


(** *** Tab 5: "Compararme" *)

(** [pd.to_numeric(series, errors='coerce').dropna()]. *)
Definition to_numeric_dropna (series : list cell) : list Q :=
  flat_map (fun c => match c with
                     | Num v => [v]
                     | Text s => match to_float s with
                                 | Some v => [v]
                                 | None => []
                                 end
                     | Missing => []
                     end) series.

Definition _percentile_less_than (series : list cell) (value : Q) : Q :=
  let s := to_numeric_dropna series in
  if (List.length s =? 0)%nat
  then 0
  else mean (map (fun x => if Qltb x value then 1 else 0) s) * 100.

Definition comparison_data (df : dataframe) (u : personal_data) : dataframe :=
  filter (fun r =>
            String.eqb (astype_str na_text (Sex r)) (user_sex u) &&
            String.eqb (astype_str na_text (Equipment r)) (user_equipment u) &&
            String.eqb (astype_str na_text (AgeClass r)) (user_age_class u) &&
            notna (TotalKg r)) df.

(** The candidate goals, in the order the loop visits them. *)
Definition objectives (comparison_data : dataframe) : list (string * Q) :=
  let total := map TotalKg comparison_data in
  [("Promedio de categoría", mean (dropna total));
   ("Top 50%", quantile total (50 # 100));
   ("Top 25%", quantile total (75 # 100));
   ("Top 10%", quantile total (90 # 100));
   ("Top 5%", quantile total (95 # 100))]%string.

(** The loop over the goals: [Some] when an allocation was written
    ([shown = True; break]), [None] when the loop ran to its end. *)
Fixpoint objectives_loop (objectives : list (string * Q))
         (user_squat user_bench user_deadlift user_total : Q)
  : option allocation :=
  match objectives with
  | [] => None
  | (obj_name, obj_total) :: rest =>
      if Qltb user_total obj_total
      then
        let improvement_needed := obj_total - user_total in
        let total_lifts := user_squat + user_bench + user_deadlift in
        if Qltb 0 total_lifts
        then
          let squat_impr := improvement_needed * (user_squat / total_lifts) in
          let bench_impr := improvement_needed * (user_bench / total_lifts) in
          let deadlift_impr :=
            improvement_needed * (user_deadlift / total_lifts) in
          Some (mkalloc obj_name obj_total improvement_needed
                        squat_impr bench_impr deadlift_impr)
        else objectives_loop rest user_squat user_bench user_deadlift user_total
      else objectives_loop rest user_squat user_bench user_deadlift user_total
  end.

Definition suggested_objective (comparison_data : dataframe)
           (u : personal_data) (user_total : Q) : suggestion :=
  match objectives_loop (objectives comparison_data) (user_squat u)
                        (user_bench u) (user_deadlift u) user_total with
  | Some a => Suggested a
  | None => AlreadyAboveTop5
  end.

(** What happens when the form is submitted. *)
Definition analyze (df : dataframe) (u : personal_data) : analysis :=
  let user_total := user_squat u + user_bench u + user_deadlift u in
  if Qle_bool (user_bodyweight u) 0 || Qle_bool user_total 0
  then Stopped CheckEntries
  else
    let comparison_data := comparison_data df u in
    if (List.length comparison_data <=? 10)%nat
    then Stopped NotEnoughData
    else
      let percentile :=
        _percentile_less_than (map (fun r => float_cell (TotalKg r))
                                   comparison_data) user_total in
      let category_avg := mean (dropna (map TotalKg comparison_data)) in
      let category_top10 :=
        quantile (map TotalKg comparison_data) (90 # 100) in
      let valid_bw := filter (fun r => notna (BodyweightKg r)) comparison_data in
      Report (mkposition (List.length comparison_data) percentile
                         category_avg category_top10)
             (if (20 <? List.length valid_bw)%nat
              then Objective (suggested_objective comparison_data u user_total)
              else NotEnoughBodyweight).

End Coercions.

(** *** Tab 1: competitions per month *)

(** The twelve bars: for each month, the number of rows dated in it. *)
Definition yvals (filtered_df : dataframe) : list nat :=
  map (fun m =>
         List.length
           (filter (fun r => match Date r with
                             | Some d => (month d =? Z.of_nat m)%Z
                             | None => false
                             end) filtered_df))
      (seq 1 12).

(** *** Tab 4: the elite ranking *)

(** The total of a row of the filtered data, where every row has one. *)
Definition total_of (r : row) : Q :=
  match TotalKg r with Some t => t | None => 0 end.

Definition top_athletes (filtered_df : dataframe) : dataframe :=
  nlargest 20 total_of filtered_df.

Definition top_10 (filtered_df : dataframe) : dataframe :=
  firstn 10 (top_athletes filtered_df).

(** *** Tab 5: the options of the form and the analysis of the lifts *)

Section Options.

(** [str.strip()]. *)
Variable strip : string -> string.

Definition _safe_unique_sorted (series : list (option string)) : list string :=
  let vals :=
    unique (flat_map (fun c => match c with Some v => [v] | None => [] end) series) in
  let vals := filter (fun v => negb (String.eqb (strip v) "")) vals in
  sorted_str vals.

(** The form is offered only when each of the four lists has an option. *)
Definition form_offered (df : dataframe) : bool :=
  negb (match _safe_unique_sorted (map Sex df) with [] => true | _ => false end)
  && negb (match _safe_unique_sorted (map Equipment df) with [] => true | _ => false end)
  && negb (match _safe_unique_sorted (map AgeClass df) with [] => true | _ => false end)
  && negb (match _safe_unique_sorted (map Country df) with [] => true | _ => false end).

End Options.

Inductive flag : Type :=
| Fortaleza
| Oportunidad.

(** One lift of the composition analysis: the user's share of the total,
    the average share in the category, and the mark written when they
    differ by 2 points or more. *)
Record lift_line : Type := mkline {
  lift_name : string;
  user_share : Q;
  category_share : Q;
  status : option flag
}.

(** [comparison_data[lifts_cols].dropna()]. *)
Definition category_lifts (comparison_data : dataframe) : dataframe :=
  filter (fun r => notna (Best3SquatKg r) && notna (Best3BenchKg r) &&
                   notna (Best3DeadliftKg r) && notna (TotalKg r))
         comparison_data.

(** A lift divided by the total of the same row.  (A total of zero gives
    an infinite share in floating point; the properties below assume
    positive totals.) *)
Definition share (lift : row -> option Q) (r : row) : Q :=
  match lift r, TotalKg r with
  | Some l, Some t => l / t
  | _, _ => 0
  end.

Definition avg_share (lift : row -> option Q) (category_lifts : dataframe) : Q :=
  mean (map (share lift) category_lifts) * 100.

Definition lift_status (u a : Q) : option flag :=
  let diff := u - a in
  if Qle_bool 2 (Qabs diff)
  then Some (if Qltb 0 diff then Fortaleza else Oportunidad)
  else None.

(** The lines of the composition analysis, or [None] when the note "no
    detailed lift data" is written instead. *)
Definition lifts_analysis (comparison_data : dataframe) (u : personal_data)
  : option (list lift_line) :=
  let user_total := user_squat u + user_bench u + user_deadlift u in
  let category_lifts := category_lifts comparison_data in
  match category_lifts with
  | [] => None
  | _ =>
      if Qltb 0 user_total
      then
        let avg_sq := avg_share Best3SquatKg category_lifts in
        let avg_be := avg_share Best3BenchKg category_lifts in
        let avg_dl := avg_share Best3DeadliftKg category_lifts in
        let user_sq := user_squat u / user_total * 100 in
        let user_be := user_bench u / user_total * 100 in
        let user_dl := user_deadlift u / user_total * 100 in
        Some (map (fun c => mkline (fst (fst c)) (snd (fst c)) (snd c)
                                   (lift_status (snd (fst c)) (snd c)))
                  [("Sentadilla", user_sq, avg_sq);
                   ("Press Banca", user_be, avg_be);
                   ("Peso Muerto", user_dl, avg_dl)]%string)
      else None
  end.

End AppParquet.

(** ** The numeric entries of a series, as the specification words them *)

Module Spec.

(** The number an entry of the metric series stands for: a number stands
    for itself, a text for the number it spells (if it spells one), a
    null for none.  An entry without a number is "null or non-numeric". *)
Definition numeric_value (to_float : string -> option Q) (c : AppParquet.cell)
  : option Q :=
  match c with
  | AppParquet.Num v => Some v
  | AppParquet.Text s => to_float s
  | AppParquet.Missing => None
  end.

Definition is_numeric (to_float : string -> option Q) (c : AppParquet.cell) : bool :=
  match numeric_value to_float c with Some _ => true | None => false end.

(** A numeric entry strictly below [value]. *)
Definition is_below (to_float : string -> option Q) (value : Q)
           (c : AppParquet.cell) : bool :=
  match numeric_value to_float c with Some x => Py.Qltb x value | None => false end.

End Spec.

(** ** Sample data *)

Module Samples.
Import Py.
Local Open Scope string_scope.

(** A row of one athlete: date, three lifts, total. *)
Definition meet (d : option date) (sq be dl tot : option Q) : row :=
  mkrow (Some "ana") (Some "F") (Some "Raw") (Some "Chile")
        (option_map year d) d (Some "24-34") (Some 63)
        sq be dl tot.

(** A row of a cohort: sex, year, body weight, total. *)
Definition entry (sx : option string) (yr : option Z) (bw tot : option Q) : row :=
  mkrow (Some "x") sx (Some "Raw") (Some "Chile") yr None (Some "24-34") bw
        None None None tot.

(** Three meets with a falling squat. *)
Definition declining : dataframe :=
  [meet (Some (mkdate 2020 1 1)) (Some 110) (Some 60) (Some 140) (Some 310);
   meet (Some (mkdate 2020 1 31)) (Some 105) (Some 60) (Some 140) (Some 305);
   meet (Some (mkdate 2020 3 1)) (Some 100) (Some 60) (Some 140) (Some 300)].

(** Three meets with a rising squat, 30 days apart. *)
Definition rising : dataframe :=
  [meet (Some (mkdate 2020 1 1)) (Some 100) (Some 60) (Some 140) (Some 300);
   meet (Some (mkdate 2020 1 31)) (Some 105) (Some 60) (Some 140) (Some 305);
   meet (Some (mkdate 2020 3 1)) (Some 110) (Some 60) (Some 140) (Some 310)].

(** Two meets, and a third one without a squat on record. *)
Definition two_squats : dataframe :=
  [meet (Some (mkdate 2020 1 1)) (Some 100) (Some 60) (Some 140) (Some 300);
   meet (Some (mkdate 2020 1 31)) (Some 105) (Some 60) (Some 140) (Some 305);
   meet (Some (mkdate 2020 3 1)) None (Some 60) (Some 140) None].

(** Five women around 63 kg with totals 80, 90, 100, 110, 120. *)
Definition five : dataframe :=
  map (fun t => entry (Some "F") (Some 2020%Z) (Some 63) (Some t))
      [80; 90; 100; 110; 120].

(** The same five and one entry without a total. *)
Definition five_and_a_bombout : dataframe :=
  (five ++ [entry (Some "F") (Some 2021%Z) (Some 63) None])%list.

(** Twelve entries of one category, totals 300, 310, ..., 410. *)
Definition twelve : dataframe :=
  map (fun t => entry (Some "F") (Some 2020%Z) (Some 63) (Some t))
      [300; 310; 320; 330; 340; 350; 360; 370; 380; 390; 400; 410].

Definition lifter : AppParquet.personal_data :=
  AppParquet.mkpersonal "F" "Raw" "24-34" 63 150 100 150.

(** A parser of numeric text that knows two spellings. *)
Definition parse (s : string) : option Q :=
  if String.eqb s "100" then Some 100
  else if String.eqb s "90.5" then Some (181 # 2)
  else None.

(** Nine meets of one year: three in January, two in March, four in
    November; and one result without a date. *)
Definition season : dataframe :=
  (map (fun md => meet (Some (mkdate 2021 (fst md) (snd md)))
                       (Some 100) (Some 60) (Some 140) (Some 300))
       [(1, 5); (1, 12); (1, 30); (3, 6); (3, 20);
        (11, 1); (11, 8); (11, 15); (11, 29)]%Z
     ++ [meet None (Some 100) (Some 60) (Some 140) (Some 300)])%list.

(** A row of the comparison cohort with its three lifts. *)
Definition built (sq be dl : Q) : row :=
  mkrow (Some "x") (Some "F") (Some "Raw") (Some "Chile") (Some 2020%Z) None
        (Some "24-34") (Some 63) (Some sq) (Some be) (Some dl)
        (Some (sq + be + dl)).

Definition builders : dataframe :=
  [built 100 60 140; built 120 80 200; built 90 45 165].

(** A squat specialist and a deadlift specialist. *)
Definition squatter : AppParquet.personal_data :=
  AppParquet.mkpersonal "F" "Raw" "24-34" 63 200 100 200.

(** Two women of one weight class and a man without a weight class. *)
Definition classed : list classed_row :=
  [mkclassed (entry (Some "F") (Some 2020%Z) (Some 63) (Some 300)) (Some "63");
   mkclassed (entry (Some "F") (Some 2021%Z) (Some 62) (Some 310)) (Some "63");
   mkclassed (entry (Some "M") (Some 2021%Z) (Some 90) (Some 600)) None].

(** The blank test of [str.strip] on the sample texts: a text of spaces
    only is stripped to nothing. *)
Definition strip_spaces (s : string) : string :=
  if forallb (fun c => Ascii.eqb c " "%char) (list_ascii_of_string s)
  then "" else s.



End Samples.

(** * Properties *)

(** ** Arithmetic and list facts shared by the proofs *)

Import Py.

Lemma Qltb_lt (a b : Q) : Qltb a b = true <-> a < b.
Proof.
  unfold Qltb. rewrite negb_true_iff. split; intro H.
  - apply Qnot_le_lt. intro L. apply Qle_bool_iff in L. congruence.
  - destruct (Qle_bool b a) eqn:E; [|reflexivity].
    apply Qle_bool_iff in E. exfalso. apply (Qlt_not_le _ _ H E).
Qed.

Lemma Qltb_ge (a b : Q) : Qltb a b = false <-> b <= a.
Proof.
  unfold Qltb. rewrite negb_false_iff. apply Qle_bool_iff.
Qed.

Lemma cell_lt_spec (c : option Q) (v : Q) :
  cell_lt c v = true <-> exists t, c = Some t /\ t < v.
Proof.
  destruct c as [t|]; simpl.
  - rewrite Qltb_lt. split; [intro H; exists t; auto | intros [t' [E H]]].
    injection E as ->. exact H.
  - split; [discriminate | intros [t [E _]]; discriminate].
Qed.

Lemma len_cons {A : Type} (x : A) (l : list A) : len (x :: l) == len l + 1.
Proof.
  unfold len. cbn [List.length]. rewrite Nat2Z.inj_succ, <- Z.add_1_r.
  rewrite inject_Z_plus. reflexivity.
Qed.

Lemma len_nonneg {A : Type} (l : list A) : 0 <= len l.
Proof.
  unfold len. change 0 with (inject_Z 0). rewrite <- Zle_Qle. lia.
Qed.

Lemma len_pos {A : Type} (l : list A) : l <> [] -> 0 < len l.
Proof.
  destruct l as [|x l]; [congruence|]. intros _.
  rewrite len_cons. pose proof (len_nonneg l). lra.
Qed.

Lemma len_map {A B : Type} (f : A -> B) (l : list A) : len (map f l) = len l.
Proof. unfold len. now rewrite length_map. Qed.

(** The sum of the 0/1 marks of a test is the number of elements that
    pass it. *)
Lemma sum_indicator (p : Q -> bool) (s : list Q) :
  sum (map (fun x => if p x then 1 else 0) s) == len (filter p s).
Proof.
  induction s as [|x s IH]; [reflexivity|].
  cbn [map sum fold_right filter]. fold (sum (map (fun x => if p x then 1 else 0) s)).
  destruct (p x).
  - rewrite len_cons, IH. ring.
  - rewrite IH. ring.
Qed.

Lemma filter_len_le {A : Type} (p : A -> bool) (l : list A) :
  len (filter p l) <= len l.
Proof.
  unfold len. rewrite <- Zle_Qle. apply inj_le.
  induction l as [|x l IH]; simpl; [lia|]. destruct (p x); simpl; lia.
Qed.

(** ** The percentile of [_percentile_less_than] *)

Section Percentile.

Variable to_float : string -> option Q.

Local Abbreviation percentile_of := (AppParquet._percentile_less_than to_float).
Local Abbreviation valid := (AppParquet.to_numeric_dropna to_float).

Lemma percentile_formula (series : list AppParquet.cell) (v : Q) :
  valid series <> [] ->
  percentile_of series v ==
  len (filter (fun x => Qltb x v) (valid series)) / len (valid series) * 100.
Proof.
  intro Hne. unfold AppParquet._percentile_less_than.
  destruct (valid series) as [|x s] eqn:E; [congruence|].
  cbn [List.length Nat.eqb]. unfold mean.
  rewrite sum_indicator, len_map. reflexivity.
Qed.

Lemma percentile_no_valid (series : list AppParquet.cell) (v : Q) :
  valid series = [] -> percentile_of series v = 0.
Proof.
  intro E. unfold AppParquet._percentile_less_than. rewrite E. reflexivity.
Qed.

Lemma valid_app (l1 l2 : list AppParquet.cell) :
  valid (l1 ++ l2) = valid l1 ++ valid l2.
Proof. unfold AppParquet.to_numeric_dropna. apply flat_map_app. Qed.

Lemma valid_float_cells (l : list (option Q)) :
  valid (map AppParquet.float_cell l) = dropna l.
Proof.
  induction l as [|[v|] l IH]; simpl; [reflexivity| |]; now rewrite IH.
Qed.

Lemma valid_Num (s : list Q) : valid (map AppParquet.Num s) = s.
Proof. induction s as [|x s IH]; simpl; [reflexivity|]. now rewrite IH. Qed.

Lemma percentile_bounds (series : list AppParquet.cell) (v : Q) :
  0 <= percentile_of series v <= 100.
Proof.
  destruct (valid series) as [|x s] eqn:E.
  - rewrite (percentile_no_valid _ _ E). lra.
  - assert (Hne : valid series <> []) by (rewrite E; discriminate).
    rewrite (percentile_formula _ v Hne).
    pose proof (len_pos _ Hne) as Hp.
    pose proof (filter_len_le (fun x => Qltb x v) (valid series)) as Hle.
    pose proof (len_nonneg (filter (fun x => Qltb x v) (valid series))) as H0.
    set (c := len (filter (fun x => Qltb x v) (valid series))) in *.
    set (n := len (valid series)) in *.
    split.
    + apply Qmult_le_0_compat; [|lra].
      apply Qle_shift_div_l; [exact Hp|]. lra.
    + assert (c / n <= 1) by (apply Qle_shift_div_r; [exact Hp|]; lra).
      lra.
Qed.

End Percentile.

(** Rows with a total on record: the float column has no hole, and the
    values below [v] are the totals of the rows below [v]. *)
Lemma dropna_count_lt (cohort : dataframe) (v : Q) :
  List.length (filter (fun x => Qltb x v) (dropna (map TotalKg cohort))) =
  List.length (filter (fun r => cell_lt (TotalKg r) v) cohort).
Proof.
  induction cohort as [|r c IH]; [reflexivity|].
  cbn [map]. unfold dropna in *. cbn [flat_map filter].
  destruct (TotalKg r) as [t|]; cbn [app cell_lt filter].
  - destruct (Qltb t v); cbn [List.length]; now rewrite IH.
  - exact IH.
Qed.

Lemma dropna_all_present (cohort : dataframe) :
  Forall (fun r => TotalKg r <> None) cohort ->
  List.length (dropna (map TotalKg cohort)) = List.length cohort.
Proof.
  induction 1 as [|r c Hr _ IH]; [reflexivity|].
  cbn [map]. unfold dropna in *. cbn [flat_map].
  destruct (TotalKg r); [|congruence]. cbn [app List.length]. now rewrite IH.
Qed.


Lemma comp_df_total (df : dataframe) (sex_in : string) (bw_in : Q) :
  Forall (fun r => TotalKg r <> None) (App.comp_df df sex_in bw_in).
Proof.
  apply Forall_forall. intros r Hin. unfold App.comp_df in Hin.
  apply filter_In in Hin. destruct Hin as [_ H].
  destruct (TotalKg r); [discriminate | discriminate H].
Qed.

(** ** Claims on the percentile *)

(** C2.  For a non-empty cohort, the percentile is the number of cohort
    records whose total is strictly below the user value, divided by the
    size of the cohort, times 100.  This holds for [_percentile_less_than]
    on any cohort whose totals are on record (as the comparison cohort of
    app_parquet.py is) and for the simulator of app.py; a record whose
    total equals the user value is not counted. *)
Theorem percentile_is_share_strictly_below
        (to_float : string -> option Q) (cohort : dataframe) (value : Q)
        (df : dataframe) (sex_in : string) (bw_in squat_in bench_in dead_in : Q) :
  (cohort <> [] ->
   Forall (fun r => TotalKg r <> None) cohort ->
   AppParquet._percentile_less_than
     to_float (map (fun r => AppParquet.float_cell (TotalKg r)) cohort) value
   == len (filter (fun r => cell_lt (TotalKg r) value) cohort) / len cohort * 100)
  /\
  (App.comp_df df sex_in bw_in <> [] ->
   exists p,
     App.percentil df sex_in bw_in squat_in bench_in dead_in = Some p /\
     p == len (filter (fun r => cell_lt (TotalKg r) (squat_in + bench_in + dead_in))
                      (App.comp_df df sex_in bw_in))
          / len (App.comp_df df sex_in bw_in) * 100)
  /\
  (forall t, t == value -> cell_lt (Some t) value = false).
Proof.
  split; [|split].
  - intros Hne Hall.
    assert (Ev : AppParquet.to_numeric_dropna
                   to_float (map (fun r => AppParquet.float_cell (TotalKg r)) cohort)
                 = dropna (map TotalKg cohort)).
    { rewrite <- (valid_float_cells to_float), map_map. reflexivity. }
    assert (El : List.length (dropna (map TotalKg cohort)) = List.length cohort)
      by (apply dropna_all_present; exact Hall).
    rewrite percentile_formula; rewrite Ev.
    + unfold len. rewrite dropna_count_lt, El. reflexivity.
    + intro E. rewrite E in El. destruct cohort; [congruence | discriminate].
  - intro Hne. unfold App.percentil.
    destruct (App.comp_df df sex_in bw_in) as [|r c] eqn:E; [congruence|].
    eexists. split; [reflexivity|]. unfold App.rank, len. reflexivity.
  - intros t Ht. simpl. apply Qltb_ge. rewrite Ht. apply Qle_refl.
Qed.

Lemma valid_single (to_float : string -> option Q) (c : AppParquet.cell) :
  AppParquet.to_numeric_dropna to_float [c]
  = match Spec.numeric_value to_float c with Some v => [v] | None => [] end.
Proof.
  destruct c as [v|t|]; cbn; [reflexivity| |reflexivity].
  destruct (to_float t); reflexivity.
Qed.

Lemma valid_counts (to_float : string -> option Q)
      (series : list AppParquet.cell) (value : Q) :
  List.length (AppParquet.to_numeric_dropna to_float series)
  = List.length (filter (Spec.is_numeric to_float) series)
  /\ List.length (filter (fun x => Qltb x value)
                         (AppParquet.to_numeric_dropna to_float series))
     = List.length (filter (Spec.is_below to_float value) series).
Proof.
  induction series as [|c series [IH1 IH2]]; [split; reflexivity|].
  change (c :: series) with ([c] ++ series).
  rewrite valid_app, !filter_app, !length_app, IH1, IH2, valid_single.
  cbn [app filter]. unfold Spec.is_numeric, Spec.is_below.
  destruct (Spec.numeric_value to_float c) as [v|]; cbn [filter List.length].
  - destruct (Qltb v value); split; reflexivity.
  - split; reflexivity.
Qed.

(** C10.  [_percentile_less_than] coerces the series and counts over the
    numeric entries only: an entry that is null or spells no number can
    be removed without changing the result, an entry that spells a number
    counts as that number, and the result is the number of numeric
    entries strictly below the value divided by the number of numeric
    entries, times 100. *)
Theorem non_numeric_entries_are_ignored
        (to_float : string -> option Q)
        (before after : list AppParquet.cell) (c : AppParquet.cell) (value : Q) :
  (Spec.numeric_value to_float c = None ->
   AppParquet._percentile_less_than to_float (before ++ c :: after) value
   = AppParquet._percentile_less_than to_float (before ++ after) value)
  /\
  (forall v,
      Spec.numeric_value to_float c = Some v ->
      AppParquet._percentile_less_than to_float (before ++ c :: after) value
      = AppParquet._percentile_less_than
          to_float (before ++ AppParquet.Num v :: after) value)
  /\
  (forall series,
      filter (Spec.is_numeric to_float) series <> [] ->
      AppParquet._percentile_less_than to_float series value
      == len (filter (Spec.is_below to_float value) series)
         / len (filter (Spec.is_numeric to_float) series) * 100).
Proof.
  split; [|split].
  - intro Hc. unfold AppParquet._percentile_less_than.
    change (before ++ c :: after) with (before ++ [c] ++ after).
    rewrite !valid_app, valid_single, Hc. reflexivity.
  - intros v Hc. unfold AppParquet._percentile_less_than.
    change (before ++ c :: after) with (before ++ [c] ++ after).
    change (before ++ AppParquet.Num v :: after)
      with (before ++ [AppParquet.Num v] ++ after).
    rewrite !valid_app, !valid_single, Hc. reflexivity.
  - intros series Hne.
    destruct (valid_counts to_float series value) as [E1 E2].
    assert (Hv : AppParquet.to_numeric_dropna to_float series <> []).
    { intro E. rewrite E in E1. cbn in E1.
      destruct (filter (Spec.is_numeric to_float) series); [congruence|discriminate]. }
    rewrite (percentile_formula to_float series value Hv).
    unfold len. rewrite E1, E2. reflexivity.
Qed.

(** C4 (as the code has it).  On a cohort without any numeric value
    [_percentile_less_than] returns the number 0; the flows around it show
    no percentile for an empty cohort: the simulator of app.py takes its
    warning branch, and the analysis of app_parquet.py stops with a
    warning. *)
Theorem empty_cohort_outcomes
        (na_text : string) (to_float : string -> option Q)
        (series : list AppParquet.cell) (value : Q)
        (df : dataframe) (sex_in : string) (bw_in squat_in bench_in dead_in : Q)
        (u : AppParquet.personal_data) :
  (AppParquet.to_numeric_dropna to_float series = [] ->
   AppParquet._percentile_less_than to_float series value = 0)
  /\
  (App.comp_df df sex_in bw_in = [] ->
   App.percentil df sex_in bw_in squat_in bench_in dead_in = None)
  /\
  (AppParquet.comparison_data na_text df u = [] ->
   exists w, AppParquet.analyze na_text to_float df u = AppParquet.Stopped w).
Proof.
  split; [|split].
  - apply percentile_no_valid.
  - intro E. unfold App.percentil. rewrite E. reflexivity.
  - intro E. unfold AppParquet.analyze. rewrite E.
    destruct (Qle_bool _ 0 || Qle_bool _ 0); eexists; reflexivity.
Qed.

(** ** Quantiles by linear interpolation *)

Lemma insert_sorted_Forall (P : Q -> Prop) (x : Q) (l : list Q) :
  P x -> Forall P l -> Forall P (insert_sorted x l).
Proof.
  intros Hx Hl. induction Hl as [|y r Hy Hr IH]; simpl.
  - constructor; [exact Hx | constructor].
  - destruct (Qle_bool x y); repeat constructor; assumption.
Qed.

Lemma insert_sorted_sorted (x : Q) (l : list Q) :
  StronglySorted Qle l -> StronglySorted Qle (insert_sorted x l).
Proof.
  induction 1 as [|y r Hs IH Hy]; simpl.
  - constructor; constructor.
  - destruct (Qle_bool x y) eqn:E.
    + apply Qle_bool_iff in E. constructor.
      * constructor; assumption.
      * constructor; [exact E|].
        eapply Forall_impl; [|exact Hy]. intros z Hz. eapply Qle_trans; eassumption.
    + constructor; [exact IH|].
      apply insert_sorted_Forall; [|exact Hy].
      apply Qlt_le_weak, Qnot_le_lt. intro L. apply Qle_bool_iff in L. congruence.
Qed.

Lemma sort_values_sorted (l : list Q) : StronglySorted Qle (sort_values l).
Proof.
  induction l as [|x l IH]; simpl; [constructor|].
  apply insert_sorted_sorted. exact IH.
Qed.

Lemma length_insert_sorted (x : Q) (l : list Q) :
  List.length (insert_sorted x l) = S (List.length l).
Proof.
  induction l as [|y r IH]; simpl; [reflexivity|].
  destruct (Qle_bool x y); simpl; [reflexivity|]. now rewrite IH.
Qed.

Lemma length_sort_values (l : list Q) :
  List.length (sort_values l) = List.length l.
Proof.
  induction l as [|x l IH]; simpl; [reflexivity|].
  now rewrite length_insert_sorted, IH.
Qed.

Lemma sorted_nth_le (s : list Q) :
  StronglySorted Qle s ->
  forall i j, (i <= j)%nat -> (j < List.length s)%nat -> nth i s 0 <= nth j s 0.
Proof.
  induction 1 as [|x r Hs IH Hx]; intros i j Hij Hj; simpl in Hj; [lia|].
  destruct i as [|i], j as [|j]; simpl; try lia.
  - apply Qle_refl.
  - rewrite Forall_forall in Hx. apply Hx. apply nth_In. lia.
  - apply IH; lia.
Qed.

Section Interpolation.

Variable s : list Q.
Hypothesis s_sorted : StronglySorted Qle s.

Local Abbreviation last_index := (Z.of_nat (List.length s) - 1)%Z.

Lemma floor_in_range (h : Q) :
  0 <= h -> h <= inject_Z last_index -> (0 <= Qfloor h <= last_index)%Z.
Proof.
  intros H0 H1. split.
  - change 0%Z with (Qfloor 0). apply Qfloor_resp_le. exact H0.
  - rewrite <- (Qfloor_Z last_index). apply Qfloor_resp_le. exact H1.
Qed.

(** The interpolated value lies between its two neighbours. *)
Lemma lerp_at_between (h : Q) :
  0 <= h -> h <= inject_Z last_index ->
  nth (Z.to_nat (Qfloor h)) s 0 <= lerp_at s h /\
  lerp_at s h <= nth (Z.to_nat (Z.min (Qfloor h + 1) last_index)) s 0.
Proof.
  intros H0 H1. pose proof (floor_in_range h H0 H1) as [Hlo Hhi].
  unfold lerp_at.
  set (lo := Qfloor h) in *.
  set (a := nth (Z.to_nat lo) s 0).
  set (b := nth (Z.to_nat (Z.min (lo + 1) last_index)) s 0).
  assert (Hab : a <= b).
  { apply sorted_nth_le; [exact s_sorted | |]; lia. }
  pose proof (Qfloor_le h) as Hf. fold lo in Hf.
  pose proof (Qlt_floor h) as Hc. fold lo in Hc.
  rewrite inject_Z_plus in Hc. change (inject_Z 1) with 1 in Hc.
  set (f := h - inject_Z lo).
  assert (Hf0 : 0 <= f) by (unfold f; lra).
  assert (Hf1 : f <= 1) by (unfold f; lra).
  assert (Hm : 0 <= (b - a) * f) by (apply Qmult_le_0_compat; lra).
  assert (Hm' : 0 <= (b - a) * (1 - f)) by (apply Qmult_le_0_compat; lra).
  split; lra.
Qed.

(** The interpolated value grows with the virtual index. *)
Lemma lerp_at_monotone (h1 h2 : Q) :
  0 <= h1 -> h1 <= h2 -> h2 <= inject_Z last_index ->
  lerp_at s h1 <= lerp_at s h2.
Proof.
  intros H0 H12 H2.
  assert (H1 : h1 <= inject_Z last_index) by lra.
  assert (H0' : 0 <= h2) by lra.
  pose proof (floor_in_range h1 H0 H1) as [Hlo1 Hhi1].
  pose proof (floor_in_range h2 H0' H2) as [Hlo2 Hhi2].
  pose proof (Qfloor_resp_le _ _ H12) as Hfl.
  destruct (Z.eq_dec (Qfloor h1) (Qfloor h2)) as [E|NE].
  - unfold lerp_at. rewrite E.
    set (lo := Qfloor h2) in *.
    set (a := nth (Z.to_nat lo) s 0).
    set (b := nth (Z.to_nat (Z.min (lo + 1) last_index)) s 0).
    assert (Hab : a <= b).
    { apply sorted_nth_le; [exact s_sorted | |]; lia. }
    assert (Hm : 0 <= (b - a) * (h2 - h1)) by (apply Qmult_le_0_compat; lra).
    lra.
  - destruct (lerp_at_between h1 H0 H1) as [_ Hup].
    destruct (lerp_at_between h2 H0' H2) as [Hdown _].
    eapply Qle_trans; [exact Hup|]. eapply Qle_trans; [|exact Hdown].
    apply sorted_nth_le; [exact s_sorted | |]; lia.
Qed.

End Interpolation.

(** [Series.quantile] does not decrease when the level grows from 0 to 1. *)
Lemma quantile_monotone (series : list (option Q)) (q1 q2 : Q) :
  dropna series <> [] -> 0 <= q1 -> q1 <= q2 -> q2 <= 1 ->
  quantile series q1 <= quantile series q2.
Proof.
  intros Hne H0 H12 H1. unfold quantile.
  set (v := sort_values (dropna series)).
  assert (Hlen : (0 < List.length v)%nat).
  { unfold v. rewrite length_sort_values.
    destruct (dropna series); [congruence | simpl; lia]. }
  assert (Hn : len v - 1 == inject_Z (Z.of_nat (List.length v) - 1)).
  { unfold len, Zminus. rewrite inject_Z_plus. reflexivity. }
  assert (Hp : 0 <= len v - 1).
  { rewrite Hn. change 0 with (inject_Z 0). rewrite <- Zle_Qle. lia. }
  apply lerp_at_monotone.
  - apply sort_values_sorted.
  - apply Qmult_le_0_compat; assumption.
  - set (m := len v - 1) in *. nra.
  - rewrite <- Hn. set (m := len v - 1) in *. nra.
Qed.

(** C5.  For a cohort with at least one total, the percentile lies between
    0 and 100 and the four quantile thresholds of the goal list do not
    decrease: 50th <= 75th <= 90th <= 95th. *)
Theorem percentile_result_guarantees
        (to_float : string -> option Q) (cohort : dataframe) (value : Q) :
  dropna (map TotalKg cohort) <> [] ->
  (0 <= AppParquet._percentile_less_than
          to_float (map (fun r => AppParquet.float_cell (TotalKg r)) cohort) value
   <= 100)
  /\ quantile (map TotalKg cohort) (50 # 100) <= quantile (map TotalKg cohort) (75 # 100)
  /\ quantile (map TotalKg cohort) (75 # 100) <= quantile (map TotalKg cohort) (90 # 100)
  /\ quantile (map TotalKg cohort) (90 # 100) <= quantile (map TotalKg cohort) (95 # 100).
Proof.
  intro Hne. split; [apply percentile_bounds|].
  repeat split; apply quantile_monotone; try exact Hne; lra.
Qed.

(** ** The suggested goal and its allocation *)

Lemma objectives_loop_skip (objs later : list (string * Q))
      (sq be dl t : Q) :
  Forall (fun o => snd o <= t) objs ->
  AppParquet.objectives_loop (objs ++ later) sq be dl t
  = AppParquet.objectives_loop later sq be dl t.
Proof.
  induction 1 as [|[name target] objs Ho _ IH]; [reflexivity|].
  simpl in Ho |- *. apply Qltb_ge in Ho. rewrite Ho. exact IH.
Qed.

Lemma objectives_loop_hit (name : string) (target : Q) (later : list (string * Q))
      (sq be dl t : Q) :
  0 < sq + be + dl -> t < target ->
  AppParquet.objectives_loop ((name, target) :: later) sq be dl t
  = Some (AppParquet.mkalloc name target (target - t)
            ((target - t) * (sq / (sq + be + dl)))
            ((target - t) * (be / (sq + be + dl)))
            ((target - t) * (dl / (sq + be + dl)))).
Proof.
  intros Hpos Hlt. simpl.
  apply Qltb_lt in Hlt. apply Qltb_lt in Hpos. rewrite Hlt, Hpos. reflexivity.
Qed.

(** C6.  When the target exceeds a positive current total made of three
    non-negative lifts, the loop writes an allocation toward it whose three
    parts are [improvement_needed * lift / total] and add up to
    [target - total], in exact arithmetic. *)
Theorem allocation_sums_to_improvement
        (name : string) (target : Q) (later : list (string * Q))
        (user_squat user_bench user_deadlift : Q) :
  0 <= user_squat -> 0 <= user_bench -> 0 <= user_deadlift ->
  0 < user_squat + user_bench + user_deadlift ->
  user_squat + user_bench + user_deadlift < target ->
  let user_total := user_squat + user_bench + user_deadlift in
  exists a,
    AppParquet.objectives_loop ((name, target) :: later)
                               user_squat user_bench user_deadlift user_total
    = Some a /\
    AppParquet.improvement_needed a == target - user_total /\
    AppParquet.squat_impr a == (target - user_total) * user_squat / user_total /\
    AppParquet.bench_impr a == (target - user_total) * user_bench / user_total /\
    AppParquet.deadlift_impr a == (target - user_total) * user_deadlift / user_total /\
    AppParquet.squat_impr a + AppParquet.bench_impr a + AppParquet.deadlift_impr a
    == target - user_total.
Proof.
  intros Hs Hb Hd Hpos Hlt user_total.
  eexists. split; [apply objectives_loop_hit; assumption|].
  cbn [AppParquet.improvement_needed AppParquet.squat_impr
       AppParquet.bench_impr AppParquet.deadlift_impr].
  fold user_total.
  assert (Hnz : ~ user_total == 0) by (unfold user_total; lra).
  repeat split; try reflexivity; try (field; exact Hnz).
  unfold user_total in *. field. exact Hnz.
Qed.

(** C7.  The goals are visited in the fixed order category average, 50th,
    75th, 90th, 95th percentile threshold; with a positive sum of lifts the
    block allocates toward the first goal strictly above the user's total,
    and when no goal is above it, it writes the note "already above" and
    no allocation. *)
Theorem goal_selection_first_exceeding
        (cohort : dataframe) (u : AppParquet.personal_data) (user_total : Q) :
  0 < AppParquet.user_squat u + AppParquet.user_bench u + AppParquet.user_deadlift u ->
  map snd (AppParquet.objectives cohort)
  = [mean (dropna (map TotalKg cohort));
     quantile (map TotalKg cohort) (50 # 100);
     quantile (map TotalKg cohort) (75 # 100);
     quantile (map TotalKg cohort) (90 # 100);
     quantile (map TotalKg cohort) (95 # 100)]
  /\
  (forall skipped name target later,
      AppParquet.objectives cohort = skipped ++ (name, target) :: later ->
      Forall (fun o => snd o <= user_total) skipped ->
      user_total < target ->
      exists a,
        AppParquet.suggested_objective cohort u user_total = AppParquet.Suggested a /\
        AppParquet.obj_name a = name /\
        AppParquet.obj_total a = target /\
        AppParquet.improvement_needed a = target - user_total)
  /\
  (Forall (fun o => snd o <= user_total) (AppParquet.objectives cohort) ->
   AppParquet.suggested_objective cohort u user_total = AppParquet.AlreadyAboveTop5).
Proof.
  intro Hpos. split; [reflexivity|]. split.
  - intros skipped name target later E Hskip Hlt.
    unfold AppParquet.suggested_objective. rewrite E.
    rewrite (objectives_loop_skip skipped _ _ _ _ _ Hskip).
    rewrite (objectives_loop_hit name target later _ _ _ _ Hpos Hlt).
    eexists. split; [reflexivity|]. repeat split.
  - intro Hall. unfold AppParquet.suggested_objective.
    rewrite <- (app_nil_r (AppParquet.objectives cohort)).
    rewrite (objectives_loop_skip _ [] _ _ _ _ Hall). reflexivity.
Qed.

(** ** Projection at six months *)

Lemma fold_max_ge (r : list Q) :
  forall acc,
    acc <= fold_left (fun a x => if Qltb a x then x else a) r acc /\
    forall x, In x r -> x <= fold_left (fun a x => if Qltb a x then x else a) r acc.
Proof.
  induction r as [|y r IH]; intro acc; simpl.
  - split; [apply Qle_refl | intros x []].
  - destruct (IH (if Qltb acc y then y else acc)) as [Hacc Hin].
    assert (Hstep : acc <= (if Qltb acc y then y else acc) /\
                    y <= (if Qltb acc y then y else acc)).
    { destruct (Qltb acc y) eqn:E.
      - apply Qltb_lt in E. split; [apply Qlt_le_weak; exact E | apply Qle_refl].
      - apply Qltb_ge in E. split; [apply Qle_refl | exact E]. }
    destruct Hstep as [Ha Hy]. split.
    + eapply Qle_trans; eassumption.
    + intros x [<- | Hx]; [eapply Qle_trans; eassumption | apply Hin; exact Hx].
Qed.

Lemma series_max_ge (l : list Q) (x : Q) : In x l -> x <= series_max l.
Proof.
  destruct l as [|v r]; [intros []|]. simpl.
  destruct (fold_max_ge r v) as [Hv Hr].
  intros [<- | Hx]; [exact Hv | apply Hr; exact Hx].
Qed.

Lemma max2_spec (a b : Q) : a <= max2 a b /\ b <= max2 a b.
Proof.
  unfold max2. destruct (Qltb a b) eqn:E.
  - apply Qltb_lt in E. split; [apply Qlt_le_weak; exact E | apply Qle_refl].
  - apply Qltb_ge in E. split; [apply Qle_refl | exact E].
Qed.

(** The table of projections applies the floor: the projection of a line
    is the larger of the fitted value and the current record, hence at
    least every observed value. *)
Lemma proj_of_floor (lift : string) (me : dataframe) (col : row -> option Q)
      (line : App.proj_row) :
  In line (App.proj_of lift me col) ->
  App.Proyeccion_6m line
  = max2 (App.y_fut (App.date_col_dropna me col))
         (series_max (map snd (App.date_col_dropna me col)))
  /\ App.PR_actual line <= App.Proyeccion_6m line
  /\ forall t v, In (t, v) (App.date_col_dropna me col) -> v <= App.Proyeccion_6m line.
Proof.
  unfold App.proj_of.
  destruct (3 <=? List.length (App.date_col_dropna me col))%nat; [|intros []].
  intros [<- | []]. cbn [App.Proyeccion_6m App.PR_actual].
  split; [reflexivity|]. split; [apply max2_spec|].
  intros t v Hin. eapply Qle_trans; [|apply max2_spec].
  apply series_max_ge. change v with (snd (t, v)). apply in_map. exact Hin.
Qed.

(** The chart applies no floor: whenever it has a projection trace, the
    second point of the trace is the fitted value itself. *)
Lemma plot_with_projection_raw (me : dataframe) (col : row -> option Q) :
  (3 <= List.length (App.date_col_dropna me col))%nat ->
  exists tr,
    App.plot_with_projection me col = Some tr /\
    snd (App.trace_y tr) = App.y_fut (App.date_col_dropna me col).
Proof.
  intro H. unfold App.plot_with_projection.
  apply Nat.leb_le in H. rewrite H. eexists. split; reflexivity.
Qed.

(** C1 (where the code departs from it).  For the three meets of
    [Samples.declining] the chart of [plot_with_projection] shows the
    fitted value 208/3 (about 69.3 kg) as the projected squat, below the
    record of 110 kg, while the table of projections shows 110 kg for the
    same athlete and lift. *)
Theorem plot_with_projection_below_record :
  (exists tr,
      App.plot_with_projection Samples.declining Best3SquatKg = Some tr /\
      snd (App.trace_y tr) == 208 # 3 /\
      snd (App.trace_y tr)
      < series_max (map snd (App.date_col_dropna Samples.declining Best3SquatKg)))
  /\ App.proj_of "Squat" Samples.declining Best3SquatKg
     = [App.mkproj "Squat" 110 110].
Proof.
  split.
  - eexists. split; [reflexivity|]. split; vm_compute; reflexivity.
  - vm_compute. reflexivity.
Qed.

(** C8.  With fewer than three rows that have both a date and a value,
    neither the chart nor the table receives a projection for that lift:
    the chart has no projection trace and the table no line. *)
Theorem short_history_has_no_projection
        (lift : string) (me : dataframe) (col : row -> option Q) :
  (List.length (App.date_col_dropna me col) < 3)%nat ->
  App.plot_with_projection me col = None /\ App.proj_of lift me col = [].
Proof.
  intro H. unfold App.plot_with_projection, App.proj_of.
  assert (E : (3 <=? List.length (App.date_col_dropna me col))%nat = false)
    by (apply Nat.leb_gt; exact H).
  rewrite E. split; reflexivity.
Qed.

(** ** The personal comparison of app_parquet.py *)

(** C9.  The analysis goes on to the percentile only when the comparison
    cohort has more than 10 records: with 10 or fewer it stops with a
    warning, every report comes from a cohort of more than 10, and with
    valid entries and more than 10 records a report with the percentile of
    the user's total is produced. *)
Theorem small_cohort_stops
        (na_text : string) (to_float : string -> option Q)
        (df : dataframe) (u : AppParquet.personal_data) :
  let cohort := AppParquet.comparison_data na_text df u in
  let user_total :=
    AppParquet.user_squat u + AppParquet.user_bench u + AppParquet.user_deadlift u in
  ((List.length cohort <= 10)%nat ->
   exists w, AppParquet.analyze na_text to_float df u = AppParquet.Stopped w)
  /\
  (forall p g,
      AppParquet.analyze na_text to_float df u = AppParquet.Report p g ->
      (10 < List.length cohort)%nat)
  /\
  ((10 < List.length cohort)%nat ->
   0 < AppParquet.user_bodyweight u -> 0 < user_total ->
   exists p g,
     AppParquet.analyze na_text to_float df u = AppParquet.Report p g /\
     AppParquet.cohort_size p = List.length cohort /\
     AppParquet.percentile p
     = AppParquet._percentile_less_than
         to_float (map (fun r => AppParquet.float_cell (TotalKg r)) cohort)
         user_total).
Proof.
  intros cohort user_total. unfold AppParquet.analyze.
  fold cohort. fold user_total.
  split; [|split].
  - intro Hle. apply Nat.leb_le in Hle. rewrite Hle.
    destruct (Qle_bool _ 0 || Qle_bool _ 0); eexists; reflexivity.
  - intros p g. destruct (Qle_bool _ 0 || Qle_bool _ 0); [discriminate|].
    destruct (List.length cohort <=? 10)%nat eqn:E; [discriminate|].
    intros _. apply Nat.leb_gt in E. exact E.
  - intros Hgt Hbw Htot.
    assert (E1 : Qle_bool (AppParquet.user_bodyweight u) 0 = false).
    { destruct (Qle_bool (AppParquet.user_bodyweight u) 0) eqn:E; [|reflexivity].
      apply Qle_bool_iff in E. lra. }
    assert (E2 : Qle_bool user_total 0 = false).
    { destruct (Qle_bool user_total 0) eqn:E; [|reflexivity].
      apply Qle_bool_iff in E. lra. }
    rewrite E1, E2. cbn [orb].
    apply Nat.leb_gt in Hgt. rewrite Hgt.
    eexists. eexists. split; [reflexivity|]. split; reflexivity.
Qed.

(** ** The sidebar filters *)

Lemma cond_filter_In {A : Type} (c : bool) (p : A -> bool) (l : list A) (r : A) :
  In r (if c then filter p l else l) -> In r l /\ (c = true -> p r = true).
Proof.
  destruct c; intro H.
  - apply filter_In in H. destruct H as [Hin Hp]. split; [exact Hin | intros _; exact Hp].
  - split; [exact H | discriminate].
Qed.

Lemma not_todos (s : string) : s <> "Todos"%string -> negb (String.eqb s "Todos") = true.
Proof.
  intro H. apply negb_true_iff. apply String.eqb_neq. exact H.
Qed.

Lemma str_eq_true (c : option string) (v : string) :
  str_eq c v = true -> c = Some v.
Proof.
  destruct c as [s|]; simpl; [|discriminate].
  intro H. apply String.eqb_eq in H. now subst.
Qed.

Lemma year_in_range (c : option Z) (lo hi : Z) :
  zcell_ge c lo && zcell_le c hi = true ->
  exists y, c = Some y /\ (lo <= y <= hi)%Z.
Proof.
  destruct c as [y|]; simpl; [|discriminate].
  rewrite andb_true_iff, !Z.leb_le. intros [H1 H2]. exists y. split; [reflexivity | lia].
Qed.

Lemma total_in_range (c : option Q) (lo hi : Q) :
  cell_ge c lo && cell_le c hi = true ->
  exists t, c = Some t /\ lo <= t <= hi.
Proof.
  destruct c as [t|]; simpl; [|discriminate].
  rewrite andb_true_iff, !Qle_bool_iff. intros [H1 H2].
  exists t. split; [reflexivity | split; assumption].
Qed.

Lemma filter_filter {A : Type} (p q : A -> bool) (l : list A) :
  filter q (filter p l) = filter (fun x => p x && q x) l.
Proof.
  induction l as [|x l IH]; [reflexivity|]. simpl.
  destruct (p x); simpl; [destruct (q x)|]; now rewrite IH.
Qed.

Lemma fold_min_le (r : list Q) :
  forall acc,
    fold_left (fun a x => if Qltb x a then x else a) r acc <= acc /\
    forall x, In x r -> fold_left (fun a x => if Qltb x a then x else a) r acc <= x.
Proof.
  induction r as [|y r IH]; intro acc; simpl.
  - split; [apply Qle_refl | intros x []].
  - destruct (IH (if Qltb y acc then y else acc)) as [Hacc Hin].
    assert (Hstep : (if Qltb y acc then y else acc) <= acc /\
                    (if Qltb y acc then y else acc) <= y).
    { destruct (Qltb y acc) eqn:E.
      - apply Qltb_lt in E. split; [apply Qlt_le_weak; exact E | apply Qle_refl].
      - apply Qltb_ge in E. split; [apply Qle_refl | exact E]. }
    destruct Hstep as [Ha Hy]. split.
    + eapply Qle_trans; eassumption.
    + intros x [<- | Hx]; [eapply Qle_trans; eassumption | apply Hin; exact Hx].
Qed.

Lemma series_min_le (l : list Q) (x : Q) : In x l -> series_min l <= x.
Proof.
  destruct l as [|v r]; [intros []|]. simpl.
  destruct (fold_min_le r v) as [Hv Hr].
  intros [<- | Hx]; [exact Hv | apply Hr; exact Hx].
Qed.

Lemma fold_zmin_le (r : list Z) :
  forall acc, (fold_left Z.min r acc <= acc)%Z /\
              forall x, In x r -> (fold_left Z.min r acc <= x)%Z.
Proof.
  induction r as [|y r IH]; intro acc; simpl.
  - split; [lia | intros x []].
  - destruct (IH (Z.min acc y)) as [Hacc Hin]. split; [lia|].
    intros x [<- | Hx]; [lia | apply Hin; exact Hx].
Qed.

Lemma fold_zmax_ge (r : list Z) :
  forall acc, (acc <= fold_left Z.max r acc)%Z /\
              forall x, In x r -> (x <= fold_left Z.max r acc)%Z.
Proof.
  induction r as [|y r IH]; intro acc; simpl.
  - split; [lia | intros x []].
  - destruct (IH (Z.max acc y)) as [Hacc Hin]. split; [lia|].
    intros x [<- | Hx]; [lia | apply Hin; exact Hx].
Qed.

Lemma zmin_list_le (l : list Z) (m x : Z) :
  zmin_list l = Some m -> In x l -> (m <= x)%Z.
Proof.
  destruct l as [|v r]; [discriminate|]. simpl. intros [= <-].
  destruct (fold_zmin_le r v) as [Hv Hr].
  intros [<- | Hx]; [exact Hv | apply Hr; exact Hx].
Qed.

Lemma zmax_list_ge (l : list Z) (m x : Z) :
  zmax_list l = Some m -> In x l -> (x <= m)%Z.
Proof.
  destruct l as [|v r]; [discriminate|]. simpl. intros [= <-].
  destruct (fold_zmax_ge r v) as [Hv Hr].
  intros [<- | Hx]; [exact Hv | apply Hr; exact Hx].
Qed.

Lemma skipna_min_le (s : list (option Q)) (m x : Q) :
  skipna_min s = Some m -> In (Some x) s -> m <= x.
Proof.
  unfold skipna_min. intros Hm Hin.
  assert (Hx : In x (dropna s)).
  { unfold dropna. apply in_flat_map. exists (Some x). split; [exact Hin | now left]. }
  destruct (dropna s) as [|v r] eqn:E; [discriminate|].
  injection Hm as <-. apply (series_min_le (v :: r)). exact Hx.
Qed.

Lemma skipna_max_ge (s : list (option Q)) (m x : Q) :
  skipna_max s = Some m -> In (Some x) s -> x <= m.
Proof.
  unfold skipna_max. intros Hm Hin.
  assert (Hx : In x (dropna s)).
  { unfold dropna. apply in_flat_map. exists (Some x). split; [exact Hin | now left]. }
  destruct (dropna s) as [|v r] eqn:E; [discriminate|].
  injection Hm as <-. apply (series_max_ge (v :: r)). exact Hx.
Qed.

(** Over the whole range of both sliders, the range tests keep exactly the
    rows that have a year and a total. *)
Lemma full_range_keeps_present (df : dataframe) (y0 y1 : Z) (t0 t1 : Q) (r : row) :
  zmin_list (zdropna (map Year df)) = Some y0 ->
  zmax_list (zdropna (map Year df)) = Some y1 ->
  skipna_min (map TotalKg df) = Some t0 ->
  skipna_max (map TotalKg df) = Some t1 ->
  In r df ->
  (zcell_ge (Year r) y0 && zcell_le (Year r) y1)
  && (cell_ge (TotalKg r) t0 && cell_le (TotalKg r) t1)
  = notna (Year r) && notna (TotalKg r).
Proof.
  intros Hy0 Hy1 Ht0 Ht1 Hin.
  destruct (Year r) as [y|] eqn:Ey; [|reflexivity].
  destruct (TotalKg r) as [t|] eqn:Et; [|simpl; apply andb_false_r].
  assert (Hy : In y (zdropna (map Year df))).
  { unfold zdropna. apply in_flat_map. exists (Some y). split; [|now left].
    rewrite <- Ey. apply in_map. exact Hin. }
  assert (Ht : In (Some t) (map TotalKg df)).
  { rewrite <- Et. apply in_map. exact Hin. }
  simpl. rewrite !andb_true_iff, !Z.leb_le, !Qle_bool_iff.
  repeat split.
  - eapply zmin_list_le; eassumption.
  - eapply zmax_list_ge; eassumption.
  - eapply skipna_min_le; eassumption.
  - eapply skipna_max_ge; eassumption.
Qed.

Lemma tab1_filtered_In (df : dataframe) (w : App.sidebar) (r : row) :
  In r (App.tab1_filtered df w) ->
  In r df
  /\ (App.sex_filter w <> "Todos"%string -> Sex r = Some (App.sex_filter w))
  /\ (App.equip_filter w <> "Todos"%string -> Equipment r = Some (App.equip_filter w))
  /\ (App.country_filter w <> "Todos"%string -> Country r = Some (App.country_filter w))
  /\ (App.age_filter w <> "Todos"%string -> AgeClass r = Some (App.age_filter w))
  /\ (exists y, Year r = Some y /\
                (fst (App.year_range w) <= y <= snd (App.year_range w))%Z)
  /\ (exists t, TotalKg r = Some t /\
                fst (App.total_range w) <= t <= snd (App.total_range w)).
Proof.
  unfold App.tab1_filtered. cbv zeta. intro H.
  apply filter_In in H. destruct H as [H Hrange].
  apply cond_filter_In in H. destruct H as [H Hage].
  apply cond_filter_In in H. destruct H as [H Hcountry].
  apply cond_filter_In in H. destruct H as [H Hequip].
  apply cond_filter_In in H. destruct H as [H Hsex].
  rewrite <- !andb_assoc in Hrange.
  rewrite andb_assoc in Hrange. apply andb_true_iff in Hrange.
  destruct Hrange as [Hy Ht].
  split; [exact H|].
  repeat split.
  - intro N. apply str_eq_true, Hsex, not_todos, N.
  - intro N. apply str_eq_true, Hequip, not_todos, N.
  - intro N. apply str_eq_true, Hcountry, not_todos, N.
  - intro N. apply str_eq_true, Hage, not_todos, N.
  - apply year_in_range. exact Hy.
  - apply total_in_range. exact Ht.
Qed.

Lemma filtered_df_In (na_text : string) (df : dataframe)
      (f : AppParquet.filters) (r : row) :
  In r (AppParquet.filtered_df na_text df f) ->
  In r df
  /\ (AppParquet.sex f <> "Todos"%string ->
      astype_str na_text (Sex r) = AppParquet.sex f)
  /\ (AppParquet.equipment f <> "Todos"%string ->
      astype_str na_text (Equipment r) = AppParquet.equipment f)
  /\ (AppParquet.country f <> "Todos"%string ->
      astype_str na_text (Country r) = AppParquet.country f)
  /\ (AppParquet.age_class f <> "Todos"%string ->
      astype_str na_text (AgeClass r) = AppParquet.age_class f)
  /\ (exists y, Year r = Some y /\
                (fst (AppParquet.year_range f) <= y <= snd (AppParquet.year_range f))%Z)
  /\ (exists t, TotalKg r = Some t /\
                fst (AppParquet.total_range f) <= t <= snd (AppParquet.total_range f)).
Proof.
  unfold AppParquet.filtered_df. cbv zeta. intro H.
  apply filter_In in H. destruct H as [H Ht].
  apply filter_In in H. destruct H as [H Hy].
  apply cond_filter_In in H. destruct H as [H Hage].
  apply cond_filter_In in H. destruct H as [H Hcountry].
  apply cond_filter_In in H. destruct H as [H Hequip].
  apply cond_filter_In in H. destruct H as [H Hsex].
  split; [exact H|].
  repeat split.
  - intro N. apply String.eqb_eq, Hsex, not_todos, N.
  - intro N. apply String.eqb_eq, Hequip, not_todos, N.
  - intro N. apply String.eqb_eq, Hcountry, not_todos, N.
  - intro N. apply String.eqb_eq, Hage, not_todos, N.
  - apply year_in_range. exact Hy.
  - apply total_in_range. exact Ht.
Qed.

(** C3 (as the code has it).  The result of the sidebar filter is a subset
    of the data set and each of its records satisfies every active
    criterion; the two range sliders are always active, so each record has
    a year and a total inside the ranges.  With every select box on
    "Todos" and both sliders over their whole range the filter returns the
    records that have a year and a total, which is the whole data set when
    no year and no total is missing.  In app_parquet.py the select boxes
    compare the text of the cell, so there a record with a missing
    category is excluded whenever the chosen value is not the text of a
    missing value. *)
Theorem filter_keeps_matching_records
        (na_text : string) (df : dataframe)
        (w : App.sidebar) (f : AppParquet.filters) :
  (forall r,
      In r (App.tab1_filtered df w) ->
      In r df
      /\ (App.sex_filter w <> "Todos"%string -> Sex r = Some (App.sex_filter w))
      /\ (App.equip_filter w <> "Todos"%string ->
          Equipment r = Some (App.equip_filter w))
      /\ (App.country_filter w <> "Todos"%string ->
          Country r = Some (App.country_filter w))
      /\ (App.age_filter w <> "Todos"%string -> AgeClass r = Some (App.age_filter w))
      /\ (exists y, Year r = Some y /\
                    (fst (App.year_range w) <= y <= snd (App.year_range w))%Z)
      /\ (exists t, TotalKg r = Some t /\
                    fst (App.total_range w) <= t <= snd (App.total_range w)))
  /\
  (App.sidebar_initial df = Some w ->
   App.tab1_filtered df w = filter (fun r => notna (Year r) && notna (TotalKg r)) df
   /\ (Forall (fun r => Year r <> None /\ TotalKg r <> None) df ->
       App.tab1_filtered df w = df))
  /\
  (forall r,
      In r (AppParquet.filtered_df na_text df f) ->
      In r df
      /\ (AppParquet.sex f <> "Todos"%string -> AppParquet.sex f <> na_text ->
          Sex r = Some (AppParquet.sex f))
      /\ (AppParquet.equipment f <> "Todos"%string ->
          AppParquet.equipment f <> na_text ->
          Equipment r = Some (AppParquet.equipment f))
      /\ (AppParquet.country f <> "Todos"%string ->
          AppParquet.country f <> na_text ->
          Country r = Some (AppParquet.country f))
      /\ (AppParquet.age_class f <> "Todos"%string ->
          AppParquet.age_class f <> na_text ->
          AgeClass r = Some (AppParquet.age_class f))
      /\ (exists y, Year r = Some y /\
                    (fst (AppParquet.year_range f) <= y
                     <= snd (AppParquet.year_range f))%Z)
      /\ (exists t, TotalKg r = Some t /\
                    fst (AppParquet.total_range f) <= t
                    <= snd (AppParquet.total_range f)))
  /\
  (AppParquet.sex f = "Todos"%string -> AppParquet.equipment f = "Todos"%string ->
   AppParquet.country f = "Todos"%string -> AppParquet.age_class f = "Todos"%string ->
   zmin_list (zdropna (map Year df)) = Some (fst (AppParquet.year_range f)) ->
   zmax_list (zdropna (map Year df)) = Some (snd (AppParquet.year_range f)) ->
   skipna_min (map TotalKg df) = Some (fst (AppParquet.total_range f)) ->
   skipna_max (map TotalKg df) = Some (snd (AppParquet.total_range f)) ->
   AppParquet.filtered_df na_text df f
   = filter (fun r => notna (Year r) && notna (TotalKg r)) df).
Proof.
  assert (Hall : forall l : dataframe,
             Forall (fun r => Year r <> None /\ TotalKg r <> None) l ->
             filter (fun r => notna (Year r) && notna (TotalKg r)) l = l).
  { induction 1 as [|r l [Hy Ht] _ IH]; [reflexivity|]. simpl.
    destruct (Year r); [|congruence]. destruct (TotalKg r); [|congruence].
    simpl. now rewrite IH. }
  split; [|split; [|split]].
  - intros r. apply tab1_filtered_In.
  - intro Hw. unfold App.sidebar_initial in Hw.
    destruct (zmin_list (zdropna (map Year df))) as [y0|] eqn:Ey0; [|discriminate].
    destruct (zmax_list (zdropna (map Year df))) as [y1|] eqn:Ey1; [|discriminate].
    destruct (skipna_min (map TotalKg df)) as [t0|] eqn:Et0; [|discriminate].
    destruct (skipna_max (map TotalKg df)) as [t1|] eqn:Et1; [|discriminate].
    injection Hw as <-.
    assert (E : App.tab1_filtered
                  df (App.mksidebar "Todos" "Todos" "Todos" (y0, y1) "Todos" (t0, t1))
                = filter (fun r => notna (Year r) && notna (TotalKg r)) df).
    { unfold App.tab1_filtered. cbn.
      apply filter_ext_in. intros r Hin. rewrite <- !andb_assoc, andb_assoc.
      now apply (full_range_keeps_present df). }
    split; [exact E|]. intro Hp. rewrite E. apply Hall. exact Hp.
  - intros r Hin. apply filtered_df_In in Hin.
    destruct Hin as (H & Hs & He & Hc & Ha & Hy & Ht).
    assert (Hcell : forall (c : option string) (v : string),
               astype_str na_text c = v -> v <> na_text -> c = Some v).
    { intros [s|] v E N; simpl in E; [now subst | congruence]. }
    split; [exact H|]. repeat split; auto.
  - intros Es Ee Ec Ea Hy0 Hy1 Ht0 Ht1. unfold AppParquet.filtered_df.
    rewrite Es, Ee, Ec, Ea. cbn [String.eqb Ascii.eqb Bool.eqb negb].
    cbv zeta. rewrite filter_filter. apply filter_ext_in. intros r Hin.
    now apply (full_range_keeps_present df).
Qed.

(** C3, counterexample.  Five records with a total and one without: with
    nothing selected ("Todos" everywhere, both sliders over their whole
    range) the filter of app.py returns the five, not the six. *)
Lemma unset_filters_drop_missing_total :
  App.sidebar_initial Samples.five_and_a_bombout
  = Some (App.mksidebar "Todos" "Todos" "Todos" (2020, 2021)%Z "Todos" (80, 120))
  /\ App.tab1_filtered
       Samples.five_and_a_bombout
       (App.mksidebar "Todos" "Todos" "Todos" (2020, 2021)%Z "Todos" (80, 120))
     = Samples.five
  /\ App.tab1_filtered
       Samples.five_and_a_bombout
       (App.mksidebar "Todos" "Todos" "Todos" (2020, 2021)%Z "Todos" (80, 120))
     <> Samples.five_and_a_bombout.
Proof.
  split; [vm_compute; reflexivity|]. split; [vm_compute; reflexivity|].
  intro E. apply (f_equal (@List.length row)) in E. vm_compute in E. discriminate.
Qed.

(** C4, counterexample.  On the empty cohort [_percentile_less_than]
    returns a number, the percentile 0. *)
Lemma percentile_of_empty_cohort_is_zero :
  AppParquet._percentile_less_than Samples.parse [] 95 = 0.
Proof. reflexivity. Qed.

(** ** The claims at concrete inputs *)

(** Scenario 1 of the specification: totals 80, 90, 100, 110, 120 and a
    user total of 95 give the percentile 40, in both dashboards. *)
Lemma percentile_is_share_strictly_below_witness :
  Samples.five <> []
  /\ Forall (fun r => TotalKg r <> None) Samples.five
  /\ AppParquet._percentile_less_than
       Samples.parse
       (map (fun r => AppParquet.float_cell (TotalKg r)) Samples.five) 95 == 40
  /\ exists p, App.percentil Samples.five "F" 63 30 30 35 = Some p /\ p == 40.
Proof.
  assert (Hne : Samples.five <> []) by discriminate.
  assert (Hall : Forall (fun r => TotalKg r <> None) Samples.five)
    by (repeat constructor; discriminate).
  destruct (percentile_is_share_strictly_below
              Samples.parse Samples.five 95 Samples.five "F" 63 30 30 35)
    as (H1 & H2 & _).
  split; [exact Hne|]. split; [exact Hall|]. split.
  - eapply Qeq_trans; [apply H1; assumption|]. vm_compute. reflexivity.
  - destruct H2 as (p & Ep & Hp); [discriminate|].
    exists p. split; [exact Ep|].
    eapply Qeq_trans; [exact Hp|]. vm_compute. reflexivity.
Defined.

Lemma non_numeric_entries_are_ignored_witness :
  Spec.numeric_value Samples.parse (AppParquet.Text "n/a") = None
  /\ AppParquet._percentile_less_than
       Samples.parse
       ([AppParquet.Num 80; AppParquet.Text "90.5"]
          ++ AppParquet.Text "n/a"
          :: [AppParquet.Text "100"; AppParquet.Missing; AppParquet.Num 110]) 105
     = AppParquet._percentile_less_than
         Samples.parse
         ([AppParquet.Num 80; AppParquet.Text "90.5"]
            ++ [AppParquet.Text "100"; AppParquet.Missing; AppParquet.Num 110]) 105
  /\ Spec.numeric_value Samples.parse (AppParquet.Text "100") = Some 100
  /\ AppParquet._percentile_less_than
       Samples.parse
       ([AppParquet.Num 80; AppParquet.Text "90.5"]
          ++ AppParquet.Text "100" :: [AppParquet.Missing; AppParquet.Num 110]) 105
     = AppParquet._percentile_less_than
         Samples.parse
         ([AppParquet.Num 80; AppParquet.Text "90.5"]
            ++ AppParquet.Num 100 :: [AppParquet.Missing; AppParquet.Num 110]) 105
  /\ AppParquet._percentile_less_than
       Samples.parse
       [AppParquet.Num 80; AppParquet.Text "90.5"; AppParquet.Text "n/a";
        AppParquet.Text "100"; AppParquet.Missing; AppParquet.Num 110] 105
     == 75.
Proof.
  destruct (non_numeric_entries_are_ignored
              Samples.parse [AppParquet.Num 80; AppParquet.Text "90.5"]
              [AppParquet.Text "100"; AppParquet.Missing; AppParquet.Num 110]
              (AppParquet.Text "n/a") 105) as (H1 & _ & H3).
  destruct (non_numeric_entries_are_ignored
              Samples.parse [AppParquet.Num 80; AppParquet.Text "90.5"]
              [AppParquet.Missing; AppParquet.Num 110]
              (AppParquet.Text "100") 105) as (_ & H2 & _).
  split; [reflexivity|]. split; [apply H1; reflexivity|].
  split; [reflexivity|]. split; [apply H2; reflexivity|].
  eapply Qeq_trans; [apply H3; discriminate|]. vm_compute. reflexivity.
Defined.

Lemma empty_cohort_outcomes_witness :
  AppParquet.to_numeric_dropna
    Samples.parse [AppParquet.Missing; AppParquet.Text "n/a"] = []
  /\ AppParquet._percentile_less_than
       Samples.parse [AppParquet.Missing; AppParquet.Text "n/a"] 95 = 0
  /\ App.comp_df Samples.five "M" 63 = []
  /\ App.percentil Samples.five "M" 63 30 30 35 = None
  /\ AppParquet.comparison_data "nan" [] Samples.lifter = []
  /\ exists w, AppParquet.analyze "nan" Samples.parse [] Samples.lifter
               = AppParquet.Stopped w.
Proof.
  destruct (empty_cohort_outcomes
              "nan" Samples.parse [AppParquet.Missing; AppParquet.Text "n/a"] 95
              Samples.five "M" 63 30 30 35 Samples.lifter) as (H1 & H2 & _).
  destruct (empty_cohort_outcomes
              "nan" Samples.parse [] 95 [] "M" 63 30 30 35 Samples.lifter)
    as (_ & _ & H3).
  split; [reflexivity|]. split; [apply H1; reflexivity|].
  split; [reflexivity|]. split; [apply H2; reflexivity|].
  split; [reflexivity|]. apply H3. reflexivity.
Defined.

(** Scenario 1 again: the percentile is within bounds and the thresholds
    100, 110, 116, 118 increase. *)
Lemma percentile_result_guarantees_witness :
  dropna (map TotalKg Samples.five) <> []
  /\ quantile (map TotalKg Samples.five) (50 # 100) == 100
  /\ quantile (map TotalKg Samples.five) (50 # 100)
     <= quantile (map TotalKg Samples.five) (75 # 100)
  /\ quantile (map TotalKg Samples.five) (90 # 100)
     <= quantile (map TotalKg Samples.five) (95 # 100).
Proof.
  assert (Hne : dropna (map TotalKg Samples.five) <> []) by discriminate.
  destruct (percentile_result_guarantees Samples.parse Samples.five 95 Hne)
    as (_ & H1 & _ & H3).
  split; [exact Hne|]. split; [vm_compute; reflexivity|].
  split; [exact H1 | exact H3].
Defined.

(** Scenario 4 of the specification: 150 + 100 + 150 = 400 and a target of
    440 give the parts 15, 10, 15, which add up to 40. *)
Lemma allocation_sums_to_improvement_witness :
  0 < 150 + 100 + 150 /\ 150 + 100 + 150 < 440
  /\ exists a,
      AppParquet.objectives_loop [("Top 50%"%string, 440)] 150 100 150
                                 (150 + 100 + 150) = Some a
      /\ AppParquet.squat_impr a == 15
      /\ AppParquet.bench_impr a == 10
      /\ AppParquet.deadlift_impr a == 15
      /\ AppParquet.squat_impr a + AppParquet.bench_impr a
         + AppParquet.deadlift_impr a == 440 - (150 + 100 + 150).
Proof.
  assert (Hpos : 0 < 150 + 100 + 150) by reflexivity.
  assert (Hlt : 150 + 100 + 150 < 440) by reflexivity.
  split; [exact Hpos|]. split; [exact Hlt|].
  destruct (allocation_sums_to_improvement "Top 50%" 440 [] 150 100 150)
    as (a & Ea & _ & Hs & Hb & Hd & Hsum);
    try exact Hpos; try exact Hlt; try discriminate.
  exists a. split; [exact Ea|].
  split; [eapply Qeq_trans; [exact Hs | reflexivity]|].
  split; [eapply Qeq_trans; [exact Hb | reflexivity]|].
  split; [eapply Qeq_trans; [exact Hd | reflexivity]|].
  exact Hsum.
Defined.

(** Twelve totals 300, ..., 410 and a user total of 400: the average 355
    and the thresholds 355, 382.5, 399 are passed over, and the allocation
    goes toward the 95th percentile threshold, 404.5. *)
Lemma goal_selection_first_exceeding_witness :
  0 < AppParquet.user_squat Samples.lifter + AppParquet.user_bench Samples.lifter
      + AppParquet.user_deadlift Samples.lifter
  /\ exists a,
      AppParquet.suggested_objective Samples.twelve Samples.lifter 400
      = AppParquet.Suggested a
      /\ AppParquet.obj_name a = "Top 5%"%string
      /\ AppParquet.obj_total a == 809 # 2
      /\ AppParquet.suggested_objective Samples.twelve Samples.lifter 500
         = AppParquet.AlreadyAboveTop5.
Proof.
  assert (Hpos : 0 < AppParquet.user_squat Samples.lifter
                     + AppParquet.user_bench Samples.lifter
                     + AppParquet.user_deadlift Samples.lifter) by reflexivity.
  split; [exact Hpos|].
  destruct (goal_selection_first_exceeding Samples.twelve Samples.lifter 500 Hpos)
    as (_ & _ & Habove).
  destruct (goal_selection_first_exceeding Samples.twelve Samples.lifter 400 Hpos)
    as (_ & Hfirst & _).
  destruct (Hfirst (firstn 4 (AppParquet.objectives Samples.twelve))
                   "Top 5%"%string
                   (quantile (map TotalKg Samples.twelve) (95 # 100)) [])
    as (a & Ea & En & Et & _).
  - reflexivity.
  - repeat constructor; vm_compute; discriminate.
  - vm_compute. reflexivity.
  - exists a. split; [exact Ea|]. split; [exact En|].
    split; [rewrite Et; vm_compute; reflexivity|].
    apply Habove. repeat constructor; vm_compute; discriminate.
Defined.

(** Scenario 3 of the specification: two squats on record, no projection. *)
Lemma short_history_has_no_projection_witness :
  (List.length (App.date_col_dropna Samples.two_squats Best3SquatKg) < 3)%nat
  /\ App.plot_with_projection Samples.two_squats Best3SquatKg = None
  /\ App.proj_of "Squat" Samples.two_squats Best3SquatKg = [].
Proof.
  assert (H : (List.length (App.date_col_dropna Samples.two_squats Best3SquatKg)
               < 3)%nat) by (vm_compute; apply le_n).
  split; [exact H|].
  exact (short_history_has_no_projection "Squat" Samples.two_squats Best3SquatKg H).
Defined.

(** A cohort of five stops the analysis; a cohort of twelve is ranked. *)
Lemma small_cohort_stops_witness :
  (List.length (AppParquet.comparison_data "nan" Samples.five Samples.lifter)
   <= 10)%nat
  /\ (exists w, AppParquet.analyze "nan" Samples.parse Samples.five Samples.lifter
                = AppParquet.Stopped w)
  /\ (10 < List.length (AppParquet.comparison_data "nan" Samples.twelve Samples.lifter))%nat
  /\ exists p g,
      AppParquet.analyze "nan" Samples.parse Samples.twelve Samples.lifter
      = AppParquet.Report p g
      /\ AppParquet.cohort_size p = 12%nat.
Proof.
  destruct (small_cohort_stops "nan" Samples.parse Samples.five Samples.lifter)
    as (Hstop & _ & _).
  destruct (small_cohort_stops "nan" Samples.parse Samples.twelve Samples.lifter)
    as (_ & _ & Hgo).
  assert (H5 : (List.length
                  (AppParquet.comparison_data "nan" Samples.five Samples.lifter)
                <= 10)%nat) by (vm_compute; repeat constructor).
  assert (H12 : (10 < List.length
                        (AppParquet.comparison_data "nan" Samples.twelve
                                                    Samples.lifter))%nat)
    by (vm_compute; repeat constructor).
  split; [exact H5|]. split; [exact (Hstop H5)|]. split; [exact H12|].
  destruct (Hgo H12) as (p & g & E & Hsize & _); [reflexivity | reflexivity |].
  exists p, g. split; [exact E|]. rewrite Hsize. reflexivity.
Defined.

(** The six records of the counterexample, and the five complete ones. *)
Lemma filter_keeps_matching_records_witness :
  App.sidebar_initial Samples.five_and_a_bombout
  = Some (App.mksidebar "Todos" "Todos" "Todos" (2020, 2021)%Z "Todos" (80, 120))
  /\ App.tab1_filtered
       Samples.five_and_a_bombout
       (App.mksidebar "Todos" "Todos" "Todos" (2020, 2021)%Z "Todos" (80, 120))
     = filter (fun r => notna (Year r) && notna (TotalKg r))
              Samples.five_and_a_bombout
  /\ AppParquet.filtered_df
       "nan" Samples.five_and_a_bombout
       (AppParquet.mkfilters "Todos" "Todos" "Todos" (2020, 2021)%Z "Todos" (80, 120))
     = filter (fun r => notna (Year r) && notna (TotalKg r))
              Samples.five_and_a_bombout
  /\ App.sidebar_initial Samples.five
     = Some (App.mksidebar "Todos" "Todos" "Todos" (2020, 2020)%Z "Todos" (80, 120))
  /\ App.tab1_filtered
       Samples.five
       (App.mksidebar "Todos" "Todos" "Todos" (2020, 2020)%Z "Todos" (80, 120))
     = Samples.five
  /\ forall r,
      In r (App.tab1_filtered
              Samples.five_and_a_bombout
              (App.mksidebar "F" "Todos" "Todos" (2020, 2021)%Z "Todos" (85, 105))) ->
      Sex r = Some "F"%string /\ exists t, TotalKg r = Some t /\ 85 <= t <= 105.
Proof.
  assert (E6 : App.sidebar_initial Samples.five_and_a_bombout
               = Some (App.mksidebar "Todos" "Todos" "Todos" (2020, 2021)%Z
                                     "Todos" (80, 120)))
    by (vm_compute; reflexivity).
  assert (E5 : App.sidebar_initial Samples.five
               = Some (App.mksidebar "Todos" "Todos" "Todos" (2020, 2020)%Z
                                     "Todos" (80, 120)))
    by (vm_compute; reflexivity).
  destruct (filter_keeps_matching_records
              "nan" Samples.five_and_a_bombout
              (App.mksidebar "Todos" "Todos" "Todos" (2020, 2021)%Z "Todos" (80, 120))
              (AppParquet.mkfilters "Todos" "Todos" "Todos" (2020, 2021)%Z
                                    "Todos" (80, 120)))
    as (_ & H6 & _ & P6).
  destruct (filter_keeps_matching_records
              "nan" Samples.five
              (App.mksidebar "Todos" "Todos" "Todos" (2020, 2020)%Z "Todos" (80, 120))
              (AppParquet.mkfilters "Todos" "Todos" "Todos" (2020, 2020)%Z
                                    "Todos" (80, 120)))
    as (_ & H5 & _).
  destruct (filter_keeps_matching_records
              "nan" Samples.five_and_a_bombout
              (App.mksidebar "F" "Todos" "Todos" (2020, 2021)%Z "Todos" (85, 105))
              (AppParquet.mkfilters "F" "Todos" "Todos" (2020, 2021)%Z
                                    "Todos" (85, 105)))
    as (HF & _).
  split; [exact E6|]. split; [exact (proj1 (H6 E6))|].
  split; [apply P6; vm_compute; reflexivity|].
  split; [exact E5|].
  split; [apply (proj2 (H5 E5)); repeat constructor; discriminate|].
  intros r Hin. destruct (HF r Hin) as (_ & Hsex & _ & _ & _ & _ & Ht).
  split; [apply Hsex; discriminate | exact Ht].
Defined.

(** In app_parquet.py a missing category is compared through its text:
    selecting a value spelled like that text keeps the record. *)
Lemma missing_category_matches_its_text :
  AppParquet.filtered_df
    "nan" [Samples.entry None (Some 2020%Z) (Some 63) (Some 100)]
    (AppParquet.mkfilters "nan" "Todos" "Todos" (2020, 2020)%Z "Todos" (80, 120))
  = [Samples.entry None (Some 2020%Z) (Some 63) (Some 100)].
Proof. vm_compute. reflexivity. Qed.

(** Three rising squats 30 days apart: the fitted slope is 1/6 kg per day,
    the value at 2020-09-01 is 110 + 184/6 = 422/3, above the record of
    110, and the table shows it. *)
Lemma rising_projection :
  fst (polyfit1 (map (fun p => toordinal (fst p))
                     (App.date_col_dropna Samples.rising Best3SquatKg))
                (map snd (App.date_col_dropna Samples.rising Best3SquatKg)))
  == 1 # 6
  /\ App.y_fut (App.date_col_dropna Samples.rising Best3SquatKg) == 422 # 3
  /\ exists line,
      App.proj_of "Squat" Samples.rising Best3SquatKg = [line]
      /\ App.PR_actual line == 110
      /\ App.Proyeccion_6m line == 422 # 3.
Proof.
  split; [vm_compute; reflexivity|]. split; [vm_compute; reflexivity|].
  eexists. split; [reflexivity|]. split; vm_compute; reflexivity.
Qed.

(** * Further properties of the dashboards *)

(** ** The percentile as a function of the user's value *)

Lemma filter_len_mono {A : Type} (p q : A -> bool) (l : list A) :
  (forall x, p x = true -> q x = true) ->
  len (filter p l) <= len (filter q l).
Proof.
  intro Hpq. unfold len. rewrite <- Zle_Qle. apply inj_le.
  induction l as [|x l IH]; simpl; [lia|].
  destruct (p x) eqn:Ep.
  - rewrite (Hpq x Ep). simpl. lia.
  - destruct (q x); simpl; lia.
Qed.

Lemma filter_none_iff {A : Type} (p : A -> bool) (l : list A) :
  List.length (filter p l) = 0%nat <-> Forall (fun x => p x = false) l.
Proof.
  induction l as [|x l IH]; simpl.
  - split; [constructor | reflexivity].
  - destruct (p x) eqn:E; simpl.
    + split; [discriminate|]. intro H. inversion H; congruence.
    + rewrite IH. split; [intro H; constructor; assumption|].
      intro H. inversion H; assumption.
Qed.

Lemma filter_length_le {A : Type} (p : A -> bool) (l : list A) :
  (List.length (filter p l) <= List.length l)%nat.
Proof.
  induction l as [|x l IH]; simpl; [lia|]. destruct (p x); simpl; lia.
Qed.

Lemma filter_all_iff {A : Type} (p : A -> bool) (l : list A) :
  List.length (filter p l) = List.length l <-> Forall (fun x => p x = true) l.
Proof.
  induction l as [|x l IH]; simpl.
  - split; [constructor | reflexivity].
  - pose proof (filter_length_le p l) as Hle.
    destruct (p x) eqn:E; simpl.
    + split.
      * intro H. constructor; [exact E|]. apply IH. lia.
      * intro H. inversion H; subst. f_equal. apply IH. assumption.
    + split; [lia|]. intro H. inversion H; congruence.
Qed.

(** X1.  A larger user value never gives a smaller percentile, in
    [_percentile_less_than] and in the simulator of app.py. *)
Theorem percentile_grows_with_value
        (to_float : string -> option Q) (series : list AppParquet.cell)
        (v1 v2 : Q) (df : dataframe) (sex_in : string)
        (bw_in s1 b1 d1 s2 b2 d2 : Q) :
  (v1 <= v2 ->
   AppParquet._percentile_less_than to_float series v1
   <= AppParquet._percentile_less_than to_float series v2)
  /\
  (s1 + b1 + d1 <= s2 + b2 + d2 ->
   App.comp_df df sex_in bw_in <> [] ->
   exists p1 p2,
     App.percentil df sex_in bw_in s1 b1 d1 = Some p1 /\
     App.percentil df sex_in bw_in s2 b2 d2 = Some p2 /\
     p1 <= p2).
Proof.
  split.
  - intro Hv.
    destruct (AppParquet.to_numeric_dropna to_float series) as [|x s] eqn:E.
    + rewrite !(percentile_no_valid _ _ _ E). apply Qle_refl.
    + assert (Hne : AppParquet.to_numeric_dropna to_float series <> [])
        by (rewrite E; discriminate).
      rewrite !(percentile_formula _ _ _ Hne).
      pose proof (len_pos _ Hne) as Hp.
      assert (Hc : len (filter (fun x => Qltb x v1)
                               (AppParquet.to_numeric_dropna to_float series))
                   <= len (filter (fun x => Qltb x v2)
                                  (AppParquet.to_numeric_dropna to_float series))).
      { apply filter_len_mono. intros y Hy. apply Qltb_lt in Hy. apply Qltb_lt.
        eapply Qlt_le_trans; eassumption. }
      apply Qmult_le_compat_r; [|lra].
      apply Qmult_le_compat_r; [exact Hc|].
      apply Qlt_le_weak, Qinv_lt_0_compat. exact Hp.
  - intros Ht Hne. unfold App.percentil.
    destruct (App.comp_df df sex_in bw_in) as [|r c] eqn:E; [congruence|].
    eexists. eexists. split; [reflexivity|]. split; [reflexivity|].
    assert (Hp : 0 < len (r :: c)) by (apply len_pos; discriminate).
    unfold App.rank. fold (@len row (filter (fun r0 => cell_lt (TotalKg r0) (s1 + b1 + d1)) (r :: c))).
    fold (@len row (filter (fun r0 => cell_lt (TotalKg r0) (s2 + b2 + d2)) (r :: c))).
    apply Qmult_le_compat_r; [|lra].
    apply Qmult_le_compat_r.
    + apply filter_len_mono. intros y Hy.
      apply cell_lt_spec in Hy. destruct Hy as (t & Et & Hlt).
      apply cell_lt_spec. exists t. split; [exact Et|].
      eapply Qlt_le_trans; eassumption.
    + apply Qlt_le_weak, Qinv_lt_0_compat. exact Hp.
Qed.

Lemma Forall_impl_iff_ge (s : list Q) (v : Q) :
  Forall (fun x => Qltb x v = false) s <-> Forall (fun x => v <= x) s.
Proof.
  split; intro H; (eapply Forall_impl; [|exact H]); intros x Hx;
    apply Qltb_ge; exact Hx.
Qed.

Lemma Forall_impl_iff_lt (s : list Q) (v : Q) :
  Forall (fun x => Qltb x v = true) s <-> Forall (fun x => x < v) s.
Proof.
  split; intro H; (eapply Forall_impl; [|exact H]); intros x Hx;
    apply Qltb_lt; exact Hx.
Qed.

Lemma len_inj {A B : Type} (l1 : list A) (l2 : list B) :
  len l1 == len l2 -> List.length l1 = List.length l2.
Proof.
  unfold len. intro H. apply Nat2Z.inj.
  exact (proj1 (inject_Z_injective _ _) H).
Qed.

(** X2.  On a series with at least one number, the percentile is 0
    exactly when no number is strictly below the value, and 100 exactly
    when every number is strictly below it. *)
Theorem percentile_extremes
        (to_float : string -> option Q) (series : list AppParquet.cell) (value : Q) :
  AppParquet.to_numeric_dropna to_float series <> [] ->
  (AppParquet._percentile_less_than to_float series value == 0 <->
   Forall (fun x => value <= x) (AppParquet.to_numeric_dropna to_float series))
  /\
  (AppParquet._percentile_less_than to_float series value == 100 <->
   Forall (fun x => x < value) (AppParquet.to_numeric_dropna to_float series)).
Proof.
  intro Hne. rewrite (percentile_formula _ _ _ Hne).
  set (s := AppParquet.to_numeric_dropna to_float series) in *.
  pose proof (len_pos _ Hne) as Hp.
  assert (Hnz : ~ len s == 0) by lra.
  assert (Hback : forall c : Q, c == (c / len s * 100) * (len s / 100))
    by (intro c; field; exact Hnz).
  split.
  - rewrite <- (Forall_impl_iff_ge s value). split.
    + intro H. apply filter_none_iff.
      assert (Hc : len (filter (fun x => Qltb x value) s) == 0).
      { rewrite (Hback (len (filter (fun x => Qltb x value) s))), H. ring. }
      exact (len_inj _ (@nil Q) Hc).
    + intro H. apply filter_none_iff in H. unfold len at 1. rewrite H.
      simpl. field. exact Hnz.
  - rewrite <- (Forall_impl_iff_lt s value). split.
    + intro H. apply filter_all_iff.
      assert (Hc : len (filter (fun x => Qltb x value) s) == len s).
      { rewrite (Hback (len (filter (fun x => Qltb x value) s))), H.
        field. }
      exact (len_inj _ _ Hc).
    + intro H. apply filter_all_iff in H. unfold len at 1. rewrite H.
      fold (len s). field. exact Hnz.
Qed.

(** ** Quantiles and goals inside the range of the cohort *)

Lemma insert_sorted_In (x y : Q) (l : list Q) :
  In y (insert_sorted x l) <-> y = x \/ In y l.
Proof.
  induction l as [|z r IH]; simpl.
  - split; [intros [H|[]]; left; congruence | intros [H|[]]; left; congruence].
  - destruct (Qle_bool x z); simpl.
    + split; [intros [H|H]; [left; congruence | right; exact H]
             | intros [H|H]; [left; congruence | right; exact H]].
    + rewrite IH. tauto.
Qed.

Lemma sort_values_In (y : Q) (l : list Q) : In y (sort_values l) <-> In y l.
Proof.
  induction l as [|x l IH]; simpl; [tauto|].
  rewrite insert_sorted_In, IH. split; intros [H|H]; auto.
Qed.

Lemma fold_min_In (r : list Q) :
  forall acc, In (fold_left (fun a x => if Qltb x a then x else a) r acc) (acc :: r).
Proof.
  induction r as [|y r IH]; intro acc; simpl; [left; reflexivity|].
  destruct (IH (if Qltb y acc then y else acc)) as [H|H].
  - destruct (Qltb y acc); [right; left | left]; exact H.
  - right; right; exact H.
Qed.

Lemma fold_max_In (r : list Q) :
  forall acc, In (fold_left (fun a x => if Qltb a x then x else a) r acc) (acc :: r).
Proof.
  induction r as [|y r IH]; intro acc; simpl; [left; reflexivity|].
  destruct (IH (if Qltb acc y then y else acc)) as [H|H].
  - destruct (Qltb acc y); [right; left | left]; exact H.
  - right; right; exact H.
Qed.

Lemma series_min_In (l : list Q) : l <> [] -> In (series_min l) l.
Proof. destruct l as [|v r]; [congruence|]. intros _. apply fold_min_In. Qed.

Lemma series_max_In (l : list Q) : l <> [] -> In (series_max l) l.
Proof. destruct l as [|v r]; [congruence|]. intros _. apply fold_max_In. Qed.

Lemma sum_bounds (l : list Q) (a b : Q) :
  (forall x, In x l -> a <= x <= b) ->
  a * len l <= sum l <= b * len l.
Proof.
  induction l as [|x l IH]; intro H.
  - unfold len. cbn [List.length Z.of_nat sum fold_right].
    change (inject_Z 0) with 0. lra.
  - rewrite len_cons. cbn [sum fold_right]. fold (sum l).
    destruct (H x (or_introl eq_refl)) as [Ha Hb].
    destruct IH as [IHa IHb]; [intros y Hy; apply H; right; exact Hy|].
    split; lra.
Qed.

Lemma mean_bounds (l : list Q) (a b : Q) :
  l <> [] -> (forall x, In x l -> a <= x <= b) -> a <= mean l <= b.
Proof.
  intros Hne H. pose proof (len_pos l Hne) as Hp.
  destruct (sum_bounds l a b H) as [Ha Hb]. unfold mean. split.
  - apply Qle_shift_div_l; assumption.
  - apply Qle_shift_div_r; assumption.
Qed.

Lemma quantile_bounds (series : list (option Q)) (q a b : Q) :
  dropna series <> [] -> 0 <= q -> q <= 1 ->
  (forall x, In x (dropna series) -> a <= x <= b) ->
  a <= quantile series q <= b.
Proof.
  intros Hne H0 H1 Hab. unfold quantile.
  set (v := sort_values (dropna series)).
  assert (Hlen : (0 < List.length v)%nat).
  { unfold v. rewrite length_sort_values.
    destruct (dropna series); [congruence | simpl; lia]. }
  assert (Hn : len v - 1 == inject_Z (Z.of_nat (List.length v) - 1)).
  { unfold len, Zminus. rewrite inject_Z_plus. reflexivity. }
  assert (Hp : 0 <= len v - 1).
  { rewrite Hn. change 0 with (inject_Z 0). rewrite <- Zle_Qle. lia. }
  set (h := (len v - 1) * q).
  assert (Hh0 : 0 <= h) by (unfold h; apply Qmult_le_0_compat; assumption).
  assert (Hh1 : h <= inject_Z (Z.of_nat (List.length v) - 1)).
  { rewrite <- Hn. unfold h. set (m := len v - 1) in *. nra. }
  destruct (lerp_at_between v (sort_values_sorted _) h Hh0 Hh1) as [Hlo Hhi].
  destruct (floor_in_range v h Hh0 Hh1) as [Hf0 Hf1].
  assert (Hin : forall i, (i < List.length v)%nat -> a <= nth i v 0 <= b).
  { intros i Hi. apply Hab. apply (sort_values_In _ (dropna series)).
    apply nth_In. exact Hi. }
  split.
  - eapply Qle_trans; [|exact Hlo]. apply Hin. lia.
  - eapply Qle_trans; [exact Hhi|]. apply Hin. lia.
Qed.

Lemma lerp_at_first (v : list Q) (h : Q) :
  h == 0 -> lerp_at v h == nth 0 v 0.
Proof.
  intro Hh. unfold lerp_at. rewrite (Qfloor_comp _ _ Hh).
  change (Qfloor 0) with 0%Z. cbn [Z.to_nat]. rewrite Hh.
  change (inject_Z 0) with 0. ring.
Qed.

Lemma lerp_at_last (v : list Q) (h : Q) :
  h == inject_Z (Z.of_nat (List.length v) - 1) ->
  lerp_at v h == nth (Z.to_nat (Z.of_nat (List.length v) - 1)) v 0.
Proof.
  intro Hh. unfold lerp_at. rewrite (Qfloor_comp _ _ Hh), Qfloor_Z.
  replace (Z.min (Z.of_nat (List.length v) - 1 + 1) (Z.of_nat (List.length v) - 1))
    with (Z.of_nat (List.length v) - 1)%Z by lia.
  ring.
Qed.

Lemma sorted_ends (l : list Q) :
  l <> [] ->
  nth 0 (sort_values l) 0 == series_min l
  /\ nth (Z.to_nat (Z.of_nat (List.length (sort_values l)) - 1)) (sort_values l) 0
     == series_max l.
Proof.
  intro Hne.
  assert (Hlen : (0 < List.length (sort_values l))%nat).
  { rewrite length_sort_values. destruct l; [congruence | simpl; lia]. }
  pose proof (sort_values_sorted l) as Hs.
  split; apply Qle_antisym.
  - destruct (In_nth (sort_values l) (series_min l) 0) as (j & Hj & Ej).
    { apply sort_values_In. apply series_min_In. exact Hne. }
    rewrite <- Ej. apply sorted_nth_le; [exact Hs | lia | exact Hj].
  - apply series_min_le. apply (sort_values_In _ l). apply nth_In. exact Hlen.
  - apply series_max_ge. apply (sort_values_In _ l). apply nth_In. lia.
  - destruct (In_nth (sort_values l) (series_max l) 0) as (j & Hj & Ej).
    { apply sort_values_In. apply series_max_In. exact Hne. }
    rewrite <- Ej. apply sorted_nth_le; [exact Hs | lia | lia].
Qed.

(** X3.  On a series with at least one value, every quantile of a level
    between 0 and 1 lies between the smallest and the largest value; the
    level 0 gives the smallest value and the level 1 the largest. *)
Theorem quantile_within_data (series : list (option Q)) (q : Q) :
  dropna series <> [] -> 0 <= q -> q <= 1 ->
  series_min (dropna series) <= quantile series q <= series_max (dropna series)
  /\ quantile series 0 == series_min (dropna series)
  /\ quantile series 1 == series_max (dropna series).
Proof.
  intros Hne H0 H1.
  assert (Hrange : forall x, In x (dropna series) ->
                             series_min (dropna series) <= x
                             <= series_max (dropna series)).
  { intros x Hx. split; [apply series_min_le | apply series_max_ge]; exact Hx. }
  destruct (sorted_ends (dropna series) Hne) as [Hfirst Hlast].
  split; [apply quantile_bounds; assumption|].
  unfold quantile. split.
  - rewrite lerp_at_first; [exact Hfirst | ring].
  - rewrite lerp_at_last; [exact Hlast|].
    assert (Hn : len (sort_values (dropna series)) - 1
                 == inject_Z (Z.of_nat (List.length (sort_values (dropna series))) - 1)).
    { unfold len, Zminus. rewrite inject_Z_plus. reflexivity. }
    rewrite <- Hn. ring.
Qed.

(** X4.  Every goal of the list (the category average and the four
    thresholds) lies between the smallest and the largest total of the
    cohort. *)
Theorem goals_within_cohort (cohort : dataframe) :
  dropna (map TotalKg cohort) <> [] ->
  Forall (fun o => series_min (dropna (map TotalKg cohort)) <= snd o
                   <= series_max (dropna (map TotalKg cohort)))
         (AppParquet.objectives cohort).
Proof.
  intro Hne.
  assert (Hrange : forall x, In x (dropna (map TotalKg cohort)) ->
                             series_min (dropna (map TotalKg cohort)) <= x
                             <= series_max (dropna (map TotalKg cohort))).
  { intros x Hx. split; [apply series_min_le | apply series_max_ge]; exact Hx. }
  assert (Hm : series_min (dropna (map TotalKg cohort))
               <= mean (dropna (map TotalKg cohort))
               <= series_max (dropna (map TotalKg cohort)))
    by (apply mean_bounds; assumption).
  assert (Hq : forall q, 0 <= q -> q <= 1 ->
                         series_min (dropna (map TotalKg cohort))
                         <= quantile (map TotalKg cohort) q
                         <= series_max (dropna (map TotalKg cohort)))
    by (intros; apply quantile_bounds; assumption).
  unfold AppParquet.objectives.
  repeat (apply Forall_cons; [cbn [snd]; first [exact Hm | apply Hq; lra]|]).
  apply Forall_nil.
Qed.








(** ** The sidebar filters as record-by-record tests *)

Lemma cond_filter_as_filter {A : Type} (c : bool) (p : A -> bool) (l : list A) :
  (if c then filter p l else l) = filter (fun r => negb c || p r) l.
Proof.
  destruct c; simpl; [reflexivity|].
  induction l as [|x l IH]; simpl; [reflexivity|]. now rewrite <- IH.
Qed.

Lemma filter_idempotent {A : Type} (p : A -> bool) (l : list A) :
  filter p (filter p l) = filter p l.
Proof.
  rewrite filter_filter. apply filter_ext. intro x. apply andb_diag.
Qed.

Lemma tab1_filtered_rowwise (w : App.sidebar) :
  exists keep : row -> bool, forall df, App.tab1_filtered df w = filter keep df.
Proof.
  eexists. intro df. unfold App.tab1_filtered. cbv zeta.
  rewrite !cond_filter_as_filter, !filter_filter. reflexivity.
Qed.

Lemma filtered_df_rowwise (na_text : string) (f : AppParquet.filters) :
  exists keep : row -> bool,
  forall df, AppParquet.filtered_df na_text df f = filter keep df.
Proof.
  eexists. intro df. unfold AppParquet.filtered_df. cbv zeta.
  rewrite !cond_filter_as_filter, !filter_filter. reflexivity.
Qed.

(** X7.  The sidebar filter of either dashboard judges each record on its
    own: filtering two data sets put together gives the two filtered
    results put together, in the original order, and filtering a filtered
    result again with the same settings changes nothing. *)
Theorem filters_judge_each_record_alone
        (na_text : string) (w : App.sidebar) (f : AppParquet.filters)
        (df1 df2 : dataframe) :
  App.tab1_filtered (df1 ++ df2) w
  = App.tab1_filtered df1 w ++ App.tab1_filtered df2 w
  /\ App.tab1_filtered (App.tab1_filtered df1 w) w = App.tab1_filtered df1 w
  /\ AppParquet.filtered_df na_text (df1 ++ df2) f
     = AppParquet.filtered_df na_text df1 f ++ AppParquet.filtered_df na_text df2 f
  /\ AppParquet.filtered_df na_text (AppParquet.filtered_df na_text df1 f) f
     = AppParquet.filtered_df na_text df1 f.
Proof.
  destruct (tab1_filtered_rowwise w) as [k Hk].
  destruct (filtered_df_rowwise na_text f) as [k' Hk'].
  rewrite !Hk, !Hk'. repeat split;
    first [apply filter_app | apply filter_idempotent].
Qed.

(** X8.  The category tab of app.py, which applies the sidebar filters a
    second time in its own code, selects exactly the records of the
    general tab. *)
Theorem tab3_selects_the_same_records (df : dataframe) (w : App.sidebar) :
  App.tab3_filtered_df df w = App.tab1_filtered df w.
Proof.
  unfold App.tab3_filtered_df, App.tab1_filtered. cbv zeta.
  rewrite filter_filter. apply filter_ext. intro r.
  rewrite <- !andb_assoc. reflexivity.
Qed.

Lemma text_test_agrees (na_text : string) (c : option string) (v : string) :
  v <> na_text ->
  String.eqb (astype_str na_text c) v = str_eq c v.
Proof.
  intro Hv. destruct c as [s|]; simpl; [reflexivity|].
  apply String.eqb_neq. congruence.
Qed.

Lemma cond_filter_ext {A : Type} (c : bool) (p q : A -> bool) (l : list A) :
  (forall r, p r = q r) ->
  (if c then filter p l else l) = (if c then filter q l else l).
Proof.
  intro H. destruct c; [apply filter_ext; exact H | reflexivity].
Qed.

(** X9.  With the same settings the two dashboards select the same
    records, provided no selected category is spelled like the text of a
    missing value. *)
Theorem dashboards_select_alike
        (na_text : string) (df : dataframe)
        (w : App.sidebar) (f : AppParquet.filters) :
  AppParquet.sex f = App.sex_filter w ->
  AppParquet.equipment f = App.equip_filter w ->
  AppParquet.country f = App.country_filter w ->
  AppParquet.age_class f = App.age_filter w ->
  AppParquet.year_range f = App.year_range w ->
  AppParquet.total_range f = App.total_range w ->
  App.sex_filter w <> na_text -> App.equip_filter w <> na_text ->
  App.country_filter w <> na_text -> App.age_filter w <> na_text ->
  AppParquet.filtered_df na_text df f = App.tab1_filtered df w.
Proof.
  intros Es Ee Ec Ea Ey Et Ns Ne Nc Na.
  unfold AppParquet.filtered_df, App.tab1_filtered. cbv zeta.
  rewrite Es, Ee, Ec, Ea, Ey, Et.
  rewrite (cond_filter_ext
             _ (fun r => String.eqb (astype_str na_text (Sex r)) (App.sex_filter w))
             (fun r => str_eq (Sex r) (App.sex_filter w)))
    by (intro r; apply text_test_agrees; exact Ns).
  rewrite (cond_filter_ext
             _ (fun r => String.eqb (astype_str na_text (Equipment r))
                                    (App.equip_filter w))
             (fun r => str_eq (Equipment r) (App.equip_filter w)))
    by (intro r; apply text_test_agrees; exact Ne).
  rewrite (cond_filter_ext
             _ (fun r => String.eqb (astype_str na_text (Country r))
                                    (App.country_filter w))
             (fun r => str_eq (Country r) (App.country_filter w)))
    by (intro r; apply text_test_agrees; exact Nc).
  rewrite (cond_filter_ext
             _ (fun r => String.eqb (astype_str na_text (AgeClass r))
                                    (App.age_filter w))
             (fun r => str_eq (AgeClass r) (App.age_filter w)))
    by (intro r; apply text_test_agrees; exact Na).
  rewrite filter_filter. apply filter_ext. intro r.
  rewrite <- !andb_assoc. reflexivity.
Qed.

(** ** The table of projections *)

(** X10.  In the table "Proyección de Rendimiento a 6 meses" every line
    shows a projection at least as large as the current record of that
    lift, and the table has at most one line per lift, in the order
    Squat, Bench, Deadlift, Total. *)
Theorem projection_table_floor (me : dataframe) :
  Forall (fun line => App.PR_actual line <= App.Proyeccion_6m line) (App.proj me)
  /\ exists keep : string -> bool,
      map App.Levantamiento (App.proj me)
      = filter keep ["Squat"; "Bench"; "Deadlift"; "Total"]%string.
Proof.
  split.
  - unfold App.proj. apply Forall_forall. intros line Hin.
    apply in_flat_map in Hin. destruct Hin as ([lift col] & _ & Hin).
    apply proj_of_floor in Hin. tauto.
  - unfold App.proj, App.proj_of. cbn [flat_map fst snd].
    exists (fun lift =>
              (String.eqb lift "Squat"
               && (3 <=? List.length (App.date_col_dropna me Best3SquatKg))%nat)
              || (String.eqb lift "Bench"
                  && (3 <=? List.length (App.date_col_dropna me Best3BenchKg))%nat)
              || (String.eqb lift "Deadlift"
                  && (3 <=? List.length (App.date_col_dropna me Best3DeadliftKg))%nat)
              || (String.eqb lift "Total"
                  && (3 <=? List.length (App.date_col_dropna me TotalKg))%nat)).
    cbn [filter String.eqb Ascii.eqb Bool.eqb andb orb].
    destruct (3 <=? List.length (App.date_col_dropna me Best3SquatKg))%nat;
      destruct (3 <=? List.length (App.date_col_dropna me Best3BenchKg))%nat;
      destruct (3 <=? List.length (App.date_col_dropna me Best3DeadliftKg))%nat;
      destruct (3 <=? List.length (App.date_col_dropna me TotalKg))%nat;
      reflexivity.
Qed.

(** ** The fitted line *)

Lemma sum_cons (x : Q) (l : list Q) : sum (x :: l) = x + sum l.
Proof. reflexivity. Qed.

(** Spread of the abscissas: [n * sum x^2 - (sum x)^2] grows by the
    squared distances to the new point when a point is added. *)
Lemma spread_cons (x0 : Q) (l : list Q) :
  len (x0 :: l) * sum (map (fun a => a * a) (x0 :: l))
  - sum (x0 :: l) * sum (x0 :: l)
  == (len l * sum (map (fun a => a * a) l) - sum l * sum l)
     + sum (map (fun a => (a - x0) * (a - x0)) l).
Proof.
  assert (Hsq : sum (map (fun a => (a - x0) * (a - x0)) l)
                == sum (map (fun a => a * a) l) - 2 * x0 * sum l + len l * (x0 * x0)).
  { induction l as [|y l IH].
    - unfold len. cbn [map sum fold_right List.length Z.of_nat].
      change (inject_Z 0) with 0. ring.
    - cbn [map]. rewrite !sum_cons, len_cons, IH. ring. }
  rewrite Hsq. cbn [map]. rewrite !sum_cons, len_cons. ring.
Qed.

Lemma sq_nonneg (q : Q) : 0 <= q * q.
Proof.
  destruct (Qlt_le_dec q 0) as [H|H].
  - setoid_replace (q * q) with ((- q) * (- q)) by ring.
    apply Qmult_le_0_compat; lra.
  - apply Qmult_le_0_compat; assumption.
Qed.

Lemma sq_pos (q : Q) : ~ q == 0 -> 0 < q * q.
Proof.
  intro Hq. destruct (Q_dec q 0) as [[H|H]|H]; [| |contradiction].
  - setoid_replace (q * q) with ((- q) * (- q)) by ring.
    apply Qmult_lt_0_compat; lra.
  - apply Qmult_lt_0_compat; assumption.
Qed.

Lemma squares_nonneg (x0 : Q) (l : list Q) :
  0 <= sum (map (fun a => (a - x0) * (a - x0)) l).
Proof.
  induction l as [|y l IH]; [cbn [map sum fold_right]; lra|].
  cbn [map]. rewrite sum_cons.
  pose proof (sq_nonneg (y - x0)). lra.
Qed.

Lemma squares_pos (x0 : Q) (l : list Q) (x : Q) :
  In x l -> ~ x == x0 -> 0 < sum (map (fun a => (a - x0) * (a - x0)) l).
Proof.
  induction l as [|y l IH]; [intros []|].
  intros Hin Hx. cbn [map]. rewrite sum_cons.
  pose proof (sq_nonneg (y - x0)) as H0.
  destruct Hin as [<- | Hin].
  - pose proof (squares_nonneg x0 l).
    assert (0 < (y - x0) * (y - x0)) by (apply sq_pos; lra).
    lra.
  - specialize (IH Hin Hx). lra.
Qed.

Lemma spread_nonneg (l : list Q) :
  0 <= len l * sum (map (fun a => a * a) l) - sum l * sum l.
Proof.
  induction l as [|x0 l IH].
  - unfold len. cbn [map sum fold_right List.length Z.of_nat].
    change (inject_Z 0) with 0. lra.
  - rewrite spread_cons. pose proof (squares_nonneg x0 l). lra.
Qed.

Lemma spread_pos (l : list Q) (x1 x2 : Q) :
  In x1 l -> In x2 l -> ~ x1 == x2 ->
  0 < len l * sum (map (fun a => a * a) l) - sum l * sum l.
Proof.
  induction l as [|x0 l IH]; [intros []|].
  intros H1 H2 Hne. rewrite spread_cons.
  pose proof (squares_nonneg x0 l) as Hsq.
  pose proof (spread_nonneg l) as Hsp.
  destruct H1 as [E1 | H1], H2 as [E2 | H2].
  - subst. exfalso. apply Hne. reflexivity.
  - subst x1. assert (0 < sum (map (fun a => (a - x0) * (a - x0)) l)).
    { apply (squares_pos x0 l x2 H2). intro E. apply Hne. symmetry. exact E. }
    lra.
  - subst x2. assert (0 < sum (map (fun a => (a - x0) * (a - x0)) l))
      by (apply (squares_pos x0 l x1 H1); exact Hne).
    lra.
  - specialize (IH H1 H2 Hne). lra.
Qed.

Section Line.

Variables a b : Q.
Variable d : list (date * Q).
Hypothesis on_line :
  forall p, In p d -> snd p == a * inject_Z (toordinal (fst p)) + b.

Local Abbreviation xq :=
  (map inject_Z (map (fun p : date * Q => toordinal (fst p)) d)).

Lemma line_sums :
  sum (map snd d) == a * sum xq + b * len d
  /\ sum (map (fun p => fst p * snd p) (combine xq (map snd d)))
     == a * sum (map (fun x => x * x) xq) + b * sum xq.
Proof.
  revert on_line. clear. induction d as [|p l IH]; intro H.
  - unfold len. cbn [map combine sum fold_right List.length Z.of_nat].
    change (inject_Z 0) with 0. split; ring.
  - destruct IH as [IH1 IH2]; [intros q Hq; apply H; right; exact Hq|].
    pose proof (H p (or_introl eq_refl)) as Hp.
    cbn [map combine fst snd]. rewrite !sum_cons, len_cons, IH1, IH2, Hp.
    split; ring.
Qed.

Lemma polyfit1_of_line :
  (exists p1 p2, In p1 d /\ In p2 d /\ toordinal (fst p1) <> toordinal (fst p2)) ->
  fst (polyfit1 (map (fun p => toordinal (fst p)) d) (map snd d)) == a
  /\ snd (polyfit1 (map (fun p => toordinal (fst p)) d) (map snd d)) == b.
Proof.
  intros (p1 & p2 & H1 & H2 & Hne).
  destruct line_sums as [Hsy Hsxy].
  assert (Hden : 0 < len xq * sum (map (fun x => x * x) xq) - sum xq * sum xq).
  { apply (spread_pos xq (inject_Z (toordinal (fst p1)))
                      (inject_Z (toordinal (fst p2)))).
    - apply in_map. apply (in_map (fun p => toordinal (fst p))). exact H1.
    - apply in_map. apply (in_map (fun p => toordinal (fst p))). exact H2.
    - intro E. apply Hne. apply inject_Z_injective. exact E. }
  assert (Hn : 0 < len xq).
  { apply len_pos. destruct d; [destruct H1 | discriminate]. }
  assert (Hlen : len xq == len d) by (unfold len; rewrite !length_map; reflexivity).
  unfold polyfit1.
  set (n := len xq) in *. set (sx := sum xq) in *.
  set (sxx := sum (map (fun x => x * x) xq)) in *.
  set (sy := sum (map snd d)) in *.
  set (sxy := sum (map (fun p => fst p * snd p) (combine xq (map snd d)))) in *.
  destruct (Qeq_bool (n * sxx - sx * sx) 0) eqn:E.
  - apply Qeq_bool_eq in E. lra.
  - cbn [fst snd].
    assert (Hslope : (n * sxy - sx * sy) / (n * sxx - sx * sx) == a).
    { rewrite Hsxy, Hsy, <- Hlen. field. lra. }
    split; [exact Hslope|].
    rewrite Hslope, Hsy, <- Hlen. field. lra.
Qed.

End Line.

(** X11.  When the results of an athlete lie exactly on a line in time
    and were not all obtained on one day, the fitted projection is the
    value of that line six months after the last meet. *)
Theorem projection_of_a_line (a b : Q) (d : list (date * Q)) :
  (forall p, In p d -> snd p == a * inject_Z (toordinal (fst p)) + b) ->
  (exists p1 p2, In p1 d /\ In p2 d /\ toordinal (fst p1) <> toordinal (fst p2)) ->
  App.y_fut d
  == a * inject_Z (toordinal (add_months (date_max (map fst d)) 6)) + b.
Proof.
  intros Hline Hspread.
  destruct (polyfit1_of_line a b d Hline Hspread) as [Ha Hb].
  unfold App.y_fut. cbv zeta. rewrite Ha, Hb. reflexivity.
Qed.

(** ** The helpers of app.py *)

Lemma dropna_cons_some (v : Q) (s : list (option Q)) :
  dropna (Some v :: s) = v :: dropna s.
Proof. reflexivity. Qed.

Lemma dropna_cons_none (s : list (option Q)) : dropna (None :: s) = dropna s.
Proof. reflexivity. Qed.

Lemma cummax_from_spec (s : list (option Q)) :
  forall best,
    Forall2 (fun c o => match c, o with
                        | None, None => True
                        | Some v, Some m => v <= m
                        | _, _ => False
                        end) s (cummax_from best s)
    /\ Forall (fun m => (forall b, best = Some b -> b <= m)
                        /\ (In m (dropna s) \/ best = Some m))
              (dropna (cummax_from best s))
    /\ StronglySorted Qle (dropna (cummax_from best s)).
Proof.
  induction s as [|[v|] s IH]; intro best; cbn [cummax_from].
  - repeat split; constructor.
  - set (m := match best with
              | Some b => if Qltb b v then v else b
              | None => v
              end).
    assert (Hm : v <= m /\ (forall b, best = Some b -> b <= m)
                 /\ (m = v \/ best = Some m)).
    { unfold m. destruct best as [b|].
      - destruct (Qltb b v) eqn:E.
        + apply Qltb_lt in E. repeat split; [apply Qle_refl| |left; reflexivity].
          intros b' [= <-]. apply Qlt_le_weak. exact E.
        + apply Qltb_ge in E. repeat split; [exact E| |right; reflexivity].
          intros b' [= <-]. apply Qle_refl.
      - repeat split; [apply Qle_refl | discriminate | left; reflexivity]. }
    destruct Hm as (Hv & Hb & Hor).
    destruct (IH (Some m)) as (H2 & Hall & Hs).
    rewrite !dropna_cons_some. split; [|split].
    + constructor; [exact Hv | exact H2].
    + constructor.
      * split; [exact Hb|]. destruct Hor as [-> | E]; [left; left; reflexivity|].
        right. exact E.
      * eapply Forall_impl; [|exact Hall]. intros x [Hx1 Hx2]. split.
        -- intros b Eb. eapply Qle_trans; [apply Hb; exact Eb|].
           apply Hx1. reflexivity.
        -- destruct Hx2 as [Hx2 | [= <-]]; [left; right; exact Hx2|].
           destruct Hor as [-> | E]; [left; left; reflexivity | right; exact E].
    + constructor; [exact Hs|].
      eapply Forall_impl; [|exact Hall]. intros x [Hx1 _]. apply Hx1. reflexivity.
  - destruct (IH best) as (H2 & Hall & Hs).
    rewrite !dropna_cons_none. split; [|split]; [constructor; [exact I | exact H2] | | exact Hs].
    exact Hall.
Qed.

Lemma cummax_from_length (s : list (option Q)) :
  forall best, List.length (cummax_from best s) = List.length s.
Proof.
  induction s as [|[v|] s IH]; intro best; cbn [cummax_from List.length];
    [reflexivity | |]; now rewrite IH.
Qed.

(** The entry at a position is missing when the result is, and otherwise
    the largest of the starting value and the results up to there. *)
Lemma cummax_from_nth (s : list (option Q)) :
  forall best i c,
    nth_error s i = Some c ->
    match c with
    | None => nth_error (cummax_from best s) i = Some None
    | Some _ =>
        exists m,
          nth_error (cummax_from best s) i = Some (Some m)
          /\ (In m (dropna (firstn (S i) s)) \/ best = Some m)
          /\ (forall x, In x (dropna (firstn (S i) s)) -> x <= m)
          /\ (forall b, best = Some b -> b <= m)
    end.
Proof.
  induction s as [|[v|] s IH]; intros best i c Hi.
  - destruct i; discriminate.
  - cbn [cummax_from].
    set (m0 := match best with
               | Some b => if Qltb b v then v else b
               | None => v
               end).
    assert (Hm : v <= m0 /\ (forall b, best = Some b -> b <= m0)
                 /\ (m0 = v \/ best = Some m0)).
    { unfold m0. destruct best as [b|].
      - destruct (Qltb b v) eqn:E.
        + apply Qltb_lt in E. repeat split; [apply Qle_refl| |left; reflexivity].
          intros b' [= <-]. apply Qlt_le_weak. exact E.
        + apply Qltb_ge in E. repeat split; [exact E| |right; reflexivity].
          intros b' [= <-]. apply Qle_refl.
      - repeat split; [apply Qle_refl | discriminate | left; reflexivity]. }
    destruct Hm as (Hv & Hb & Hor).
    destruct i as [|i].
    + cbn in Hi. injection Hi as <-. exists m0. cbn [nth_error firstn].
      rewrite dropna_cons_some. change (dropna []) with (@nil Q).
      split; [reflexivity|]. split; [|split].
      * destruct Hor as [E | E]; [left; left; symmetry; exact E | right; exact E].
      * intros x [<- | []]. exact Hv.
      * exact Hb.
    + cbn [nth_error] in Hi. specialize (IH (Some m0) i c Hi).
      destruct c as [w|]; cbn [nth_error]; [|exact IH].
      destruct IH as (m & Em & Hin & Hle & Hbest). exists m.
      change (firstn (S (S i)) (Some v :: s)) with (Some v :: firstn (S i) s).
      rewrite dropna_cons_some.
      assert (H0 : m0 <= m) by (apply Hbest; reflexivity).
      split; [exact Em|]. split; [|split].
      * destruct Hin as [Hin | [= <-]]; [left; right; exact Hin|].
        destruct Hor as [E | E]; [left; left; symmetry; exact E | right; exact E].
      * intros x [<- | Hx]; [apply (Qle_trans _ m0); assumption | apply Hle; exact Hx].
      * intros b Eb. apply (Qle_trans _ m0); [apply Hb; exact Eb | exact H0].
  - cbn [cummax_from]. destruct i as [|i].
    + cbn in Hi. injection Hi as <-. reflexivity.
    + cbn [nth_error] in Hi. specialize (IH best i c Hi).
      cbn [nth_error].
      change (firstn (S (S i)) (None :: s)) with (None :: firstn (S i) s).
      rewrite dropna_cons_none. exact IH.
Qed.

(** X12.  [running_pr] keeps the length and the missing entries of the
    series; at every other position it gives the record so far: one of
    the results up to that position, and at least as large as each of
    them.  So the records never decrease. *)
Theorem running_pr_is_a_running_record (series : list (option Q)) :
  List.length (App.running_pr series) = List.length series
  /\ (forall i c,
         nth_error series i = Some c ->
         match c with
         | None => nth_error (App.running_pr series) i = Some None
         | Some _ =>
             exists m,
               nth_error (App.running_pr series) i = Some (Some m)
               /\ In m (dropna (firstn (S i) series))
               /\ forall x, In x (dropna (firstn (S i) series)) -> x <= m
         end)
  /\ StronglySorted Qle (dropna (App.running_pr series)).
Proof.
  unfold App.running_pr, cummax.
  split; [apply cummax_from_length|]. split.
  - intros i c Hi. pose proof (cummax_from_nth series None i c Hi) as H.
    destruct c as [v|]; [|exact H].
    destruct H as (m & Em & [Hin | Hin] & Hle & _); [|discriminate].
    exists m. split; [exact Em|]. split; [exact Hin | exact Hle].
  - destruct (cummax_from_spec series None) as (_ & _ & Hs). exact Hs.
Qed.

Lemma rate_values (h : nat) :
  (h <= 3)%nat ->
  let v := round1 (100 * inject_Z (Z.of_nat h) / 3) in
  (v == 0 \/ v == 333 # 10 \/ v == 667 # 10 \/ v == 100)
  /\ (v == 100 <-> h = 3%nat).
Proof.
  intro Hh.
  destruct h as [|[|[|[|h]]]]; [| | | |lia]; cbv zeta; split.
  - left. vm_compute. reflexivity.
  - split; [vm_compute; discriminate | discriminate].
  - right; left. vm_compute. reflexivity.
  - split; [vm_compute; discriminate | discriminate].
  - right; right; left. vm_compute. reflexivity.
  - split; [vm_compute; discriminate | discriminate].
  - right; right; right. vm_compute. reflexivity.
  - split; [reflexivity | vm_compute; reflexivity].
Qed.

Lemma three_made (c1 c2 c3 : attempts -> option Q) (row : attempts) :
  (List.length (filter (fun c => App.made (c row)) [c1; c2; c3]) <= 3)%nat
  /\ (List.length (filter (fun c => App.made (c row)) [c1; c2; c3]) = 3%nat
      <-> App.made (c1 row) = true /\ App.made (c2 row) = true
          /\ App.made (c3 row) = true).
Proof.
  cbn [filter].
  destruct (App.made (c1 row)), (App.made (c2 row)), (App.made (c3 row));
    cbn [List.length]; split; try lia;
    split; intro H; try discriminate; try (repeat split; reflexivity);
    destruct H as (H1 & H2 & H3); discriminate.
Qed.

(** X13.  [success_rate] reports the three lifts in the order squat,
    bench, deadlift; each rate is 0, 33.3, 66.7 or 100, and it is 100
    exactly when the three attempts of the lift are on record and
    positive. *)
Theorem success_rate_values (row : attempts) :
  exists vs vb vd,
    App.success_rate row
    = [("Sentadilla", vs); ("Banca", vb); ("Peso Muerto", vd)]%string
    /\ Forall (fun v => v == 0 \/ v == 333 # 10 \/ v == 667 # 10 \/ v == 100)
              [vs; vb; vd]
    /\ (vs == 100 <-> App.made (Squat1Kg row) = true
                      /\ App.made (Squat2Kg row) = true
                      /\ App.made (Squat3Kg row) = true)
    /\ (vb == 100 <-> App.made (Bench1Kg row) = true
                      /\ App.made (Bench2Kg row) = true
                      /\ App.made (Bench3Kg row) = true)
    /\ (vd == 100 <-> App.made (Deadlift1Kg row) = true
                      /\ App.made (Deadlift2Kg row) = true
                      /\ App.made (Deadlift3Kg row) = true).
Proof.
  unfold App.success_rate. cbn [map fst snd].
  destruct (three_made Squat1Kg Squat2Kg Squat3Kg row) as [Hs Hs3].
  destruct (three_made Bench1Kg Bench2Kg Bench3Kg row) as [Hb Hb3].
  destruct (three_made Deadlift1Kg Deadlift2Kg Deadlift3Kg row) as [Hd Hd3].
  destruct (rate_values _ Hs) as [Vs Es].
  destruct (rate_values _ Hb) as [Vb Eb].
  destruct (rate_values _ Hd) as [Vd Ed].
  eexists. eexists. eexists. split; [reflexivity|].
  split.
  { apply Forall_cons; [exact Vs|]. apply Forall_cons; [exact Vb|].
    apply Forall_cons; [exact Vd|]. apply Forall_nil. }
  split; [rewrite Es; exact Hs3|].
  split; [rewrite Eb; exact Hb3 | rewrite Ed; exact Hd3].
Qed.

Lemma first_present_spec (columns candidates : list string) :
  (forall before c after,
      candidates = before ++ c :: after ->
      (forall b, In b before -> ~ In b columns) ->
      In c columns ->
      App.first_present candidates columns = Some c)
  /\ (forall c, App.first_present candidates columns = Some c ->
                In c candidates /\ In c columns)
  /\ (App.first_present candidates columns = None <->
      forall c, In c candidates -> ~ In c columns).
Proof.
  assert (Hex : forall c, existsb (String.eqb c) columns = true <-> In c columns).
  { intro c. rewrite existsb_exists. split.
    - intros (x & Hx & E). apply String.eqb_eq in E. now subst.
    - intro H. exists c. split; [exact H | apply String.eqb_refl]. }
  induction candidates as [|k rest IH]; cbn [App.first_present].
  - split; [|split].
    + intros [|] ? ? E; discriminate.
    + discriminate.
    + split; [intros _ c [] | reflexivity].
  - destruct IH as (IH1 & IH2 & IH3).
    destruct (existsb (String.eqb k) columns) eqn:E.
    + apply Hex in E. split; [|split].
      * intros [|b before] c after Eq Habs Hin.
        -- injection Eq as <- _. reflexivity.
        -- injection Eq as <- _. exfalso. apply (Habs k); [left; reflexivity | exact E].
      * intros c [= <-]. split; [left; reflexivity | exact E].
      * split; [discriminate|]. intro H. exfalso.
        apply (H k); [left; reflexivity | exact E].
    + assert (Hk : ~ In k columns).
      { intro H. apply Hex in H. congruence. }
      split; [|split].
      * intros [|b before] c after Eq Habs Hin.
        -- injection Eq as <- _. contradiction.
        -- injection Eq as _ Eq. apply (IH1 before c after Eq); [|exact Hin].
           intros b' Hb'. apply Habs. right. exact Hb'.
      * intros c Hc. destruct (IH2 c Hc) as [H1 H2]. split; [right; exact H1 | exact H2].
      * rewrite IH3. split.
        -- intros H c [<- | Hc]; [exact Hk | apply H; exact Hc].
        -- intros H c Hc. apply H. right. exact Hc.
Qed.

(** X14.  [score_col] answers the first of Dots, Wilks, Goodlift,
    Glossbrenner that is a column of the data set: a column is answered
    when it is present and every earlier one is absent, the answer is
    always a present column of the four, and there is no answer exactly
    when none of the four is present. *)
Theorem score_col_takes_first_present (columns : list string) :
  (forall before c after,
      ["Dots"; "Wilks"; "Goodlift"; "Glossbrenner"]%string = before ++ c :: after ->
      (forall b, In b before -> ~ In b columns) ->
      In c columns ->
      App.score_col columns = Some c)
  /\ (forall c, App.score_col columns = Some c ->
                In c ["Dots"; "Wilks"; "Goodlift"; "Glossbrenner"]%string
                /\ In c columns)
  /\ (App.score_col columns = None <->
      forall c, In c ["Dots"; "Wilks"; "Goodlift"; "Glossbrenner"]%string ->
                ~ In c columns).
Proof. apply first_present_spec. Qed.

Section CategoryMask.

Variable na_text : string.
Variable row : classed_row.

(** The test one column puts on one record. *)
Local Abbreviation same_text c r :=
  (match c row with
   | Some v => String.eqb (astype_str na_text (c r)) v
   | None => true
   end).

Lemma mask_step_cons (cols : list (classed_row -> option string))
      (r : classed_row) (df : list classed_row) :
  forall (m : bool) (mask : list bool),
    fold_left
      (fun mask c =>
         match c row with
         | Some v =>
             map (fun p => fst p && snd p)
                 (combine mask
                          (map (fun r => String.eqb (astype_str na_text (c r)) v)
                               (r :: df)))
         | None => mask
         end) cols (m :: mask)
    = fold_left (fun b c => b && same_text c r) cols m
      :: fold_left
           (fun mask c =>
              match c row with
              | Some v =>
                  map (fun p => fst p && snd p)
                      (combine mask
                               (map (fun r => String.eqb (astype_str na_text (c r)) v)
                                    df))
              | None => mask
              end) cols mask.
Proof.
  induction cols as [|c cols IH]; intros m mask; [reflexivity|].
  cbn [fold_left]. destruct (c row) as [v|].
  - cbn [map combine fst snd]. apply IH.
  - rewrite andb_true_r. apply IH.
Qed.

Lemma all_tests (cols : list (classed_row -> option string)) (r : classed_row) :
  forall b,
    fold_left (fun b c => b && same_text c r) cols b = true
    <-> b = true /\ forall c v, In c cols -> c row = Some v ->
                                astype_str na_text (c r) = v.
Proof.
  induction cols as [|c cols IH]; intro b; cbn [fold_left].
  - split; [intro H; split; [exact H | intros ? ? []] | tauto].
  - rewrite IH, andb_true_iff. split.
    + intros [[Hb Hc] Hrest]. split; [exact Hb|].
      intros c' v [<- | Hin] Ev; [|apply (Hrest c' v Hin Ev)].
      rewrite Ev in Hc. apply String.eqb_eq. exact Hc.
    + intros [Hb Hall]. split; [split; [exact Hb|]|].
      * destruct (c row) as [v|] eqn:Ev; [|reflexivity].
        apply String.eqb_eq. apply (Hall c v); [left; reflexivity | exact Ev].
      * intros c' v Hin Ev. apply (Hall c' v); [right; exact Hin | exact Ev].
Qed.

Lemma my_category_mask_cons (r : classed_row) (df : list classed_row) :
  App.my_category_mask na_text (r :: df) row
  = fold_left (fun b c => b && same_text c r)
              [(fun r => Sex (result r)); (fun r => Equipment (result r));
               (fun r => AgeClass (result r)); WeightClass] true
    :: App.my_category_mask na_text df row.
Proof. unfold App.my_category_mask. cbn [map]. apply mask_step_cons. Qed.

Lemma my_category_mask_nil : App.my_category_mask na_text [] row = [].
Proof.
  unfold App.my_category_mask. cbn [fold_left map].
  destruct (Sex (result row)), (Equipment (result row)),
    (AgeClass (result row)), (WeightClass row); reflexivity.
Qed.

End CategoryMask.

(** X15.  [my_category_mask] marks one record per row of the data set: a
    record is marked exactly when, for each of sex, equipment, age class
    and weight class that the reference row has, the text of its cell is
    the one of the reference row; so the reference row itself is always
    marked. *)
Theorem my_category_mask_marks_same_category
        (na_text : string) (df : list classed_row) (row : classed_row) :
  Forall2 (fun r m =>
             m = true <->
             (forall v, Sex (result row) = Some v ->
                        astype_str na_text (Sex (result r)) = v)
             /\ (forall v, Equipment (result row) = Some v ->
                           astype_str na_text (Equipment (result r)) = v)
             /\ (forall v, AgeClass (result row) = Some v ->
                           astype_str na_text (AgeClass (result r)) = v)
             /\ (forall v, WeightClass row = Some v ->
                           astype_str na_text (WeightClass r) = v))
          df (App.my_category_mask na_text df row)
  /\ forall i, nth_error df i = Some row ->
               nth_error (App.my_category_mask na_text df row) i = Some true.
Proof.
  assert (Hpoint : forall r,
             fold_left (fun b c =>
                          b && match c row with
                               | Some v => String.eqb (astype_str na_text (c r)) v
                               | None => true
                               end)
                       [(fun r => Sex (result r)); (fun r => Equipment (result r));
                        (fun r => AgeClass (result r)); WeightClass] true = true
             <-> (forall v, Sex (result row) = Some v ->
                            astype_str na_text (Sex (result r)) = v)
                 /\ (forall v, Equipment (result row) = Some v ->
                               astype_str na_text (Equipment (result r)) = v)
                 /\ (forall v, AgeClass (result row) = Some v ->
                               astype_str na_text (AgeClass (result r)) = v)
                 /\ (forall v, WeightClass row = Some v ->
                               astype_str na_text (WeightClass r) = v)).
  { intro r. rewrite all_tests. split.
    - intros [_ H]. repeat split; intros v Ev.
      + apply (H (fun r => Sex (result r)) v); [left; reflexivity | exact Ev].
      + apply (H (fun r => Equipment (result r)) v);
          [right; left; reflexivity | exact Ev].
      + apply (H (fun r => AgeClass (result r)) v);
          [right; right; left; reflexivity | exact Ev].
      + apply (H WeightClass v); [right; right; right; left; reflexivity | exact Ev].
    - intros (Hs & He & Ha & Hw). split; [reflexivity|].
      intros c v [<- | [<- | [<- | [<- | []]]]] Ev; auto. }
  split.
  - induction df as [|r df IH]; [rewrite my_category_mask_nil; constructor|].
    rewrite my_category_mask_cons. constructor; [apply Hpoint | exact IH].
  - induction df as [|r df IH]; intros [|i] Hi; try discriminate.
    + cbn in Hi. injection Hi as ->. rewrite my_category_mask_cons. cbn [nth_error].
      f_equal. apply Hpoint.
      repeat split; intros v Ev; rewrite Ev; reflexivity.
    + rewrite my_category_mask_cons. cbn [nth_error] in *. apply IH. exact Hi.
Qed.

(** ** The closest athlete above, and the record cards *)

Lemma sort_values_head (l : list Q) :
  l <> [] ->
  exists m rest, sort_values l = m :: rest
                 /\ In m l /\ forall x, In x l -> m <= x.
Proof.
  intro Hne.
  destruct (sort_values l) as [|m rest] eqn:E.
  - exfalso. apply (f_equal (@List.length Q)) in E.
    rewrite length_sort_values in E. destruct l; [congruence | discriminate].
  - exists m, rest. split; [reflexivity|].
    pose proof (sort_values_sorted l) as Hs. rewrite E in Hs.
    split.
    + apply (sort_values_In m l). rewrite E. left. reflexivity.
    + intros x Hx. apply (sort_values_In x l) in Hx. rewrite E in Hx.
      destruct Hx as [<- | Hx]; [apply Qle_refl|].
      inversion Hs as [|? ? _ Hall]; subst.
      rewrite Forall_forall in Hall. apply Hall. exact Hx.
Qed.

Lemma dropna_In (x : Q) (s : list (option Q)) : In x (dropna s) <-> In (Some x) s.
Proof.
  unfold dropna. rewrite in_flat_map. split.
  - intros ([v|] & Hin & Hx); [|destruct Hx].
    destruct Hx as [<- | []]. exact Hin.
  - intro H. exists (Some x). split; [exact H | left; reflexivity].
Qed.

(** X16.  In the simulator, "the next athlete" is missing exactly when
    no comparable total is above the user's total; otherwise the kilos
    missing are positive and lead to the smallest comparable total that
    is above the user's. *)
Theorem closest_superior (c : dataframe) (total_in : Q) :
  (App.falta c total_in = None <->
   Forall (fun r => cell_gt (TotalKg r) total_in = false) c)
  /\
  (forall f,
      App.falta c total_in = Some f ->
      0 < f
      /\ exists r t,
          In r c /\ TotalKg r = Some t /\ f = t - total_in
          /\ forall r' t', In r' c -> TotalKg r' = Some t' -> total_in < t' ->
                           t <= t').
Proof.
  unfold App.falta, App.superior.
  set (above := filter (fun r => cell_gt (TotalKg r) total_in) c).
  assert (Habove : forall t, In t (dropna (map TotalKg above)) <->
                             exists r, In r c /\ TotalKg r = Some t /\ total_in < t).
  { intro t. rewrite dropna_In, in_map_iff. unfold above. split.
    - intros (r & Er & Hin). apply filter_In in Hin. destruct Hin as [Hin Hgt].
      exists r. split; [exact Hin|]. split; [exact Er|].
      rewrite Er in Hgt. simpl in Hgt. apply Qltb_lt. exact Hgt.
    - intros (r & Hin & Er & Hgt). exists r. split; [exact Er|].
      apply filter_In. split; [exact Hin|]. rewrite Er. simpl.
      apply Qltb_lt. exact Hgt. }
  destruct (dropna (map TotalKg above)) as [|x l] eqn:E.
  - cbn. split.
    + split; [intros _ | reflexivity].
      apply Forall_forall. intros r Hin.
      destruct (TotalKg r) as [t|] eqn:Et; [|reflexivity]. simpl.
      destruct (Qltb total_in t) eqn:Hlt; [|reflexivity].
      exfalso. apply Qltb_lt in Hlt.
      apply (proj2 (Habove t)). exists r. auto.
    + discriminate.
  - destruct (sort_values_head (x :: l)) as (m & rest & Es & Hm & Hmin);
      [discriminate|].
    rewrite Es. cbn [firstn]. split.
    + split; [discriminate|]. intro Hall. exfalso.
      apply Habove in Hm. destruct Hm as (r & Hin & Er & Hgt).
      rewrite Forall_forall in Hall. specialize (Hall r Hin).
      rewrite Er in Hall. simpl in Hall. apply Qltb_ge in Hall. lra.
    + intros f [= <-].
      pose proof (proj1 (Habove m) Hm) as (r & Hin & Er & Hgt).
      split; [lra|]. exists r, m. repeat split; try assumption.
      intros r' t' Hin' Er' Hgt'. apply Hmin. apply Habove.
      exists r'. auto.
Qed.

Lemma dated_values_on_record (me : dataframe) (col : row -> option Q) (v : Q) :
  In v (map snd (App.date_col_dropna me col)) -> In v (dropna (map col me)).
Proof.
  unfold App.date_col_dropna. rewrite in_map_iff.
  intros ([t v'] & Ev & Hin). simpl in Ev. subst v'.
  apply in_flat_map in Hin. destruct Hin as (r & Hr & Hin).
  apply dropna_In. apply in_map_iff. exists r. split; [|exact Hr].
  destruct (Date r), (col r); simpl in Hin; try contradiction.
  destruct Hin as [Hin|[]]. injection Hin as _ ->. reflexivity.
Qed.

Lemma all_dated_values (me : dataframe) (col : row -> option Q) :
  (forall r, In r me -> col r <> None -> Date r <> None) ->
  map snd (App.date_col_dropna me col) = dropna (map col me).
Proof.
  induction me as [|r me IH]; intro H; [reflexivity|].
  unfold App.date_col_dropna, dropna in *. cbn [map flat_map].
  rewrite map_app, IH by (intros r' Hr'; apply H; right; exact Hr').
  f_equal. destruct (col r) as [v|] eqn:Ev.
  - destruct (Date r) as [t|] eqn:Et; [reflexivity|].
    exfalso. apply (H r); [left; reflexivity | congruence | exact Et].
  - destruct (Date r); reflexivity.
Qed.

(** X17.  When the table of projections has a line for a lift, the record
    card of that lift shows a value, the current record in the table is
    not above the card, and the two agree when every result of the lift
    has a date. *)
Theorem table_record_and_card
        (lift : string) (me : dataframe) (col : row -> option Q)
        (line : App.proj_row) :
  In line (App.proj_of lift me col) ->
  exists card,
    App.pr_card me col = Some card
    /\ App.PR_actual line <= card
    /\ ((forall r, In r me -> col r <> None -> Date r <> None) ->
        App.PR_actual line = card).
Proof.
  unfold App.proj_of.
  destruct (3 <=? List.length (App.date_col_dropna me col))%nat eqn:E; [|intros []].
  intros [<- | []]. cbn [App.PR_actual].
  apply Nat.leb_le in E.
  assert (Hne : map snd (App.date_col_dropna me col) <> []).
  { destruct (App.date_col_dropna me col); [simpl in E; lia | discriminate]. }
  pose proof (series_max_In _ Hne) as Hin.
  apply dated_values_on_record in Hin.
  unfold App.pr_card, skipna_max.
  destruct (dropna (map col me)) as [|x l] eqn:Ed; [destruct Hin|].
  eexists. split; [reflexivity|]. split.
  - apply (series_max_ge (x :: l)). exact Hin.
  - intro Hall. rewrite (all_dated_values me col Hall), Ed. reflexivity.
Qed.

(** ** The first view of app_parquet.py *)

(** X18.  Before any filter is applied, app_parquet.py shows the records
    from 2010 on that have a total: earlier records, and records
    without a year or a total, are left out. *)
Theorem first_view_starts_in_2010
        (na_text : string) (df : dataframe) (f : AppParquet.filters) :
  AppParquet.initial_filters df = Some f ->
  AppParquet.filtered_df na_text df f
  = filter (fun r => zcell_ge (Year r) 2010 && notna (TotalKg r)) df.
Proof.
  unfold AppParquet.initial_filters.
  destruct (zmax_list (zdropna (map Year df))) as [y1|] eqn:Ey1; [|discriminate].
  destruct (skipna_min (map TotalKg df)) as [t0|] eqn:Et0; [|discriminate].
  destruct (skipna_max (map TotalKg df)) as [t1|] eqn:Et1; [|discriminate].
  intros [= <-]. unfold AppParquet.filtered_df. cbn.
  rewrite filter_filter. apply filter_ext_in. intros r Hin.
  destruct (Year r) as [y|] eqn:Ey; [|reflexivity].
  destruct (TotalKg r) as [t|] eqn:Et; [|cbn; rewrite !andb_false_r; reflexivity].
  assert (Hy : (y <= y1)%Z).
  { apply (zmax_list_ge (zdropna (map Year df))); [exact Ey1|].
    unfold zdropna. apply in_flat_map. exists (Some y). split; [|now left].
    rewrite <- Ey. apply in_map. exact Hin. }
  assert (Ht : In (Some t) (map TotalKg df)) by (rewrite <- Et; apply in_map; exact Hin).
  pose proof (skipna_min_le _ _ _ Et0 Ht) as H0.
  pose proof (skipna_max_ge _ _ _ Et1 Ht) as H1.
  cbn. apply Z.leb_le in Hy. apply Qle_bool_iff in H0. apply Qle_bool_iff in H1.
  rewrite Hy, H0, H1. cbn. rewrite !andb_true_r. reflexivity.
Qed.

(** ** Competitions per month *)

Lemma bars_cons {A : Type} (p : nat -> A -> bool) (r : A) (l : list A)
      (ms : list nat) :
  list_sum (map (fun m => List.length (filter (p m) (r :: l))) ms)
  = (list_sum (map (fun m => if p m r then 1 else 0) ms)
     + list_sum (map (fun m => List.length (filter (p m) l)) ms))%nat.
Proof.
  induction ms as [|m ms IH]; [reflexivity|].
  cbn [map].
  change (list_sum (?a :: ?t)) with (a + list_sum t)%nat.
  rewrite IH. cbn [filter].
  destruct (p m r); cbn [List.length]; lia.
Qed.

Lemma one_bar_per_month (z : Z) :
  (1 <= z <= 12)%Z ->
  list_sum (map (fun m => if (z =? Z.of_nat m)%Z then 1%nat else 0%nat) (seq 1 12))
  = 1%nat.
Proof.
  intro H.
  assert (E : (z = 1 \/ z = 2 \/ z = 3 \/ z = 4 \/ z = 5 \/ z = 6 \/ z = 7
               \/ z = 8 \/ z = 9 \/ z = 10 \/ z = 11 \/ z = 12)%Z) by lia.
  repeat (destruct E as [-> | E]; [reflexivity|]). subst z. reflexivity.
Qed.

(** X19.  The chart of competitions per month has twelve bars; when the
    months of the dates run from 1 to 12, the bars add up to the number
    of records that have a date, so every dated record is counted in
    exactly one bar and an undated record in none. *)
Theorem monthly_bars_count_dated_records (filtered_df : dataframe) :
  (forall r d, In r filtered_df -> Date r = Some d -> (1 <= month d <= 12)%Z) ->
  List.length (AppParquet.yvals filtered_df) = 12%nat
  /\ list_sum (AppParquet.yvals filtered_df)
     = List.length (filter (fun r => notna (Date r)) filtered_df).
Proof.
  intro Hm. unfold AppParquet.yvals. split; [rewrite length_map; reflexivity|].
  induction filtered_df as [|r l IH]; [reflexivity|].
  rewrite (bars_cons (fun m r => match Date r with
                                 | Some d => (month d =? Z.of_nat m)%Z
                                 | None => false
                                 end)).
  rewrite IH by (intros r' d Hin; apply Hm; right; exact Hin).
  cbn [filter]. destruct (Date r) as [d|] eqn:Ed; cbn [notna List.length].
  - rewrite one_bar_per_month; [reflexivity|].
    apply (Hm r d); [left; reflexivity | exact Ed].
  - reflexivity.
Qed.

(** ** The elite ranking *)

Section Ranking.

Context {A : Type} (key : A -> Q).

Local Abbreviation above a b := (key b <= key a).

Lemma insert_desc_perm (x : A) (l : list A) :
  Permutation (insert_desc key x l) (x :: l).
Proof.
  induction l as [|y r IH]; simpl; [apply Permutation_refl|].
  destruct (Qltb (key x) (key y)); [|apply Permutation_refl].
  eapply Permutation_trans; [apply perm_skip; exact IH | apply perm_swap].
Qed.

Lemma sort_desc_perm (l : list A) :
  Permutation (fold_right (insert_desc key) [] l) l.
Proof.
  induction l as [|x l IH]; simpl; [apply Permutation_refl|].
  eapply Permutation_trans; [apply insert_desc_perm | apply perm_skip; exact IH].
Qed.

Lemma insert_desc_sorted (x : A) (l : list A) :
  StronglySorted (fun a b => above a b) l ->
  StronglySorted (fun a b => above a b) (insert_desc key x l).
Proof.
  induction 1 as [|y r Hs IH Hy]; simpl.
  - constructor; constructor.
  - destruct (Qltb (key x) (key y)) eqn:E.
    + apply Qltb_lt in E. constructor; [exact IH|].
      eapply Permutation_Forall;
        [apply Permutation_sym; apply insert_desc_perm|].
      constructor; [apply Qlt_le_weak; exact E | exact Hy].
    + apply Qltb_ge in E. constructor; [constructor; assumption|].
      constructor; [exact E|].
      eapply Forall_impl; [|exact Hy]. intros z Hz. cbv beta in Hz |- *.
      apply (Qle_trans _ (key y)); assumption.
Qed.

Lemma sort_desc_sorted (l : list A) :
  StronglySorted (fun a b => above a b) (fold_right (insert_desc key) [] l).
Proof.
  induction l as [|x l IH]; simpl; [constructor|].
  apply insert_desc_sorted. exact IH.
Qed.

Lemma sorted_app_inv (l1 l2 : list A) :
  StronglySorted (fun a b => above a b) (l1 ++ l2) ->
  StronglySorted (fun a b => above a b) l1
  /\ forall a b, In a l1 -> In b l2 -> above a b.
Proof.
  induction l1 as [|x l1 IH]; simpl; intro H.
  - split; [constructor | intros a b []].
  - inversion H as [|? ? Hs Hall]; subst.
    destruct (IH Hs) as [Hs1 Hcross].
    rewrite Forall_app in Hall. destruct Hall as [H1 H2]. split.
    + constructor; assumption.
    + intros a b [<- | Ha] Hb; [|apply Hcross; assumption].
      rewrite Forall_forall in H2. apply H2. exact Hb.
Qed.

Lemma nlargest_spec (n : nat) (l : list A) :
  (List.length (nlargest n key l) <= n)%nat
  /\ StronglySorted (fun a b => above a b) (nlargest n key l)
  /\ exists rest,
      Permutation l (nlargest n key l ++ rest)
      /\ forall a b, In a (nlargest n key l) -> In b rest -> above a b.
Proof.
  unfold nlargest. set (s := fold_right (insert_desc key) [] l).
  pose proof (sort_desc_sorted l) as Hs. fold s in Hs.
  rewrite <- (firstn_skipn n s) in Hs.
  destruct (sorted_app_inv _ _ Hs) as [H1 Hcross].
  split; [apply firstn_le_length|]. split; [exact H1|].
  exists (skipn n s). split; [|exact Hcross].
  rewrite firstn_skipn. apply Permutation_sym. apply sort_desc_perm.
Qed.

End Ranking.

(** X20.  The elite table lists the 20 filtered records of largest total
    (all of them when there are fewer), by decreasing total; every
    listed record has a total, every filtered record left out has a
    total no larger than any listed one, and the chart beside the table
    shows the ten largest. *)
Theorem elite_ranking
        (na_text : string) (df : dataframe) (f : AppParquet.filters) :
  List.length (AppParquet.top_athletes (AppParquet.filtered_df na_text df f))
  = Nat.min 20 (List.length (AppParquet.filtered_df na_text df f))
  /\ Forall (fun r => In r (AppParquet.filtered_df na_text df f)
                      /\ TotalKg r = Some (AppParquet.total_of r))
            (AppParquet.top_athletes (AppParquet.filtered_df na_text df f))
  /\ StronglySorted (fun a b => AppParquet.total_of b <= AppParquet.total_of a)
                    (AppParquet.top_athletes (AppParquet.filtered_df na_text df f))
  /\ (exists rest,
         Permutation (AppParquet.filtered_df na_text df f)
                     (AppParquet.top_athletes (AppParquet.filtered_df na_text df f)
                      ++ rest)
         /\ forall a b,
             In a (AppParquet.top_athletes (AppParquet.filtered_df na_text df f)) ->
             In b rest ->
             AppParquet.total_of b <= AppParquet.total_of a)
  /\ AppParquet.top_10 (AppParquet.filtered_df na_text df f)
     = nlargest 10 AppParquet.total_of (AppParquet.filtered_df na_text df f).
Proof.
  set (shown := AppParquet.filtered_df na_text df f).
  destruct (nlargest_spec AppParquet.total_of 20 shown) as (_ & H2 & rest & Hp & Hc).
  split; [|split; [|split; [exact H2|split]]].
  - unfold AppParquet.top_athletes, nlargest. rewrite length_firstn.
    rewrite (Permutation_length (sort_desc_perm AppParquet.total_of shown)).
    reflexivity.
  - apply Forall_forall. intros r Hr.
    assert (Hin : In r shown).
    { apply (Permutation_in r (Permutation_sym Hp)). apply in_or_app. left. exact Hr. }
    split; [exact Hin|].
    destruct (filtered_df_In na_text df f r Hin) as (_ & _ & _ & _ & _ & _ & t & Et & _).
    unfold AppParquet.total_of. rewrite Et. reflexivity.
  - exists rest. split; [exact Hp | exact Hc].
  - unfold AppParquet.top_10, AppParquet.top_athletes, nlargest.
    rewrite firstn_firstn. reflexivity.
Qed.

(** ** The options of the comparison form *)

Lemma str_compare_trans (a : string) :
  forall b c, String.compare a b <> Gt -> String.compare b c <> Gt ->
              String.compare a c <> Gt.
Proof.
  induction a as [|x a IH]; intros [|y b] [|z c]; simpl; try congruence.
  unfold Ascii.compare.
  destruct (N.compare_spec (N_of_ascii x) (N_of_ascii y)) as [Exy|Lxy|Gxy];
    destruct (N.compare_spec (N_of_ascii y) (N_of_ascii z)) as [Eyz|Lyz|Gyz];
    try congruence; intros Hab Hbc.
  - rewrite Exy, Eyz, N.compare_refl. apply (IH b c); assumption.
  - rewrite Exy. rewrite (proj2 (N.compare_lt_iff _ _) Lyz). discriminate.
  - rewrite <- Eyz. rewrite (proj2 (N.compare_lt_iff _ _) Lxy). discriminate.
  - rewrite (proj2 (N.compare_lt_iff _ _) (N.lt_trans _ _ _ Lxy Lyz)). discriminate.
Qed.

Lemma str_leb_trans (a b c : string) :
  String.leb a b = true -> String.leb b c = true -> String.leb a c = true.
Proof.
  unfold String.leb. intros Hab Hbc.
  pose proof (str_compare_trans a b c) as H.
  destruct (String.compare a b); try discriminate;
    destruct (String.compare b c); try discriminate;
    destruct (String.compare a c); try reflexivity;
    exfalso; apply H; congruence.
Qed.

Lemma insert_str_In (x y : string) (l : list string) :
  In y (insert_str x l) <-> y = x \/ In y l.
Proof.
  induction l as [|z r IH]; simpl.
  - split; [intros [H|[]]; left; congruence | intros [H|[]]; left; congruence].
  - destruct (String.leb x z); simpl.
    + split; [intros [H|H]; [left; congruence | right; exact H]
             | intros [H|H]; [left; congruence | right; exact H]].
    + rewrite IH. tauto.
Qed.

Lemma sorted_str_In (y : string) (l : list string) : In y (sorted_str l) <-> In y l.
Proof.
  induction l as [|x l IH]; simpl; [tauto|].
  rewrite insert_str_In, IH. split; intros [H|H]; auto.
Qed.

Lemma insert_str_sorted (x : string) (l : list string) :
  StronglySorted (fun a b => String.leb a b = true) l ->
  StronglySorted (fun a b => String.leb a b = true) (insert_str x l).
Proof.
  induction 1 as [|y r Hs IH Hy]; simpl.
  - constructor; constructor.
  - destruct (String.leb x y) eqn:E.
    + constructor; [constructor; assumption|].
      constructor; [exact E|].
      eapply Forall_impl; [|exact Hy]. intros z Hz. cbv beta in Hz |- *.
      apply (str_leb_trans x y z); assumption.
    + constructor; [exact IH|].
      apply Forall_forall. intros z Hz. apply insert_str_In in Hz.
      destruct Hz as [-> | Hz].
      * destruct (String.leb_total x y) as [H|H]; [congruence | exact H].
      * rewrite Forall_forall in Hy. apply Hy. exact Hz.
Qed.

Lemma insert_str_NoDup (x : string) (l : list string) :
  ~ In x l -> NoDup l -> NoDup (insert_str x l).
Proof.
  induction l as [|y r IH]; simpl; intros Hx Hnd.
  - constructor; [intros [] | constructor].
  - destruct (String.leb x y).
    + constructor; [exact Hx | exact Hnd].
    + inversion Hnd as [|? ? Hy Hr]; subst. constructor.
      * rewrite insert_str_In. intros [E | H]; [|contradiction].
        apply Hx. left. exact E.
      * apply IH; [intro H; apply Hx; right; exact H | exact Hr].
Qed.

Lemma sorted_str_spec (l : list string) :
  StronglySorted (fun a b => String.leb a b = true) (sorted_str l)
  /\ (NoDup l -> NoDup (sorted_str l)).
Proof.
  induction l as [|x l [IH1 IH2]]; simpl.
  - split; [constructor | intros _; constructor].
  - split; [apply insert_str_sorted; exact IH1|].
    intro Hnd. inversion Hnd as [|? ? Hx Hl]; subst.
    apply insert_str_NoDup; [rewrite sorted_str_In; exact Hx | apply IH2; exact Hl].
Qed.

Lemma unique_spec (l : list string) :
  NoDup (unique l) /\ forall y, In y (unique l) <-> In y l.
Proof.
  induction l as [|x l [IH1 IH2]]; simpl.
  - split; [constructor | tauto].
  - split.
    + constructor.
      * rewrite filter_In. intros [_ H]. rewrite String.eqb_refl in H. discriminate.
      * apply NoDup_filter. exact IH1.
    + intro y. rewrite filter_In, IH2, negb_true_iff, String.eqb_neq.
      destruct (string_dec x y) as [E | N]; [tauto|]. tauto.
Qed.

(** X21.  The options offered by a select box of the comparison form are
    in ascending order and without repetition, none of them is blank,
    and they are exactly the non-blank values that occur in the column. *)
Theorem form_options_are_clean
        (strip : string -> string) (series : list (option string)) :
  StronglySorted (fun a b => String.leb a b = true)
                 (AppParquet._safe_unique_sorted strip series)
  /\ NoDup (AppParquet._safe_unique_sorted strip series)
  /\ forall v, In v (AppParquet._safe_unique_sorted strip series)
               <-> In (Some v) series /\ strip v <> ""%string.
Proof.
  unfold AppParquet._safe_unique_sorted. cbv zeta.
  set (present := flat_map (fun c => match c with Some v => [v] | None => [] end) series).
  assert (Hp : forall v, In v present <-> In (Some v) series).
  { intro v. unfold present. rewrite in_flat_map. split.
    - intros ([w|] & Hin & Hv); [|destruct Hv].
      destruct Hv as [<- | []]. exact Hin.
    - intro H. exists (Some v). split; [exact H | left; reflexivity]. }
  destruct (unique_spec present) as [Hnd Hin].
  destruct (sorted_str_spec
              (filter (fun v => negb (String.eqb (strip v) "")) (unique present)))
    as [Hs Hn].
  split; [exact Hs|]. split; [apply Hn; apply NoDup_filter; exact Hnd|].
  intro v. rewrite sorted_str_In, filter_In, Hin, Hp, negb_true_iff, String.eqb_neq.
  tauto.
Qed.

(** ** The composition of the total *)

Lemma sum_map_add3 {A : Type} (f g h : A -> Q) (l : list A) :
  sum (map f l) + sum (map g l) + sum (map h l)
  == sum (map (fun r => f r + g r + h r) l).
Proof.
  induction l as [|r l IH]; cbn [map]; [cbn [sum fold_right]; ring|].
  rewrite !sum_cons, <- IH. ring.
Qed.

Lemma sum_map_ones {A : Type} (k : A -> Q) (l : list A) :
  (forall r, In r l -> k r == 1) -> sum (map k l) == len l.
Proof.
  induction l as [|r l IH]; intro H.
  - unfold len. cbn [map sum fold_right List.length Z.of_nat]. reflexivity.
  - cbn [map]. rewrite sum_cons, len_cons.
    rewrite (H r (or_introl eq_refl)).
    rewrite IH by (intros r' Hr'; apply H; right; exact Hr'). ring.
Qed.

Lemma lift_status_spec (u a : Q) :
  (AppParquet.lift_status u a = Some AppParquet.Fortaleza <-> a + 2 <= u)
  /\ (AppParquet.lift_status u a = Some AppParquet.Oportunidad <-> u + 2 <= a)
  /\ (AppParquet.lift_status u a = None <-> a - 2 < u /\ u < a + 2).
Proof.
  unfold AppParquet.lift_status. cbv zeta.
  destruct (Qlt_le_dec 0 (u - a)) as [Hpos | Hneg].
  - assert (Eabs : Qabs (u - a) == u - a) by (apply Qabs_pos; lra).
    apply Qltb_lt in Hpos as Hb. rewrite Hb.
    destruct (Qle_bool 2 (Qabs (u - a))) eqn:E.
    + apply Qle_bool_iff in E. rewrite Eabs in E.
      repeat split; try discriminate; try reflexivity; intros; lra.
    + assert (~ 2 <= u - a).
      { intro H. rewrite <- Eabs in H. apply Qle_bool_iff in H. congruence. }
      repeat split; try discriminate; try reflexivity; intros; lra.
  - assert (Eabs : Qabs (u - a) == - (u - a)) by (apply Qabs_neg; exact Hneg).
    assert (Hb : Qltb 0 (u - a) = false) by (apply Qltb_ge; exact Hneg).
    rewrite Hb.
    destruct (Qle_bool 2 (Qabs (u - a))) eqn:E.
    + apply Qle_bool_iff in E. rewrite Eabs in E.
      repeat split; try discriminate; try reflexivity; intros; lra.
    + assert (~ 2 <= - (u - a)).
      { intro H. rewrite <- Eabs in H. apply Qle_bool_iff in H. congruence. }
      repeat split; try discriminate; try reflexivity; intros; lra.
Qed.

Lemma category_shares_add_up (cl : dataframe) :
  cl <> [] ->
  (forall r, In r cl ->
             exists s b d t,
               Best3SquatKg r = Some s /\ Best3BenchKg r = Some b
               /\ Best3DeadliftKg r = Some d /\ TotalKg r = Some t
               /\ 0 < t /\ t == s + b + d) ->
  AppParquet.avg_share Best3SquatKg cl + AppParquet.avg_share Best3BenchKg cl
  + AppParquet.avg_share Best3DeadliftKg cl == 100.
Proof.
  intros Hne Hrows. unfold AppParquet.avg_share, mean. rewrite !len_map.
  pose proof (len_pos cl Hne) as Hp.
  assert (Hsum : sum (map (AppParquet.share Best3SquatKg) cl)
                 + sum (map (AppParquet.share Best3BenchKg) cl)
                 + sum (map (AppParquet.share Best3DeadliftKg) cl) == len cl).
  { rewrite sum_map_add3. apply sum_map_ones. intros r Hr.
    destruct (Hrows r Hr) as (s & b & d & t & Es & Eb & Ed & Et & Ht & Hsum).
    unfold AppParquet.share. rewrite Es, Eb, Ed, Et.
    setoid_replace (s / t + b / t + d / t) with ((s + b + d) / t)
      by (field; lra).
    rewrite <- Hsum. field. lra. }
  setoid_replace (sum (map (AppParquet.share Best3SquatKg) cl) / len cl * 100
                  + sum (map (AppParquet.share Best3BenchKg) cl) / len cl * 100
                  + sum (map (AppParquet.share Best3DeadliftKg) cl) / len cl * 100)
    with ((sum (map (AppParquet.share Best3SquatKg) cl)
           + sum (map (AppParquet.share Best3BenchKg) cl)
           + sum (map (AppParquet.share Best3DeadliftKg) cl)) / len cl * 100)
    by (field; lra).
  rewrite Hsum. field. lra.
Qed.

(** X22.  When the composition analysis is written it has one line per
    lift and the user's three shares add up to 100; a lift is marked
    "Fortaleza" exactly when the user's share is 2 points or more above
    the category average, "Oportunidad" exactly when it is 2 points or
    more below.  When every category row has a positive total equal to
    the sum of its lifts, the category averages add up to 100 as well,
    so the three lifts are never all marked "Fortaleza" nor all marked
    "Oportunidad". *)
Theorem composition_analysis
        (comparison_data : dataframe) (u : AppParquet.personal_data)
        (lines : list AppParquet.lift_line) :
  AppParquet.lifts_analysis comparison_data u = Some lines ->
  exists sq be dl,
    lines = [sq; be; dl]
    /\ AppParquet.user_share sq + AppParquet.user_share be
       + AppParquet.user_share dl == 100
    /\ Forall (fun l =>
                 (AppParquet.status l = Some AppParquet.Fortaleza <->
                  AppParquet.category_share l + 2 <= AppParquet.user_share l)
                 /\ (AppParquet.status l = Some AppParquet.Oportunidad <->
                     AppParquet.user_share l + 2 <= AppParquet.category_share l))
              lines
    /\ ((forall r, In r (AppParquet.category_lifts comparison_data) ->
                   exists s b d t,
                     Best3SquatKg r = Some s /\ Best3BenchKg r = Some b
                     /\ Best3DeadliftKg r = Some d /\ TotalKg r = Some t
                     /\ 0 < t /\ t == s + b + d) ->
        AppParquet.category_share sq + AppParquet.category_share be
        + AppParquet.category_share dl == 100
        /\ ~ Forall (fun l => AppParquet.status l = Some AppParquet.Fortaleza) lines
        /\ ~ Forall (fun l => AppParquet.status l = Some AppParquet.Oportunidad) lines).
Proof.
  unfold AppParquet.lifts_analysis. cbv zeta.
  destruct (AppParquet.category_lifts comparison_data) as [|r0 cl0] eqn:Ecl;
    [discriminate|].
  set (cl := r0 :: cl0) in *.
  destruct (Qltb 0 (AppParquet.user_squat u + AppParquet.user_bench u
                    + AppParquet.user_deadlift u)) eqn:Epos; [|discriminate].
  apply Qltb_lt in Epos. intros [= <-]. cbn [map fst snd].
  eexists. eexists. eexists. split; [reflexivity|].
  cbn [AppParquet.user_share AppParquet.category_share AppParquet.status].
  set (t := AppParquet.user_squat u + AppParquet.user_bench u
            + AppParquet.user_deadlift u) in *.
  assert (Hu : AppParquet.user_squat u / t * 100 + AppParquet.user_bench u / t * 100
               + AppParquet.user_deadlift u / t * 100 == 100).
  { unfold t. field. fold t. lra. }
  split; [exact Hu|]. split.
  - repeat (apply Forall_cons;
            [cbn [AppParquet.user_share AppParquet.category_share AppParquet.status];
             split; apply lift_status_spec|]).
    apply Forall_nil.
  - intro Hrows.
    assert (Ha : AppParquet.avg_share Best3SquatKg cl
                 + AppParquet.avg_share Best3BenchKg cl
                 + AppParquet.avg_share Best3DeadliftKg cl == 100).
    { apply category_shares_add_up; [discriminate | exact Hrows]. }
    split; [exact Ha|]. split; intro Hall;
      inversion Hall as [|? ? H1 Hall1]; subst;
      inversion Hall1 as [|? ? H2 Hall2]; subst;
      inversion Hall2 as [|? ? H3 _]; subst;
      cbn [AppParquet.status] in H1, H2, H3;
      apply lift_status_spec in H1; apply lift_status_spec in H2;
      apply lift_status_spec in H3; lra.
Qed.

(** ** Counts with dots *)

Lemma group3_keeps_digits (n : nat) :
  forall l, (List.length l <= n)%nat ->
            (forall c, In c (group3 l) -> c = ","%char \/ In c l)
            /\ (Forall (fun c => c <> ","%char) l ->
                filter (fun c => negb (Ascii.eqb c ",")) (group3 l) = l).
Proof.
  induction n as [|n IH]; intros l Hl.
  - destruct l; [|simpl in Hl; lia]. split; [intros c [] | reflexivity].
  - destruct l as [|a [|b [|c [|d rest]]]];
      try (split; [intros x Hx; right; exact Hx|];
           intro H; cbn [group3]; apply forallb_filter_id;
           apply forallb_forall; intros x Hx;
           rewrite Forall_forall in H; apply negb_true_iff, Ascii.eqb_neq, H, Hx).
    change (group3 (a :: b :: c :: d :: rest))
      with (a :: b :: c :: ","%char :: group3 (d :: rest)).
    destruct (IH (d :: rest)) as [IHin IHf]; [simpl in Hl |- *; lia|].
    remember (group3 (d :: rest)) as g eqn:Eg. clear Eg.
    split.
    + intros x [<- | [<- | [<- | [<- | Hx]]]]; simpl; auto.
      destruct (IHin x Hx) as [E | Hin]; [left; exact E | right; auto].
    + intro H. inversion H as [|? ? Ha H1]; subst.
      inversion H1 as [|? ? Hb H2]; subst. inversion H2 as [|? ? Hc H3]; subst.
      cbn [filter].
      rewrite (proj2 (Ascii.eqb_neq a ",") Ha), (proj2 (Ascii.eqb_neq b ",") Hb),
        (proj2 (Ascii.eqb_neq c ",") Hc), Ascii.eqb_refl.
      cbn [negb]. rewrite (IHf H3). reflexivity.
Qed.

Lemma dots_removed (l : list ascii) :
  Forall (fun c => c = ","%char \/ c <> "."%char) l ->
  filter (fun c => negb (Ascii.eqb c "."))
         (map (fun c => if Ascii.eqb c "," then "."%char else c) l)
  = filter (fun c => negb (Ascii.eqb c ",")) l.
Proof.
  induction 1 as [|c l Hc _ IH]; [reflexivity|].
  cbn [map filter]. rewrite IH.
  destruct (Ascii.eqb c ",") eqn:E; [reflexivity|].
  destruct Hc as [-> | Hc]; [rewrite Ascii.eqb_refl in E; discriminate|].
  rewrite (proj2 (Ascii.eqb_neq c ".") Hc). reflexivity.
Qed.

Lemma uint_digits (d : Decimal.uint) :
  Forall (fun c => c <> ","%char /\ c <> "."%char)
         (list_ascii_of_string (NilEmpty.string_of_uint d)).
Proof.
  induction d; cbn [NilEmpty.string_of_uint list_ascii_of_string];
    constructor; try assumption; split; discriminate.
Qed.

Lemma str_of_int_digits (n : Z) :
  Forall (fun c => c <> ","%char /\ c <> "."%char)
         (list_ascii_of_string (str_of_int n)).
Proof.
  assert (H : forall d, Forall (fun c => c <> ","%char /\ c <> "."%char)
                               (list_ascii_of_string (NilZero.string_of_uint d))).
  { intro d. unfold NilZero.string_of_uint.
    destruct d; try apply uint_digits.
    repeat constructor; discriminate. }
  unfold str_of_int, NilZero.string_of_int.
  destruct (Z.to_int n); [apply H|].
  cbn [list_ascii_of_string]. constructor; [split; discriminate | apply H].
Qed.

Lemma str_round_trip (n : Z) : int_of_str (str_of_int n) = Some n.
Proof.
  unfold int_of_str, str_of_int. rewrite NilZero.isi.
  - cbn [option_map]. rewrite DecimalZ.of_to. reflexivity.
  - destruct n; simpl; try discriminate.
    intros [= E]. apply (DecimalPos.Unsigned.to_uint_nonnil _ E).
  - destruct n; simpl; try discriminate.
    intros [= E]. apply (DecimalPos.Unsigned.to_uint_nonnil _ E).
Qed.

(** X23.  [format_count] writes an integer with dots and nothing else:
    deleting the dots gives back the decimal digits of the number, which
    read back as the number.  Numbers below 1000, negative ones
    included, are written without any dot, and a value that is not a
    number is written "0". *)
Theorem format_count_round_trip (n : Z) :
  remove_char "." (App.format_count (PyInt n)) = str_of_int n
  /\ int_of_str (remove_char "." (App.format_count (PyInt n))) = Some n
  /\ ((n < 1000)%Z -> App.format_count (PyInt n) = str_of_int n)
  /\ App.format_count PyNaN = "0"%string.
Proof.
  assert (Hplain : remove_char "." (str_of_int n) = str_of_int n).
  { unfold remove_char. rewrite forallb_filter_id.
    - apply string_of_list_ascii_of_string.
    - apply forallb_forall. intros c Hc.
      pose proof (str_of_int_digits n) as H. rewrite Forall_forall in H.
      apply negb_true_iff, Ascii.eqb_neq. apply (H c Hc). }
  assert (Hround : remove_char "." (App.format_count (PyInt n)) = str_of_int n).
  { unfold App.format_count. cbn [App.py_int].
    destruct (1000 <=? n)%Z; [|exact Hplain].
    unfold remove_char, replace_char, format_commas.
    rewrite !list_ascii_of_string_of_list_ascii.
    set (digits := list_ascii_of_string (str_of_int n)).
    pose proof (str_of_int_digits n) as Hd. fold digits in Hd.
    destruct (group3_keeps_digits (List.length (rev digits)) (rev digits) (le_n _))
      as [Hin Hf].
    rewrite dots_removed.
    - rewrite filter_rev, Hf, rev_involutive.
      + apply string_of_list_ascii_of_string.
      + apply Forall_forall. intros c Hc. apply in_rev in Hc.
        rewrite Forall_forall in Hd. apply (Hd c Hc).
    - apply Forall_forall. intros c Hc. apply in_rev in Hc.
      destruct (Hin c Hc) as [E | H]; [left; exact E|].
      right. apply in_rev in H. rewrite Forall_forall in Hd. apply (Hd c H). }
  split; [exact Hround|]. split; [rewrite Hround; apply str_round_trip|].
  split; [|reflexivity].
  intro Hlt. unfold App.format_count. cbn [App.py_int].
  destruct (1000 <=? n)%Z eqn:E; [apply Z.leb_le in E; lia | reflexivity].
Qed.

(** ** The further properties at concrete inputs *)

Lemma percentile_grows_with_value_witness :
  95 <= 105
  /\ AppParquet._percentile_less_than
       Samples.parse (map (fun r => AppParquet.float_cell (TotalKg r)) Samples.five) 95
     <= AppParquet._percentile_less_than
          Samples.parse (map (fun r => AppParquet.float_cell (TotalKg r)) Samples.five)
          105
  /\ 30 + 30 + 35 <= 40 + 30 + 35
  /\ App.comp_df Samples.five "F" 63 <> []
  /\ exists p1 p2,
      App.percentil Samples.five "F" 63 30 30 35 = Some p1
      /\ App.percentil Samples.five "F" 63 40 30 35 = Some p2
      /\ p1 <= p2.
Proof.
  assert (H1 : 95 <= 105) by (vm_compute; discriminate).
  assert (H2 : 30 + 30 + 35 <= 40 + 30 + 35) by (vm_compute; discriminate).
  assert (H3 : App.comp_df Samples.five "F" 63 <> []) by discriminate.
  destruct (percentile_grows_with_value
              Samples.parse
              (map (fun r => AppParquet.float_cell (TotalKg r)) Samples.five)
              95 105 Samples.five "F" 63 30 30 35 40 30 35) as [Ha Hb].
  split; [exact H1|]. split; [exact (Ha H1)|]. split; [exact H2|].
  split; [exact H3 | exact (Hb H2 H3)].
Defined.

Lemma percentile_extremes_witness :
  AppParquet.to_numeric_dropna
    Samples.parse (map (fun r => AppParquet.float_cell (TotalKg r)) Samples.five) <> []
  /\ AppParquet._percentile_less_than
       Samples.parse (map (fun r => AppParquet.float_cell (TotalKg r)) Samples.five) 130
     == 100
  /\ AppParquet._percentile_less_than
       Samples.parse (map (fun r => AppParquet.float_cell (TotalKg r)) Samples.five) 80
     == 0.
Proof.
  assert (Hne : AppParquet.to_numeric_dropna
                  Samples.parse
                  (map (fun r => AppParquet.float_cell (TotalKg r)) Samples.five) <> [])
    by discriminate.
  split; [exact Hne|]. split.
  - apply (proj2 (percentile_extremes Samples.parse _ 130 Hne)).
    repeat constructor.
  - apply (proj1 (percentile_extremes Samples.parse _ 80 Hne)).
    repeat constructor; vm_compute; discriminate.
Defined.

Lemma quantile_within_data_witness :
  dropna (map TotalKg Samples.five) <> [] /\ 0 <= 3 # 4 /\ 3 # 4 <= 1
  /\ series_min (dropna (map TotalKg Samples.five))
     <= quantile (map TotalKg Samples.five) (3 # 4)
     <= series_max (dropna (map TotalKg Samples.five))
  /\ quantile (map TotalKg Samples.five) 0 == 80
  /\ quantile (map TotalKg Samples.five) 1 == 120.
Proof.
  assert (Hne : dropna (map TotalKg Samples.five) <> []) by discriminate.
  assert (H0 : 0 <= 3 # 4) by (vm_compute; discriminate).
  assert (H1 : 3 # 4 <= 1) by (vm_compute; discriminate).
  destruct (quantile_within_data (map TotalKg Samples.five) (3 # 4) Hne H0 H1)
    as (Hb & Hlo & Hhi).
  split; [exact Hne|]. split; [exact H0|]. split; [exact H1|].
  split; [exact Hb|]. split.
  - eapply Qeq_trans; [exact Hlo | vm_compute; reflexivity].
  - eapply Qeq_trans; [exact Hhi | vm_compute; reflexivity].
Defined.

Lemma goals_within_cohort_witness :
  dropna (map TotalKg Samples.twelve) <> []
  /\ Forall (fun o => series_min (dropna (map TotalKg Samples.twelve)) <= snd o
                      <= series_max (dropna (map TotalKg Samples.twelve)))
            (AppParquet.objectives Samples.twelve).
Proof.
  assert (Hne : dropna (map TotalKg Samples.twelve) <> []) by discriminate.
  split; [exact Hne | exact (goals_within_cohort Samples.twelve Hne)].
Defined.



Lemma dashboards_select_alike_witness :
  AppParquet.filtered_df
    "nan" Samples.five_and_a_bombout
    (AppParquet.mkfilters "F" "Todos" "Todos" (2020, 2021)%Z "Todos" (85, 105))
  = App.tab1_filtered
      Samples.five_and_a_bombout
      (App.mksidebar "F" "Todos" "Todos" (2020, 2021)%Z "Todos" (85, 105)).
Proof.
  apply dashboards_select_alike; try reflexivity; discriminate.
Defined.

Lemma projection_of_a_line_witness :
  (forall p, In p (App.date_col_dropna Samples.rising Best3SquatKg) ->
             snd p == (1 # 6) * inject_Z (toordinal (fst p))
                      + (100 - (1 # 6) * inject_Z (toordinal (mkdate 2020 1 1))))
  /\ App.y_fut (App.date_col_dropna Samples.rising Best3SquatKg)
     == (1 # 6) * inject_Z (toordinal (mkdate 2020 9 1))
        + (100 - (1 # 6) * inject_Z (toordinal (mkdate 2020 1 1))).
Proof.
  assert (Hline : forall p,
             In p (App.date_col_dropna Samples.rising Best3SquatKg) ->
             snd p == (1 # 6) * inject_Z (toordinal (fst p))
                      + (100 - (1 # 6) * inject_Z (toordinal (mkdate 2020 1 1)))).
  { intros p [<- | [<- | [<- | []]]]; vm_compute; reflexivity. }
  split; [exact Hline|].
  apply (projection_of_a_line _ _ _ Hline).
  exists (mkdate 2020 1 1, 100), (mkdate 2020 1 31, 105).
  split; [left; reflexivity|]. split; [right; left; reflexivity|].
  vm_compute; discriminate.
Defined.

Lemma score_col_takes_first_present_witness :
  App.score_col ["Name"; "Goodlift"; "Wilks"]%string = Some "Wilks"%string.
Proof.
  apply (proj1 (score_col_takes_first_present ["Name"; "Goodlift"; "Wilks"]%string)
               ["Dots"%string] "Wilks"%string ["Goodlift"; "Glossbrenner"]%string).
  - reflexivity.
  - intros b [<- | []] [E | [E | [E | []]]]; discriminate.
  - right; right; left; reflexivity.
Defined.

Lemma my_category_mask_marks_same_category_witness :
  nth_error Samples.classed 1 = nth_error Samples.classed 1
  /\ nth_error (App.my_category_mask
                  "nan" Samples.classed
                  (mkclassed (Samples.entry (Some "F"%string) (Some 2021%Z)
                                            (Some 62) (Some 310))
                             (Some "63"%string))) 1
     = Some true.
Proof.
  split; [reflexivity|].
  apply (proj2 (my_category_mask_marks_same_category "nan" Samples.classed _)).
  reflexivity.
Defined.

Lemma closest_superior_witness :
  App.falta Samples.five 95 = Some (100 - 95)
  /\ 0 < 100 - 95
  /\ App.falta Samples.five 120 = None.
Proof.
  split; [reflexivity|]. split.
  - apply (proj2 (closest_superior Samples.five 95) (100 - 95)). reflexivity.
  - apply (proj1 (closest_superior Samples.five 120)).
    repeat constructor.
Defined.

Lemma table_record_and_card_witness :
  exists line card,
    In line (App.proj_of "Squat" Samples.rising Best3SquatKg)
    /\ App.pr_card Samples.rising Best3SquatKg = Some card
    /\ App.PR_actual line <= card.
Proof.
  destruct (App.proj_of "Squat" Samples.rising Best3SquatKg) as [|line t] eqn:E;
    [vm_compute in E; discriminate|].
  assert (Hin : In line (App.proj_of "Squat" Samples.rising Best3SquatKg))
    by (rewrite E; left; reflexivity).
  destruct (table_record_and_card "Squat" Samples.rising Best3SquatKg line Hin)
    as (card & Hc & Hle & _).
  exists line, card. split; [left; reflexivity|]. split; [exact Hc | exact Hle].
Defined.

Lemma first_view_starts_in_2010_witness :
  AppParquet.initial_filters Samples.five_and_a_bombout
  = Some (AppParquet.mkfilters "Todos" "Todos" "Todos" (2010, 2021)%Z "Todos" (80, 120))
  /\ AppParquet.filtered_df
       "nan" Samples.five_and_a_bombout
       (AppParquet.mkfilters "Todos" "Todos" "Todos" (2010, 2021)%Z "Todos" (80, 120))
     = Samples.five.
Proof.
  assert (E : AppParquet.initial_filters Samples.five_and_a_bombout
              = Some (AppParquet.mkfilters "Todos" "Todos" "Todos" (2010, 2021)%Z
                                           "Todos" (80, 120))) by reflexivity.
  split; [exact E|].
  rewrite (first_view_starts_in_2010 "nan" _ _ E). reflexivity.
Defined.

Lemma monthly_bars_count_dated_records_witness :
  (forall r d, In r Samples.season -> Date r = Some d -> (1 <= month d <= 12)%Z)
  /\ AppParquet.yvals Samples.season = [3; 0; 2; 0; 0; 0; 0; 0; 0; 0; 4; 0]%nat
  /\ list_sum (AppParquet.yvals Samples.season)
     = List.length (filter (fun r => notna (Date r)) Samples.season).
Proof.
  assert (Hm : forall r d, In r Samples.season -> Date r = Some d ->
                           (1 <= month d <= 12)%Z).
  { intros r d Hin.
    repeat (destruct Hin as [<- | Hin];
            [intro E; simpl in E; inversion E; subst; simpl; lia|]).
    destruct Hin. }
  split; [exact Hm|]. split; [reflexivity|].
  exact (proj2 (monthly_bars_count_dated_records Samples.season Hm)).
Defined.

Lemma composition_analysis_witness :
  exists sq be dl,
    AppParquet.lifts_analysis Samples.builders Samples.squatter = Some [sq; be; dl]
    /\ AppParquet.user_share sq + AppParquet.user_share be
       + AppParquet.user_share dl == 100.
Proof.
  destruct (AppParquet.lifts_analysis Samples.builders Samples.squatter)
    as [lines|] eqn:E; [|vm_compute in E; discriminate].
  destruct (composition_analysis Samples.builders Samples.squatter lines E)
    as (sq & be & dl & -> & Hsum & _).
  exists sq, be, dl. split; [reflexivity | exact Hsum].
Defined.

Lemma format_count_round_trip_witness :
  App.format_count (PyInt 1234567) = "1.234.567"%string
  /\ int_of_str (remove_char "." (App.format_count (PyInt 1234567))) = Some 1234567%Z
  /\ App.format_count (PyInt 999) = str_of_int 999.
Proof.
  destruct (format_count_round_trip 1234567) as (_ & Hrt & _).
  destruct (format_count_round_trip 999) as (_ & _ & Hsmall & _).
  split; [reflexivity|]. split; [exact Hrt | apply Hsmall; reflexivity].
Defined.

(** ** The guard of the comparison form *)

Lemma options_In (strip : string -> string) (series : list (option string)) (v : string) :
  In v (AppParquet._safe_unique_sorted strip series)
  <-> In (Some v) series /\ strip v <> ""%string.
Proof.
  unfold AppParquet._safe_unique_sorted. cbv zeta.
  rewrite sorted_str_In, filter_In, (proj2 (unique_spec _)), in_flat_map,
    negb_true_iff, String.eqb_neq.
  split.
  - intros [([w|] & Hin & Hv) Hs]; [|destruct Hv].
    destruct Hv as [<- | []]. split; assumption.
  - intros [Hin Hs]. split; [|exact Hs].
    exists (Some v). split; [exact Hin | left; reflexivity].
Qed.

Lemma options_offered (strip : string -> string) (series : list (option string)) :
  negb (match AppParquet._safe_unique_sorted strip series with
        | [] => true
        | _ => false
        end) = true
  <-> exists v, In (Some v) series /\ strip v <> ""%string.
Proof.
  destruct (AppParquet._safe_unique_sorted strip series) as [|o rest] eqn:E; simpl.
  - split; [discriminate|]. intros (v & Hv).
    apply (options_In strip) in Hv. rewrite E in Hv. destruct Hv.
  - split; [|reflexivity]. intros _. exists o.
    apply (options_In strip). rewrite E. left. reflexivity.
Qed.

(** X24.  The comparison form is offered exactly when each of the columns
    sex, equipment, age class and country holds at least one value that
    is not blank; otherwise the warning is shown instead. *)
Theorem form_offered_iff (strip : string -> string) (df : dataframe) :
  AppParquet.form_offered strip df = true
  <-> (exists v, In (Some v) (map Sex df) /\ strip v <> ""%string)
      /\ (exists v, In (Some v) (map Equipment df) /\ strip v <> ""%string)
      /\ (exists v, In (Some v) (map AgeClass df) /\ strip v <> ""%string)
      /\ (exists v, In (Some v) (map Country df) /\ strip v <> ""%string).
Proof.
  unfold AppParquet.form_offered.
  rewrite !andb_true_iff, !options_offered. tauto.
Qed.

Lemma form_options_are_clean_witness :
  In "F"%string
     (AppParquet._safe_unique_sorted
        Samples.strip_spaces
        [Some "M"; None; Some "  "; Some "F"; Some "M"]%string)
  /\ ~ In "  "%string
       (AppParquet._safe_unique_sorted
          Samples.strip_spaces
          [Some "M"; None; Some "  "; Some "F"; Some "M"]%string).
Proof.
  destruct (form_options_are_clean
              Samples.strip_spaces
              [Some "M"; None; Some "  "; Some "F"; Some "M"]%string)
    as (_ & _ & Hin).
  split.
  - apply Hin. split; [right; right; right; left; reflexivity | discriminate].
  - intro H. apply Hin in H. destruct H as [_ H]. apply H. reflexivity.
Defined.

Lemma running_pr_is_a_running_record_witness :
  nth_error [Some 100; None; Some 90; Some 110] 2 = Some (Some 90)
  /\ exists m,
      nth_error (App.running_pr [Some 100; None; Some 90; Some 110]) 2
      = Some (Some m)
      /\ In m (dropna (firstn 3 [Some 100; None; Some 90; Some 110]))
      /\ 90 <= m.
Proof.
  split; [reflexivity|].
  destruct (running_pr_is_a_running_record [Some 100; None; Some 90; Some 110])
    as (_ & Hnth & _).
  destruct (Hnth 2%nat (Some 90) eq_refl) as (m & Em & Hin & Hle).
  exists m. split; [exact Em|]. split; [exact Hin|].
  apply Hle. right; left; reflexivity.
Defined.
